(** * GitHub data-aggregation proxy of the portfolio website

    A shallow embedding of the server side of the site: the GraphQL
    transport ([src/lib/github/client.ts]), the statistics route
    ([src/app/api/github/stats/route.ts]) and the repository-listing route
    ([app/api/github/repos/route.ts]), followed by the properties the
    specification states about them.

    Conventions of the embedding:
    - a JavaScript [number] that the code only ever uses as an integer
      (HTTP status, counters returned by the GraphQL API, loop indices) is
      a [Z] or a [nat]; [NaN], which [parseInt] can produce, has its own
      constructor in [JS.number];
    - an optional or nullable field ([f?: T], [T | null]) is an [option];
    - a JavaScript string is the sequence of the bytes of its UTF-8
      encoding, one [ascii] per byte: a query parameter reaches the routes
      decoded from UTF-8, so every value they read has this form, and a
      character outside the ASCII range takes two or three bytes;
    - [async] code is sequential here: every [await] is a plain call, and
      the effects (HTTP requests issued, timers awaited) are threaded
      through an explicit [World];
    - a [throw] is the left injection of a sum, a [try]/[catch] a match. *)

From Stdlib Require Import ZArith List Bool Lia String Ascii.
From Stdlib Require Import Permutation Sorted.
From Stdlib Require Import DecimalString DecimalNat.
Import ListNotations.

Local Open Scope string_scope.
Local Open Scope list_scope.
Local Open Scope Z_scope.

(* ===================================================================== *)
(** ** Host-language operations the routes rely on *)
(* ===================================================================== *)

Module JS.

(** The results [parseInt] can yield: [NaN] or an integer. *)
Inductive number : Type :=
| NaN
| Int (z : Z).

(** [x || d] on an optional integer: [undefined], [null] and [0] are
    falsy and give the right operand. *)
Definition or_default (x : option Z) (d : Z) : Z :=
  match x with
  | Some n => if n =? 0 then d else n
  | None => d
  end.

(** [s || d] on an optional string: [null] and the empty string are
    falsy. *)
Definition or_string (x : option string) (d : string) : string :=
  match x with
  | Some EmptyString => d
  | Some s => s
  | None => d
  end.

(** [!s] on an optional string. *)
Definition falsy (x : option string) : bool :=
  match x with
  | Some EmptyString => true
  | Some _ => false
  | None => true
  end.

(** [String.prototype.toLowerCase], on the ASCII range. *)
Definition lower_ascii (c : ascii) : ascii :=
  let n := nat_of_ascii c in
  if (65 <=? n)%nat && (n <=? 90)%nat then ascii_of_nat (n + 32) else c.

Fixpoint toLowerCase (s : string) : string :=
  match s with
  | EmptyString => EmptyString
  | String c s' => String (lower_ascii c) (toLowerCase s')
  end.

(** [s.includes(sub)]: [sub] occurs in [s] at some position. *)
Fixpoint includes (s sub : string) : bool :=
  String.prefix sub s
  || match s with
     | EmptyString => false
     | String _ s' => includes s' sub
     end.

(** [s.split(',')]: the pieces between commas; never the empty array. *)
Fixpoint split_comma (s : string) : list string :=
  match s with
  | EmptyString => [EmptyString]
  | String c s' =>
      if Ascii.eqb c ","%char then EmptyString :: split_comma s'
      else match split_comma s' with
           | [] => [String c EmptyString]
           | piece :: pieces => String c piece :: pieces
           end
  end.

(** [Boolean] as a filter on strings. *)
Definition nonempty (s : string) : bool :=
  match s with
  | EmptyString => false
  | String _ _ => true
  end.

(** The white space that [parseInt] skips before the number: the
    [WhiteSpace] and [LineTerminator] characters of ECMAScript.  Those of
    one byte are TAB, LF, VT, FF, CR and the space. *)
Definition space1 (c : ascii) : bool :=
  let n := nat_of_ascii c in
  ((9 <=? n)%nat && (n <=? 13)%nat) || (n =? 32)%nat.

(** The only one of two bytes is the no-break space U+00A0. *)
Definition space2 (c1 c2 : ascii) : bool :=
  (nat_of_ascii c1 =? 194)%nat && (nat_of_ascii c2 =? 160)%nat.

(** Those of three bytes: U+1680, U+2000 to U+200A, the line and
    paragraph separators U+2028 and U+2029, U+202F, U+205F, U+3000 and
    the byte order mark U+FEFF. *)
Definition space3 (c1 c2 c3 : ascii) : bool :=
  let n1 := nat_of_ascii c1 in
  let n2 := nat_of_ascii c2 in
  let n3 := nat_of_ascii c3 in
  ((n1 =? 225)%nat && (n2 =? 154)%nat && (n3 =? 128)%nat)
  || ((n1 =? 226)%nat && (n2 =? 128)%nat
      && (((128 <=? n3)%nat && (n3 <=? 138)%nat)
          || (n3 =? 168)%nat || (n3 =? 169)%nat || (n3 =? 175)%nat))
  || ((n1 =? 226)%nat && (n2 =? 129)%nat && (n3 =? 159)%nat)
  || ((n1 =? 227)%nat && (n2 =? 128)%nat && (n3 =? 128)%nat)
  || ((n1 =? 239)%nat && (n2 =? 187)%nat && (n3 =? 191)%nat).

(** The bytes a white space character of more than one byte starts
    with. *)
Definition space_lead (c : ascii) : bool :=
  let n := nat_of_ascii c in
  (n =? 194)%nat || (n =? 225)%nat || (n =? 226)%nat || (n =? 227)%nat
  || (n =? 239)%nat.

(** The string without its leading white space. *)
Fixpoint trimStart (s : string) : string :=
  match s with
  | EmptyString => EmptyString
  | String c1 s1 =>
      if space1 c1 then trimStart s1
      else if negb (space_lead c1) then s
      else
        match s1 with
        | EmptyString => s
        | String c2 s2 =>
            if space2 c1 c2 then trimStart s2
            else
              match s2 with
              | EmptyString => s
              | String c3 s3 =>
                  if space3 c1 c2 c3 then trimStart s3 else s
              end
        end
  end.

(** Whether a string starts with a white space character. *)
Definition starts_with_space (s : string) : bool :=
  match s with
  | EmptyString => false
  | String c1 s1 =>
      space1 c1
      || match s1 with
         | EmptyString => false
         | String c2 s2 =>
             space2 c1 c2
             || match s2 with
                | EmptyString => false
                | String c3 _ => space3 c1 c2 c3
                end
         end
  end.

Definition digit_val (c : ascii) : option Z :=
  let n := nat_of_ascii c in
  if (48 <=? n)%nat && (n <=? 57)%nat then Some (Z.of_nat (n - 48)) else None.

(** The value of the longest prefix of decimal digits, [None] when the
    string does not start with a digit. *)
Fixpoint digits (s : string) (acc : option Z) : option Z :=
  match s with
  | EmptyString => acc
  | String c s' =>
      match digit_val c with
      | Some d =>
          digits s' (Some (10 * match acc with Some a => a | None => 0 end + d))
      | None => acc
      end
  end.

(** [parseInt(s, 10)]: leading white space, an optional sign, then
    decimal digits up to the first other character. *)
Definition parseInt (s : string) : number :=
  let s := trimStart s in
  let '(sign, rest) :=
    match s with
    | String "-"%char s' => (-1, s')
    | String "+"%char s' => (1, s')
    | _ => (1, s)
    end in
  match digits rest None with
  | None => NaN
  | Some n => Int (sign * n)
  end.

(** [arr.slice(0, end)]: [NaN] counts as 0, a negative end is taken from
    the end of the array, and the end is clamped to the length. *)
Definition slice0 {A : Type} (arr : list A) (end_ : number) : list A :=
  let len := Z.of_nat (List.length arr) in
  let relativeEnd := match end_ with NaN => 0 | Int z => z end in
  let final :=
    if relativeEnd <? 0 then Z.max (len + relativeEnd) 0
    else Z.min relativeEnd len in
  firstn (Z.to_nat final) arr.

(** [arr.sort(compare)]: the sort is stable, and [compare a b <= 0] keeps
    [a] before [b].  Insertion from the right gives exactly the stable
    order. *)
Section Sort.
Context {A : Type}.
Variable compare : A -> A -> Z.

Fixpoint insert (x : A) (sorted : list A) : list A :=
  match sorted with
  | [] => [x]
  | y :: rest =>
      if compare x y <=? 0 then x :: sorted else y :: insert x rest
  end.

Fixpoint sort (arr : list A) : list A :=
  match arr with
  | [] => []
  | x :: rest => insert x (sort rest)
  end.
End Sort.

(** [arr.slice(start)]: a negative start is taken from the end of the
    array; the start is clamped to the array. *)
Definition sliceFrom {A : Type} (arr : list A) (start : Z) : list A :=
  let len := Z.of_nat (List.length arr) in
  let k :=
    if start <? 0 then Z.max (len + start) 0 else Z.min start len in
  skipn (Z.to_nat k) arr.

(** The decimal rendering of a non-negative integer in a template
    literal: its digits, without leading zeros. *)
Definition natToString (n : nat) : string :=
  NilEmpty.string_of_uint (Nat.to_uint n).

(** [arr.join(',')]. *)
Definition join_comma (arr : list string) : string :=
  String.concat "," arr.

End JS.

(* ===================================================================== *)
(** ** GraphQL transport: [src/lib/github/client.ts] *)
(* ===================================================================== *)

Module Client.

Definition GITHUB_API_URL : string := "https://api.github.com/graphql".

Record GraphQLErrorEntry : Type := {
  message : string;
  type_ : string
}.

(** [interface GraphQLResponse<T>]. *)
Record GraphQLResponse (T : Type) : Type := {
  data : option T;
  errors : option (list GraphQLErrorEntry)
}.
Arguments data {T} _.
Arguments errors {T} _.

(** A value of [GraphQLVariables]. *)
Inductive VarValue : Type :=
| VString (s : string)
| VNumber (z : Z)
| VBool (b : bool)
| VNull.

Definition GraphQLVariables : Type := list (string * VarValue).

(** The POST that [fetchGitHubGraphQL] sends. *)
Record Request : Type := {
  url : string;
  method : string;
  contentType : string;
  authorization : string;
  body_query : string;
  body_variables : GraphQLVariables
}.

(** What the code reads of a [Response]: [json] is [None] when
    [response.json()] rejects. *)
Record Response (Json : Type) : Type := {
  status : Z;
  statusText : string;
  json : option Json
}.
Arguments status {Json} _.
Arguments statusText {Json} _.
Arguments json {Json} _.

(** [response.ok]: the status is in the range 200-299. *)
Definition ok {Json : Type} (response : Response Json) : bool :=
  (200 <=? status response) && (status response <=? 299).

(** One call of the request function: the promise rejects or resolves. *)
Inductive Attempt (Json : Type) : Type :=
| Rejects (reason : string)
| Resolves (response : Response Json).
Arguments Rejects {Json} _.
Arguments Resolves {Json} _.

(** [await response.json().catch(() => ({}))]. *)
Inductive ErrorData (Json : Type) : Type :=
| EmptyObject
| Parsed (payload : Json).
Arguments EmptyObject {Json}.
Arguments Parsed {Json} _.

(** The errors the transport raises, one constructor per [throw]:
    - [Rejected]: the rejection of [fetch] itself (network failure);
    - [RateLimit d]: [GitHub API rate limit exceeded: <d>];
    - [ApiError s t]: [GitHub API error: <s> <t>];
    - [MaxRetriesExceeded]: [Max retries exceeded];
    - [TokenRequired]: [GitHub token is required];
    - [BodyNotJson]: the rejection of [response.json()];
    - [GraphQLErrors text]: [text] is the whole message;
    - [NoData]: [No data returned from GitHub API]. *)
Inductive Error (Json : Type) : Type :=
| Rejected (reason : string)
| RateLimit (errorData : ErrorData Json)
| ApiError (code : Z) (text : string)
| MaxRetriesExceeded
| TokenRequired
| BodyNotJson
| GraphQLErrors (text : string)
| NoData.
Arguments Rejected {Json} _.
Arguments RateLimit {Json} _.
Arguments ApiError {Json} _ _.
Arguments MaxRetriesExceeded {Json}.
Arguments TokenRequired {Json}.
Arguments BodyNotJson {Json}.
Arguments GraphQLErrors {Json} _.
Arguments NoData {Json}.

(** The observable effects: how many HTTP requests were issued so far
    and which timers were awaited, oldest first. *)
Record World : Type := {
  requests : nat;
  slept : list Z
}.

Definition start : World := {| requests := 0; slept := [] |}.

Definition sleep (ms : Z) (w : World) : World :=
  {| requests := requests w; slept := slept w ++ [ms] |}.

(** How an iteration of the retry loop leaves its [try] block. *)
Inductive Completion (Json : Type) : Type :=
| Return (response : Response Json)
| Continue
| Throw (e : Error Json).
Arguments Return {Json} _.
Arguments Continue {Json}.
Arguments Throw {Json} _.

Section Transport.
Context {Json : Type}.

(** [requestFn k] is the outcome of the call that is the [k]-th
    request overall. *)
Definition invoke (requestFn : nat -> Attempt Json) (w : World)
  : Attempt Json * World :=
  (requestFn (requests w),
   {| requests := S (requests w); slept := slept w |}).

(** The [try] block of [retryRequest], lines 24-40.  Inside the loop
    [maxRetries >= 1], so [maxRetries - 1] on [nat] is the integer
    difference. *)
Definition try_block (requestFn : nat -> Attempt Json)
    (maxRetries : nat) (delay : Z) (i : nat) (w : World)
  : Completion Json * World :=
  let '(attempt, w1) := invoke requestFn w in
  match attempt with
  | Rejects reason => (Throw (Rejected reason), w1)
  | Resolves response =>
      if ok response then (Return response, w1)
      else if status response =? 403 then
        (Throw (RateLimit match json response with
                          | Some payload => Parsed payload
                          | None => EmptyObject
                          end), w1)
      else if (500 <=? status response) && (i <? maxRetries - 1)%nat then
        (Continue, sleep (delay * Z.of_nat (i + 1)) w1)
      else
        (Throw (ApiError (status response) (statusText response)), w1)
  end.

(** The [for] loop with its [catch] block; [remaining] counts the
    iterations left, [i + remaining = maxRetries]. *)
Fixpoint retry_loop (requestFn : nat -> Attempt Json)
    (maxRetries : nat) (delay : Z) (remaining i : nat) (w : World)
  : (Error Json + Response Json) * World :=
  match remaining with
  | O => (inl MaxRetriesExceeded, w)
  | S remaining' =>
      match try_block requestFn maxRetries delay i w with
      | (Return response, w1) => (inr response, w1)
      | (Continue, w1) =>
          retry_loop requestFn maxRetries delay remaining' (S i) w1
      | (Throw e, w1) =>
          if (i =? maxRetries - 1)%nat then (inl e, w1)
          else retry_loop requestFn maxRetries delay remaining' (S i)
                 (sleep (delay * Z.of_nat (i + 1)) w1)
      end
  end.

Definition retryRequest (requestFn : nat -> Attempt Json)
    (maxRetries : nat) (delay : Z) (w : World)
  : (Error Json + Response Json) * World :=
  retry_loop requestFn maxRetries delay maxRetries 0 w.

Context {T : Type}.

(** The typed reading of a parsed body,
    [const data: GraphQLResponse<T> = await response.json()]. *)
Variable view : Json -> GraphQLResponse T.

(** Lines 76-86: the checks on the parsed payload. *)
Definition check_payload (payload : GraphQLResponse T) : Error Json + T :=
  if match errors payload with
     | Some es => (0 <? List.length es)%nat
     | None => false
     end
  then
    inl (GraphQLErrors
           ("GraphQL errors: "
            ++ String.concat ", "
                 (map message
                    match errors payload with
                    | Some es => es
                    | None => []
                    end))%string)
  else
    match data payload with
    | None => inl NoData
    | Some d => inr d
    end.

Definition post (query : string) (variables : GraphQLVariables)
    (token : string) : Request :=
  {| url := GITHUB_API_URL;
     method := "POST";
     contentType := "application/json";
     authorization := ("bearer " ++ token)%string;
     body_query := query;
     body_variables := variables |}.

(** [network k request] is the outcome of sending [request] as the
    [k]-th request. *)
Definition fetchGitHubGraphQL (network : nat -> Request -> Attempt Json)
    (query : string) (variables : GraphQLVariables)
    (token : option string) (w : World)
  : (Error Json + T) * World :=
  if JS.falsy token then (inl TokenRequired, w)
  else
    match retryRequest
            (fun k => network k
                        (post query variables (JS.or_string token "")))
            3 1000 w with
    | (inl e, w1) => (inl e, w1)
    | (inr response, w1) =>
        match json response with
        | None => (inl BodyNotJson, w1)
        | Some payload => (check_payload (view payload), w1)
        end
    end.
End Transport.

End Client.

(* ===================================================================== *)
(** ** Response shapes: [src/lib/github/types.ts] *)
(* ===================================================================== *)

(** Optional chaining, [x?.f]. *)
Definition chain {A B : Type} (x : option A) (f : A -> option B) : option B :=
  match x with
  | Some a => f a
  | None => None
  end.

Notation "x ?. f" := (chain x f) (at level 50, left associativity).

Module Types.

(** [{ totalCount?: number }], the shape of every counter the API
    returns. *)
Record Counted : Type := { totalCount : option Z }.

Record Language : Type := {
  lang_name : string;
  lang_color : string
}.

Record LanguageEdge : Type := {
  size : Z;
  node : Language
}.

Record Languages : Type := {
  totalSize : Z;
  edges : list LanguageEdge
}.

(** The output entity [GitHubRepository]. *)
Record CommitHistory : Type := { history_totalCount : Z }.
Record CommitTarget : Type := { target_history : CommitHistory }.
Record DefaultBranchRef : Type := { ref_target : CommitTarget }.

Record GitHubRepository : Type := {
  id : string;
  name : string;
  nameWithOwner : string;
  description : option string;
  url : string;
  homepageUrl : option string;
  stargazerCount : Z;
  forkCount : Z;
  isPrivate : bool;
  isArchived : bool;
  isTemplate : bool;
  primaryLanguage : option Language;
  updatedAt : string;
  createdAt : string;
  pushedAt : string;
  languages : Languages;
  defaultBranchRef : option DefaultBranchRef
}.

(** The output entity [GitHubStats]. *)
Record GitHubStats : Type := {
  stats_name : string;
  stats_login : string;
  stats_avatarUrl : string;
  totalRepos : Z;
  totalStars : Z;
  totalCommits : Z;
  totalPRs : Z;
  totalPRsMerged : Z;
  totalReviews : Z;
  totalIssues : Z;
  contributedTo : Z;
  followers : Z;
  following : Z
}.

(** [GitHubGraphQLUserStats], the upstream shape of the stats query. *)
Module UserStats.
Record StarNode : Type := { stargazers : option Counted }.

Record Repositories : Type := {
  totalCount : Z;
  nodes : list StarNode
}.

Record Commits : Type := { totalCommitContributions : option Z }.
Record Reviews : Type := { totalPullRequestReviewContributions : option Z }.

Record t : Type := {
  name : option string;
  login : string;
  avatarUrl : string;
  repositories : Repositories;
  commits : option Commits;
  pullRequests : option Counted;
  mergedPullRequests : option Counted;
  reviews : option Reviews;
  openIssues : option Counted;
  closedIssues : option Counted;
  repositoriesContributedTo : option Counted;
  followers : option Counted;
  following : option Counted
}.

(** The type argument of the stats route, [{ user: ... }]; the route
    tests [!user], so the field can be absent. *)
Record Data : Type := { user : option t }.
End UserStats.

(** [GitHubGraphQLReposResponse], the upstream shape of the repository
    listing query. *)
Module Repos.
Record History : Type := { history : option Counted }.
Record BranchRef : Type := { target : option History }.

Record Node : Type := {
  id : string;
  name : string;
  nameWithOwner : string;
  description : option string;
  url : string;
  homepageUrl : option string;
  stargazers : option Counted;
  forkCount : option Z;
  isPrivate : bool;
  isArchived : bool;
  isTemplate : bool;
  primaryLanguage : option Language;
  updatedAt : string;
  createdAt : string;
  pushedAt : string;
  languages : option Languages;
  defaultBranchRef : option BranchRef
}.

Record PageInfo : Type := {
  hasNextPage : option bool;
  endCursor : option string
}.

Record Repositories : Type := {
  totalCount : option Z;
  nodes : option (list Node);
  pageInfo : option PageInfo
}.

Record User : Type := { repositories : option Repositories }.

Record Data : Type := { user : option User }.
End Repos.

End Types.

(* ===================================================================== *)
(** ** Query catalog: [src/lib/github/queries.ts] *)
(* ===================================================================== *)

Module Queries.

(** The query documents are opaque to the routes: they are sent as they
    are. *)
Definition GRAPHQL_STATS_QUERY : string :=
  "
  query userInfo($login: String!, $after: String, $includeMergedPullRequests: Boolean!, $startTime: DateTime) {
    user(login: $login) {
      name
      login
      avatarUrl
      bio
      followers {
        totalCount
      }
      following {
        totalCount
      }
      commits: contributionsCollection(from: $startTime) {
        totalCommitContributions
      }
      reviews: contributionsCollection {
        totalPullRequestReviewContributions
      }
      repositoriesContributedTo(first: 1, contributionTypes: [COMMIT, ISSUE, PULL_REQUEST, REPOSITORY]) {
        totalCount
      }
      pullRequests(first: 1) {
        totalCount
      }
      mergedPullRequests: pullRequests(states: MERGED) @include(if: $includeMergedPullRequests) {
        totalCount
      }
      openIssues: issues(states: OPEN) {
        totalCount
      }
      closedIssues: issues(states: CLOSED) {
        totalCount
      }
      repositories(first: 100, ownerAffiliations: OWNER, orderBy: {direction: DESC, field: STARGAZERS}, after: $after) {
        totalCount
        nodes {
          id
          name
          nameWithOwner
          description
          url
          homepageUrl
          stargazers {
            totalCount
          }
          forkCount
          isPrivate
          isArchived
          isTemplate
          primaryLanguage {
            name
            color
          }
          updatedAt
          createdAt
          pushedAt
          languages(first: 10, orderBy: {field: SIZE, direction: DESC}) {
            totalSize
            edges {
              size
              node {
                name
                color
              }
            }
          }
          defaultBranchRef {
            target {
              ... on Commit {
                history {
                  totalCount
                }
              }
            }
          }
        }
        pageInfo {
          hasNextPage
          endCursor
        }
      }
    }
  }
".

Definition GRAPHQL_REPOS_QUERY : string :=
  "
  query userRepos($login: String!, $after: String) {
    user(login: $login) {
      repositories(first: 100, ownerAffiliations: OWNER, orderBy: {direction: DESC, field: STARGAZERS}, after: $after) {
        totalCount
        nodes {
          id
          name
          nameWithOwner
          description
          url
          homepageUrl
          stargazers {
            totalCount
          }
          forkCount
          isPrivate
          isArchived
          isTemplate
          primaryLanguage {
            name
            color
          }
          updatedAt
          createdAt
          pushedAt
          languages(first: 10, orderBy: {field: SIZE, direction: DESC}) {
            totalSize
            edges {
              size
              node {
                name
                color
              }
            }
          }
          defaultBranchRef {
            target {
              ... on Commit {
                history {
                  totalCount
                }
              }
            }
          }
        }
        pageInfo {
          hasNextPage
          endCursor
        }
      }
    }
  }
".

Definition GRAPHQL_CONTRIBUTIONS_QUERY : string :=
  "
  query contributions($login: String!, $from: DateTime!, $to: DateTime!) {
    user(login: $login) {
      contributionsCollection(from: $from, to: $to) {
        totalCommitContributions
        totalIssueContributions
        totalPullRequestContributions
        totalPullRequestReviewContributions
        totalRepositoryContributions
        contributionCalendar {
          totalContributions
          weeks {
            contributionDays {
              date
              contributionCount
              color
            }
          }
        }
      }
    }
  }
".

(** The arguments of two connections, which both documents spell
    [repositories(first: 100, ...)] and
    [languages(first: 10, orderBy: {field: SIZE, direction: DESC})]. *)
Definition repositories_first : nat := 100.

Definition languages_first : nat := 10.

(** A language connection as the [languages] arguments ask for it: at
    most [languages_first] edges, largest first. *)
Definition as_requested (l : Types.Languages) : Prop :=
  (List.length (Types.edges l) <= languages_first)%nat
  /\ StronglySorted (fun e1 e2 => Types.size e2 <= Types.size e1)
       (Types.edges l).

End Queries.

(** [siteConfig.personal.githubUsername], [src/lib/config.ts]. *)
Definition githubUsername : string := "HoneySinghDev".

(** What a route hands to [NextResponse.json]: a body sent with status 200
    and a [Cache-Control] header, or an [{ error }] body with a status. *)
Inductive NextResponse (A : Type) : Type :=
| JsonBody (body : A) (cacheControl : string)
| JsonError (error : string) (code : Z).
Arguments JsonBody {A} _ _.
Arguments JsonError {A} _ _.

Definition CACHE_CONTROL : string :=
  "public, s-maxage=3600, stale-while-revalidate=86400".

(* ===================================================================== *)
(** ** Statistics route: [src/app/api/github/stats/route.ts] *)
(* ===================================================================== *)

Module StatsRoute.
Import Client Types.

(** Lines 43-46:
    [nodes.reduce((sum, repo) => sum + (repo.stargazers?.totalCount || 0), 0)]. *)
Definition totalStarsOf (nodes : list UserStats.StarNode) : Z :=
  fold_left
    (fun sum repo =>
       sum + JS.or_default (UserStats.stargazers repo ?. totalCount) 0)
    nodes 0.

(** Lines 48-64. *)
Definition toStats (user : UserStats.t) : GitHubStats :=
  {| stats_name :=
       JS.or_string (UserStats.name user) (UserStats.login user);
     stats_login := UserStats.login user;
     stats_avatarUrl := UserStats.avatarUrl user;
     totalRepos := UserStats.totalCount (UserStats.repositories user);
     totalStars := totalStarsOf (UserStats.nodes (UserStats.repositories user));
     totalCommits :=
       JS.or_default
         (UserStats.commits user ?. UserStats.totalCommitContributions) 0;
     totalPRs := JS.or_default (UserStats.pullRequests user ?. totalCount) 0;
     totalPRsMerged :=
       JS.or_default (UserStats.mergedPullRequests user ?. totalCount) 0;
     totalReviews :=
       JS.or_default
         (UserStats.reviews user
            ?. UserStats.totalPullRequestReviewContributions) 0;
     totalIssues :=
       JS.or_default (UserStats.openIssues user ?. totalCount) 0
       + JS.or_default (UserStats.closedIssues user ?. totalCount) 0;
     contributedTo :=
       JS.or_default
         (UserStats.repositoriesContributedTo user ?. totalCount) 0;
     followers := JS.or_default (UserStats.followers user ?. totalCount) 0;
     following := JS.or_default (UserStats.following user ?. totalCount) 0 |}.

Section Handler.
Context {Json : Type}.
Variable view : Json -> GraphQLResponse UserStats.Data.

(** [GET]: [startTime] is the ISO rendering of January 1st of last
    year, which depends on the clock only. *)
Definition GET (token : option string) (startTime : string)
    (network : nat -> Request -> Attempt Json) (w : World)
  : NextResponse GitHubStats * World :=
  if JS.falsy token then (JsonError "GitHub token not configured" 500, w)
  else
    let variables :=
      [("login", VString githubUsername);
       ("after", VNull);
       ("includeMergedPullRequests", VBool true);
       ("startTime", VString startTime)] in
    match fetchGitHubGraphQL view network Queries.GRAPHQL_STATS_QUERY
            variables token w with
    | (inl _, w1) => (JsonError "Failed to fetch GitHub stats" 500, w1)
    | (inr data, w1) =>
        match UserStats.user data with
        | None => (JsonError "User not found" 404, w1)
        | Some user => (JsonBody (toStats user) CACHE_CONTROL, w1)
        end
    end.
End Handler.

End StatsRoute.

(* ===================================================================== *)
(** ** Repository listing route: [app/api/github/repos/route.ts] *)
(* ===================================================================== *)

Module ReposRoute.
Import Client Types.

(** The variables of the pagination loop, lines 136-137. *)
Record Pagination : Type := {
  allRepos : list Repos.Node;
  hasNextPage : bool;
  endCursor : option string
}.

Definition initial : Pagination :=
  {| allRepos := []; hasNextPage := true; endCursor := None |}.

(** The loop condition, line 139. *)
Definition more (p : Pagination) : bool :=
  hasNextPage p && (List.length (allRepos p) <? 100)%nat.

(** Lines 140-143. *)
Definition variables (p : Pagination) : GraphQLVariables :=
  [("login", VString githubUsername);
   ("after", match endCursor p with
             | Some cursor => VString cursor
             | None => VNull
             end)].

(** [data.user?.repositories?.nodes || []], line 150. *)
Definition nodesOf (data : Repos.Data) : list Repos.Node :=
  match Repos.user data ?. Repos.repositories ?. Repos.nodes with
  | Some repos => repos
  | None => []
  end.

(** [data.user?.repositories?.pageInfo?.hasNextPage || false], line 154. *)
Definition hasNextPageOf (data : Repos.Data) : bool :=
  match Repos.user data ?. Repos.repositories ?. Repos.pageInfo
        ?. Repos.hasNextPage with
  | Some b => b
  | None => false
  end.

(** [data.user?.repositories?.pageInfo?.endCursor || null], line 155. *)
Definition endCursorOf (data : Repos.Data) : option string :=
  match Repos.user data ?. Repos.repositories ?. Repos.pageInfo
        ?. Repos.endCursor with
  | Some EmptyString => None
  | Some cursor => Some cursor
  | None => None
  end.

(** Lines 150-155: what one page does to the loop variables. *)
Definition absorb (data : Repos.Data) (p : Pagination) : Pagination :=
  {| allRepos := allRepos p ++ nodesOf data;
     hasNextPage := hasNextPageOf data;
     endCursor := endCursorOf data |}.

(** [repo.stargazers?.totalCount || 0]. *)
Definition stars (repo : Repos.Node) : Z :=
  JS.or_default (Repos.stargazers repo ?. totalCount) 0.

(** Line 160. *)
Definition isPublic (repo : Repos.Node) : bool :=
  negb (Repos.isPrivate repo) && negb (Repos.isArchived repo)
  && negb (Repos.isTemplate repo).

(** Lines 166-168: some featured fragment occurs in the name, letter
    case aside. *)
Definition isFeatured (featured : list string) (repo : Repos.Node) : bool :=
  existsb
    (fun name =>
       JS.includes (JS.toLowerCase (Repos.name repo)) (JS.toLowerCase name))
    featured.

(** Lines 164-177. *)
Definition prioritize (featured : list string) (publicRepos : list Repos.Node)
  : list Repos.Node :=
  if (0 <? List.length featured)%nat then
    let featuredRepos := filter (isFeatured featured) publicRepos in
    let otherRepos :=
      filter (fun repo => negb (isFeatured featured repo)) publicRepos in
    featuredRepos ++ otherRepos
  else publicRepos.

(** The comparator of line 181-182. *)
Definition byStars (a b : Repos.Node) : Z := stars b - stars a.

(** Lines 158-184: filter, prioritize, sort, truncate. *)
Definition select (featured : list string) (limit : JS.number)
    (repos : list Repos.Node) : list Repos.Node :=
  let publicRepos := filter isPublic repos in
  let publicRepos := prioritize featured publicRepos in
  let publicRepos := JS.sort byStars publicRepos in
  JS.slice0 publicRepos limit.

(** [repo.defaultBranchRef?.target?.history?.totalCount], line 187. *)
Definition commitCount (repo : Repos.Node) : option Z :=
  Repos.defaultBranchRef repo ?. Repos.target ?. Repos.history ?. totalCount.

(** Lines 186-221: one node of the upstream to one [GitHubRepository]. *)
Definition toRepository (repo : Repos.Node) : GitHubRepository :=
  let totalCount := commitCount repo in
  {| id := Repos.id repo;
     name := Repos.name repo;
     nameWithOwner := Repos.nameWithOwner repo;
     description := Repos.description repo;
     url := Repos.url repo;
     homepageUrl := Repos.homepageUrl repo;
     stargazerCount := stars repo;
     forkCount := JS.or_default (Repos.forkCount repo) 0;
     isPrivate := Repos.isPrivate repo;
     isArchived := Repos.isArchived repo;
     isTemplate := Repos.isTemplate repo;
     primaryLanguage :=
       match Repos.primaryLanguage repo with
       | Some l =>
           Some {| lang_name := lang_name l; lang_color := lang_color l |}
       | None => None
       end;
     updatedAt := Repos.updatedAt repo;
     createdAt := Repos.createdAt repo;
     pushedAt := Repos.pushedAt repo;
     languages :=
       match Repos.languages repo with
       | Some l => l
       | None => {| totalSize := 0; edges := [] |}
       end;
     defaultBranchRef :=
       match totalCount with
       | Some n =>
           Some {| ref_target :=
                     {| target_history := {| history_totalCount := n |} |} |}
       | None => None
       end |}.

(** Lines 85-87: the two query parameters as the route reads them. *)
Definition featuredOf (param : option string) : list string :=
  match param with
  | Some s => filter JS.nonempty (JS.split_comma s)
  | None => []
  end.

Definition limitOf (param : option string) : JS.number :=
  JS.parseInt (JS.or_string param "10").

Section Handler.
Context {Json : Type}.
Variable view : Json -> GraphQLResponse Repos.Data.
Variable network : nat -> Request -> Attempt Json.
Variable token : option string.

(** The [while] loop, lines 139-156.  The loop has no bound of its own
    on the number of pages (an upstream that keeps sending empty pages
    with [hasNextPage] is asked forever), so the embedding takes
    [fuel]: [None] is a loop still running after [fuel] pages. *)
Fixpoint fetchAll (fuel : nat) (p : Pagination) (w : World)
  : option ((Error Json + list Repos.Node) * World) :=
  if more p then
    match fuel with
    | O => None
    | S fuel' =>
        match fetchGitHubGraphQL view network Queries.GRAPHQL_REPOS_QUERY
                (variables p) token w with
        | (inl e, w1) => Some (inl e, w1)
        | (inr data, w1) => fetchAll fuel' (absorb data p) w1
        end
    end
  else Some (inr (allRepos p), w).

(** [GET]. *)
Definition GET (featuredParam limitParam : option string) (fuel : nat)
    (w : World)
  : option (NextResponse (list GitHubRepository) * World) :=
  let featured := featuredOf featuredParam in
  let limit := limitOf limitParam in
  if JS.falsy token then
    Some (JsonError "GitHub token not configured" 500, w)
  else
    match fetchAll fuel initial w with
    | None => None
    | Some (inl _, w1) =>
        Some (JsonError "Failed to fetch GitHub repositories" 500, w1)
    | Some (inr repos, w1) =>
        Some (JsonBody (map toRepository (select featured limit repos))
                CACHE_CONTROL, w1)
    end.
End Handler.

End ReposRoute.

(* ===================================================================== *)
(** ** Activity route: [app/api/github/activity/route.ts] *)
(* ===================================================================== *)

Module ActivityRoute.
Import Client Types.

(** [GitHubGraphQLUserActivity]: the part of the answer to the stats query
    that this route reads. *)
Record UserActivity : Type := {
  commits : option UserStats.Commits;
  pullRequests : option Counted;
  repositoriesContributedTo : option Counted;
  openIssues : option Counted;
  closedIssues : option Counted;
  reviews : option UserStats.Reviews
}.

Record Data : Type := { user : option UserActivity }.

(** The output entity [GitHubActivity]. *)
Record GitHubActivity : Type := {
  activity_commits : Z;
  activity_pullRequests : Z;
  activity_repositoriesContributedTo : Z;
  activity_issues : Z;
  activity_reviews : Z
}.

(** Lines 45-54. *)
Definition toActivity (user : UserActivity) : GitHubActivity :=
  {| activity_commits :=
       JS.or_default (commits user ?. UserStats.totalCommitContributions) 0;
     activity_pullRequests :=
       JS.or_default (pullRequests user ?. totalCount) 0;
     activity_repositoriesContributedTo :=
       JS.or_default (repositoriesContributedTo user ?. totalCount) 0;
     activity_issues :=
       JS.or_default (openIssues user ?. totalCount) 0
       + JS.or_default (closedIssues user ?. totalCount) 0;
     activity_reviews :=
       JS.or_default
         (reviews user ?. UserStats.totalPullRequestReviewContributions) 0 |}.

Section Handler.
Context {Json : Type}.
Variable view : Json -> GraphQLResponse Data.

(** [GET]: the same query and variables as the statistics route. *)
Definition GET (token : option string) (startTime : string)
    (network : nat -> Request -> Attempt Json) (w : World)
  : NextResponse GitHubActivity * World :=
  if JS.falsy token then (JsonError "GitHub token not configured" 500, w)
  else
    let variables :=
      [("login", VString githubUsername);
       ("after", VNull);
       ("includeMergedPullRequests", VBool true);
       ("startTime", VString startTime)] in
    match fetchGitHubGraphQL view network Queries.GRAPHQL_STATS_QUERY
            variables token w with
    | (inl _, w1) => (JsonError "Failed to fetch GitHub activity" 500, w1)
    | (inr data, w1) =>
        match user data with
        | None => (JsonError "User not found" 404, w1)
        | Some u => (JsonBody (toActivity u) CACHE_CONTROL, w1)
        end
    end.
End Handler.

End ActivityRoute.

(* ===================================================================== *)
(** ** Contributions route: [src/app/api/github/contributions/route.ts] *)
(* ===================================================================== *)

Module ContributionsRoute.
Import Client Types.

Record ContributionDay : Type := {
  date : string;
  contributionCount : Z;
  color : string
}.

Record ContributionWeek : Type := {
  contributionDays : list ContributionDay
}.

(** The output entity [GitHubContributions]. *)
Record GitHubContributions : Type := {
  totalContributions : Z;
  weeks : list ContributionWeek
}.

(** [GitHubGraphQLContributions]. *)
Record Calendar : Type := {
  calendar_totalContributions : option Z;
  calendar_weeks : option (list ContributionWeek)
}.

Record Collection : Type := { contributionCalendar : option Calendar }.

Record User : Type := { contributionsCollection : option Collection }.

Record Data : Type := { user : option User }.

(** Lines 48-52. *)
Definition toContributions (contributions : Collection)
  : GitHubContributions :=
  {| totalContributions :=
       JS.or_default
         (contributionCalendar contributions ?. calendar_totalContributions) 0;
     weeks :=
       match contributionCalendar contributions ?. calendar_weeks with
       | Some ws => ws
       | None => []
       end |}.

Section Handler.
Context {Json : Type}.
Variable view : Json -> GraphQLResponse Data.

(** [GET]: [from] and [to] are the ISO renderings of the two ends of the
    date range, which depend on the clock only. *)
Definition GET (token : option string) (from to : string)
    (network : nat -> Request -> Attempt Json) (w : World)
  : NextResponse GitHubContributions * World :=
  if JS.falsy token then (JsonError "GitHub token not configured" 500, w)
  else
    let variables :=
      [("login", VString githubUsername);
       ("from", VString from);
       ("to", VString to)] in
    match fetchGitHubGraphQL view network Queries.GRAPHQL_CONTRIBUTIONS_QUERY
            variables token w with
    | (inl _, w1) =>
        (JsonError "Failed to fetch GitHub contributions" 500, w1)
    | (inr data, w1) =>
        match user data ?. contributionsCollection with
        | None => (JsonError "Contributions data not found" 404, w1)
        | Some contributions =>
            (JsonBody (toContributions contributions) CACHE_CONTROL, w1)
        end
    end.
End Handler.

End ContributionsRoute.

(* ===================================================================== *)
(** ** The callers of the routes: [src/app/components/github-section.tsx]
       and [src/app/page.tsx] *)
(* ===================================================================== *)

Module GithubSection.
Import Types.

(** [formatDate], lines 29-41, on the time values it computes with:
    [date] is [new Date(dateString).getTime()], which is [NaN] for a
    string that is not a date, and [now] is [new Date().getTime()], both in
    milliseconds.  For time values whose distance is below 2^53 the
    quotient by the milliseconds of a day, floored, is the integer
    quotient. *)
Definition formatDate (date : JS.number) (now : Z) : string :=
  match date with
  | JS.NaN => "NaN years ago"
  | JS.Int date =>
      let diffTime := Z.abs (now - date) in
      let diffDays := diffTime / (1000 * 60 * 60 * 24) in
      if diffDays =? 0 then "today"
      else if diffDays =? 1 then "yesterday"
      else if diffDays <? 7 then
        (JS.natToString (Z.to_nat diffDays) ++ " days ago")%string
      else if diffDays <? 30 then
        (JS.natToString (Z.to_nat (diffDays / 7)) ++ " weeks ago")%string
      else if diffDays <? 365 then
        (JS.natToString (Z.to_nat (diffDays / 30)) ++ " months ago")%string
      else
        (JS.natToString (Z.to_nat (diffDays / 365)) ++ " years ago")%string
  end.

(** Lines 183-184, and line 559 when a card is drawn:
    [repo.languages?.edges?.slice(0, 3).map(e => e.node.name) || []]. *)
Definition tagsOf (repo : GitHubRepository) : list string :=
  map (fun e => lang_name (node e))
    (JS.slice0 (edges (languages repo)) (JS.Int 3)).

(** Lines 162-166: the query string of the request for the repository
    cards. *)
Definition reposQuery (featuredRepos : list string) : option string * option string :=
  (if (0 <? List.length featuredRepos)%nat
   then Some (JS.join_comma featuredRepos)
   else None,
   Some "6").

End GithubSection.

Module Page.
Import Types.

(** One entry of [siteConfig.github.featuredRepos]. *)
Record FeaturedRepo : Type := {
  featured_id : string;
  featured_description : option string;
  featured_image : option string;
  featured_icon : option string
}.

(** Lines 856-859: the query string of the request for the featured
    projects, the [featured] and the [limit] parameter. *)
Definition featuredQuery (featuredRepos : list FeaturedRepo)
  : option string * option string :=
  let repoIds := map featured_id featuredRepos in
  (Some (JS.join_comma repoIds),
   Some (JS.natToString (List.length repoIds))).

(** [new Map(entries).get(key)]: the value of the last entry with the
    key. *)
Fixpoint mapGet {V : Type} (entries : list (string * V)) (key : string)
  : option V :=
  match entries with
  | [] => None
  | (k, v) :: rest =>
      match mapGet rest key with
      | Some later => Some later
      | None => if String.eqb k key then Some v else None
      end
  end.

(** Lines 864-871: the configuration entry that the page attaches to a
    repository of the answer. *)
Definition configOf (featuredRepos : list FeaturedRepo)
    (repo : GitHubRepository) : option FeaturedRepo :=
  mapGet
    (map (fun r => (JS.toLowerCase (featured_id r), r)) featuredRepos)
    (JS.toLowerCase (name repo)).

(** Lines 808-813: the avatar address with the size parameter. *)
Definition avatarWithSize (avatarUrl : string) : string :=
  if JS.includes avatarUrl "?" then (avatarUrl ++ "&s=400")%string
  else (avatarUrl ++ "?s=400")%string.

End Page.

(* ===================================================================== *)
(** ** The logger that the page reports to: [src/lib/logger.ts] *)
(* ===================================================================== *)

Module Logger.

Inductive LogLevel : Type := DEBUG | INFO | WARN | ERROR.

(** The numeric value of the [enum]. *)
Definition rank (level : LogLevel) : Z :=
  match level with
  | DEBUG => 0
  | INFO => 1
  | WARN => 2
  | ERROR => 3
  end.

Section Entries.
(** [Record<string, unknown>] and [Error] values are carried along
    unread. *)
Variables Ctx Err : Type.

Record LogEntry : Type := {
  timestamp : string;
  level : LogLevel;
  message : string;
  context : option Ctx;
  error : option Err;
  sessionId : string
}.

(** The fields of the class that [log] reads and writes. *)
Record State : Type := {
  logs : list LogEntry;
  currentLevel : LogLevel;
  session : string
}.

Definition maxLogs : Z := 1000.

(** [shouldLog]. *)
Definition shouldLog (st : State) (lvl : LogLevel) : bool :=
  rank (currentLevel st) <=? rank lvl.

(** [addLog], lines 124-129. *)
Definition addLog (st : State) (entry : LogEntry) : State :=
  let pushed := logs st ++ [entry] in
  {| logs :=
       if maxLogs <? Z.of_nat (List.length pushed)
       then JS.sliceFrom pushed (- maxLogs)
       else pushed;
     currentLevel := currentLevel st;
     session := session st |}.

(** [sanitizeContext] goes through the entries of the object with host
    operations (JSON.stringify); it is a parameter here. *)
Variable sanitizeContext : option Ctx -> option Ctx.

(** [log], lines 138-156, up to the entry it stores; [now] is
    [new Date().toISOString()].  What it prints on the console afterwards
    does not change the state and is left out. *)
Definition log (st : State) (now : string) (lvl : LogLevel) (msg : string)
    (ctx : option Ctx) (err : option Err) : State :=
  if negb (shouldLog st lvl) || negb (JS.nonempty msg) then st
  else
    addLog st
      {| timestamp := now;
         level := lvl;
         message := msg;
         context := sanitizeContext ctx;
         error := err;
         sessionId := session st |}.

Definition setLevel (st : State) (lvl : LogLevel) : State :=
  {| logs := logs st; currentLevel := lvl; session := session st |}.

Definition clearLogs (st : State) : State :=
  {| logs := []; currentLevel := currentLevel st; session := session st |}.

(** One call of the public interface. *)
Inductive Call : Type :=
| CallLog (now : string) (lvl : LogLevel) (msg : string)
    (ctx : option Ctx) (err : option Err)
| CallSetLevel (lvl : LogLevel)
| CallClearLogs.

Definition step (st : State) (c : Call) : State :=
  match c with
  | CallLog now lvl msg ctx err => log st now lvl msg ctx err
  | CallSetLevel lvl => setLevel st lvl
  | CallClearLogs => clearLogs st
  end.

(** A sequence of calls, oldest first. *)
Definition run (st : State) (calls : list Call) : State :=
  fold_left step calls st.

End Entries.

Arguments timestamp {Ctx Err} _.
Arguments level {Ctx Err} _.
Arguments message {Ctx Err} _.
Arguments context {Ctx Err} _.
Arguments error {Ctx Err} _.
Arguments sessionId {Ctx Err} _.
Arguments logs {Ctx Err} _.
Arguments currentLevel {Ctx Err} _.
Arguments session {Ctx Err} _.
Arguments shouldLog {Ctx Err} _ _.
Arguments addLog {Ctx Err} _ _.
Arguments log {Ctx Err} _ _ _ _ _ _ _.
Arguments setLevel {Ctx Err} _ _.
Arguments clearLogs {Ctx Err} _.
Arguments CallLog {Ctx Err} _ _ _ _ _.
Arguments CallSetLevel {Ctx Err} _.
Arguments CallClearLogs {Ctx Err}.
Arguments step {Ctx Err} _ _ _.
Arguments run {Ctx Err} _ _ _.

End Logger.

(* ===================================================================== *)
(** ** Concrete upstreams used by the examples below *)
(* ===================================================================== *)

Module Fixtures.
Import Client Types.

(** A repository node with a name and a star count, every other optional
    field absent. *)
Definition repo (name : string) (starCount : Z) : Repos.Node :=
  {| Repos.id := name;
     Repos.name := name;
     Repos.nameWithOwner := ("HoneySinghDev/" ++ name)%string;
     Repos.description := None;
     Repos.url := ("https://github.com/HoneySinghDev/" ++ name)%string;
     Repos.homepageUrl := None;
     Repos.stargazers := Some {| totalCount := Some starCount |};
     Repos.forkCount := None;
     Repos.isPrivate := false;
     Repos.isArchived := false;
     Repos.isTemplate := false;
     Repos.primaryLanguage := None;
     Repos.updatedAt := "2025-01-01T00:00:00Z";
     Repos.createdAt := "2024-01-01T00:00:00Z";
     Repos.pushedAt := "2025-01-01T00:00:00Z";
     Repos.languages := None;
     Repos.defaultBranchRef := None |}.

(** One page of the repository connection. *)
Definition page (nodes : list Repos.Node) (next : bool)
    (cursor : option string) : Repos.Data :=
  {| Repos.user :=
       Some {| Repos.repositories :=
                 Some {| Repos.totalCount := None;
                         Repos.nodes := Some nodes;
                         Repos.pageInfo :=
                           Some {| Repos.hasNextPage := Some next;
                                   Repos.endCursor := cursor |} |} |} |}.

(** In the examples a parsed body is the typed payload itself. *)
Definition respond {T : Type} (code : Z) (text : string)
    (payload : option (GraphQLResponse T))
  : Attempt (GraphQLResponse T) :=
  Resolves {| status := code; statusText := text; json := payload |}.

Definition success {T : Type} (d : T) : Attempt (GraphQLResponse T) :=
  respond 200 "OK" (Some {| data := Some d; errors := None |}).

(** An upstream that answers the [k]-th request with the [k]-th page, and
    with an empty last page once the list is used up. *)
Definition serve (pages : list Repos.Data) (k : nat) (_ : Request)
  : Attempt (GraphQLResponse Repos.Data) :=
  success (nth k pages (page [] false None)).

(** An upstream that answers the [k]-th request with the [k]-th attempt
    of a script, and rejects afterwards. *)
Definition script {Json : Type} (attempts : list (Attempt Json)) (k : nat)
  : Attempt Json :=
  nth k attempts (Rejects "connection refused").

Definition token : option string := Some "ghp_token".

(** The three repositories of the featured-first example. *)
Definition repoA : Repos.Node := repo "foo-a" 1.
Definition repoB : Repos.Node := repo "bar" 10.
Definition repoC : Repos.Node := repo "foo-c" 2.

Definition onePage : Repos.Data := page [repoA; repoB; repoC] false None.

(** Failing HTTP responses with no JSON body. *)
Definition forbidden : Attempt (GraphQLResponse Repos.Data) :=
  respond 403 "Forbidden" None.

Definition notFound : Attempt (GraphQLResponse Repos.Data) :=
  respond 404 "Not Found" None.

Definition serverError : Attempt (GraphQLResponse Repos.Data) :=
  respond 500 "Internal Server Error" None.

(** Payloads of HTTP-successful responses: GraphQL errors next to data,
    neither errors nor data, and data alone. *)
Definition withErrors : GraphQLResponse Repos.Data :=
  {| data := Some onePage;
     errors :=
       Some [ {| message := "Could not resolve to a User";
                 type_ := "NOT_FOUND" |};
              {| message := "Something went wrong";
                 type_ := "INTERNAL" |} ] |}.

Definition withoutData : GraphQLResponse Repos.Data :=
  {| data := None; errors := Some [] |}.

Definition withData : GraphQLResponse Repos.Data :=
  {| data := Some onePage; errors := None |}.

(** An upstream that answers every request with the same payload. *)
Definition always (payload : GraphQLResponse Repos.Data) (_ : nat)
    (_ : Request) : Attempt (GraphQLResponse Repos.Data) :=
  respond 200 "OK" (Some payload).

Definition same (payload : GraphQLResponse Repos.Data)
  : GraphQLResponse Repos.Data := payload.

(** Two pages, the first one short of the page size by one node. *)
Definition shortThenMore : list Repos.Data :=
  [page (repeat repoA 99) true (Some "Y3Vyc29yOjk5");
   page [repoB; repoC] false None].

(** A language edge of a given size. *)
Definition edge (bytes : Z) : LanguageEdge :=
  {| size := bytes;
     node := {| lang_name := "TypeScript"; lang_color := "#3178c6" |} |}.

(** [r] with a language connection. *)
Definition withLanguages (l : Languages) (r : Repos.Node) : Repos.Node :=
  {| Repos.id := Repos.id r;
     Repos.name := Repos.name r;
     Repos.nameWithOwner := Repos.nameWithOwner r;
     Repos.description := Repos.description r;
     Repos.url := Repos.url r;
     Repos.homepageUrl := Repos.homepageUrl r;
     Repos.stargazers := Repos.stargazers r;
     Repos.forkCount := Repos.forkCount r;
     Repos.isPrivate := Repos.isPrivate r;
     Repos.isArchived := Repos.isArchived r;
     Repos.isTemplate := Repos.isTemplate r;
     Repos.primaryLanguage := Repos.primaryLanguage r;
     Repos.updatedAt := Repos.updatedAt r;
     Repos.createdAt := Repos.createdAt r;
     Repos.pushedAt := Repos.pushedAt r;
     Repos.languages := Some l;
     Repos.defaultBranchRef := Repos.defaultBranchRef r |}.

(** [r] with the three flags set as given. *)
Definition flagged (private archived template : bool) (r : Repos.Node)
  : Repos.Node :=
  {| Repos.id := Repos.id r;
     Repos.name := Repos.name r;
     Repos.nameWithOwner := Repos.nameWithOwner r;
     Repos.description := Repos.description r;
     Repos.url := Repos.url r;
     Repos.homepageUrl := Repos.homepageUrl r;
     Repos.stargazers := Repos.stargazers r;
     Repos.forkCount := Repos.forkCount r;
     Repos.isPrivate := private;
     Repos.isArchived := archived;
     Repos.isTemplate := template;
     Repos.primaryLanguage := Repos.primaryLanguage r;
     Repos.updatedAt := Repos.updatedAt r;
     Repos.createdAt := Repos.createdAt r;
     Repos.pushedAt := Repos.pushedAt r;
     Repos.languages := Repos.languages r;
     Repos.defaultBranchRef := Repos.defaultBranchRef r |}.

(** A page that mixes listed and unlisted repositories. *)
Definition mixedPage : Repos.Data :=
  page [flagged true false false (repo "foo-secret" 50);
        repoB;
        flagged false true false (repo "foo-old" 40);
        repoC;
        flagged false false true (repo "foo-template" 30);
        repoA]
    false None.

(** A node with every optional field absent. *)
Definition bare : Repos.Node :=
  {| Repos.id := "R_kgDOExample";
     Repos.name := "bare";
     Repos.nameWithOwner := "HoneySinghDev/bare";
     Repos.description := None;
     Repos.url := "https://github.com/HoneySinghDev/bare";
     Repos.homepageUrl := None;
     Repos.stargazers := None;
     Repos.forkCount := None;
     Repos.isPrivate := false;
     Repos.isArchived := false;
     Repos.isTemplate := false;
     Repos.primaryLanguage := None;
     Repos.updatedAt := "2025-01-01T00:00:00Z";
     Repos.createdAt := "2024-01-01T00:00:00Z";
     Repos.pushedAt := "2025-01-01T00:00:00Z";
     Repos.languages := None;
     Repos.defaultBranchRef := None |}.

(** [r] with a default branch reference. *)
Definition withBranch (ref : Repos.BranchRef) (r : Repos.Node) : Repos.Node :=
  {| Repos.id := Repos.id r;
     Repos.name := Repos.name r;
     Repos.nameWithOwner := Repos.nameWithOwner r;
     Repos.description := Repos.description r;
     Repos.url := Repos.url r;
     Repos.homepageUrl := Repos.homepageUrl r;
     Repos.stargazers := Repos.stargazers r;
     Repos.forkCount := Repos.forkCount r;
     Repos.isPrivate := Repos.isPrivate r;
     Repos.isArchived := Repos.isArchived r;
     Repos.isTemplate := Repos.isTemplate r;
     Repos.primaryLanguage := Repos.primaryLanguage r;
     Repos.updatedAt := Repos.updatedAt r;
     Repos.createdAt := Repos.createdAt r;
     Repos.pushedAt := Repos.pushedAt r;
     Repos.languages := Repos.languages r;
     Repos.defaultBranchRef := Some ref |}.

(** A default branch with 42 commits, and one whose target carries no
    history (a target that is not a commit). *)
Definition committed : Repos.Node :=
  withBranch
    {| Repos.target :=
         Some {| Repos.history := Some {| totalCount := Some 42 |} |} |}
    bare.

Definition uncommitted : Repos.Node :=
  withBranch {| Repos.target := Some {| Repos.history := None |} |} bare.

(** A first page of exactly 100 nodes that announces a next page. *)
Definition fullPage : Repos.Data :=
  page (repeat repoA 100) true (Some "Y3Vyc29yOjEwMA==").

(** A repository with eleven languages, smallest first. *)
Definition polyglot : Repos.Node :=
  withLanguages
    {| totalSize := 66;
       edges := map (fun n => edge (Z.of_nat n)) (seq 1 11) |}
    repoA.

(** A repository whose two languages come largest first. *)
Definition descending : Repos.Node :=
  withLanguages {| totalSize := 30; edges := [edge 20; edge 10] |} repoB.

(** A user of the stats query whose repositories have the given
    stargazer fields. *)
Definition userWith (starFields : list (option Counted)) : UserStats.t :=
  {| UserStats.name := None;
     UserStats.login := "HoneySinghDev";
     UserStats.avatarUrl := "https://avatars.githubusercontent.com/u/1";
     UserStats.repositories :=
       {| UserStats.totalCount := Z.of_nat (List.length starFields);
          UserStats.nodes :=
            map (fun s => {| UserStats.stargazers := s |}) starFields |};
     UserStats.commits := None;
     UserStats.pullRequests := None;
     UserStats.mergedPullRequests := None;
     UserStats.reviews := None;
     UserStats.openIssues := None;
     UserStats.closedIssues := None;
     UserStats.repositoriesContributedTo := None;
     UserStats.followers := None;
     UserStats.following := None |}.

Definition counted (n : Z) : option Counted :=
  Some {| totalCount := Some n |}.

Definition run_repos (pages : list Repos.Data)
    (featuredParam limitParam : option string)
  : option (NextResponse (list GitHubRepository) * World) :=
  ReposRoute.GET same (serve pages) token
    featuredParam limitParam 200 start.

Definition names (r : option (NextResponse (list GitHubRepository) * World))
  : option (list string) :=
  match r with
  | Some (JsonBody body _, _) => Some (map name body)
  | _ => None
  end.

End Fixtures.

(* ===================================================================== *)
(** ** Vocabulary for statements about the upstream *)
(* ===================================================================== *)

Module Upstream.
Import Client Types.

Section Pages.
Context {Json : Type}.
Variable view : Json -> GraphQLResponse Repos.Data.
Variable network : nat -> Request -> Attempt Json.

(** [d] is a page that some response of the network carries. *)
Definition sends (d : Repos.Data) : Prop :=
  exists k request response payload,
    network k request = Resolves response
    /\ json response = Some payload
    /\ data (view payload) = Some d.

(** Every page the network can send satisfies [P]. *)
Definition every_page (P : Repos.Data -> Prop) : Prop :=
  forall d, sends d -> P d.

(** Every repository node the network can send satisfies [P]. *)
Definition every_node (P : Repos.Node -> Prop) : Prop :=
  every_page (fun d => Forall P (ReposRoute.nodesOf d)).
End Pages.

(** A page of at most [Queries.repositories_first] nodes. *)
Definition bounded (d : Repos.Data) : Prop :=
  (List.length (ReposRoute.nodesOf d) <= Queries.repositories_first)%nat.

(** A page as a cursor-paginated connection with [first: 100] sends it:
    at most 100 nodes, and exactly 100 when more pages follow. *)
Definition full_when_more (d : Repos.Data) : Prop :=
  bounded d
  /\ (ReposRoute.hasNextPageOf d = true ->
      List.length (ReposRoute.nodesOf d) = Queries.repositories_first).

(** A page that carries at least one node when more pages follow. *)
Definition progresses (d : Repos.Data) : Prop :=
  ReposRoute.hasNextPageOf d = true ->
  (1 <= List.length (ReposRoute.nodesOf d))%nat.

(** A node whose language connection, when present, is as the query
    asks for it. *)
Definition languages_as_requested (repo : Repos.Node) : Prop :=
  match Repos.languages repo with
  | Some l => Queries.as_requested l
  | None => True
  end.

End Upstream.

(* ===================================================================== *)
(** ** The star total as the specification words it *)
(* ===================================================================== *)

Module StarTotal.
Import Types.

(** The stargazer count of a node, a missing count being zero. *)
Definition countOrZero (repo : UserStats.StarNode) : Z :=
  match UserStats.stargazers repo with
  | Some {| totalCount := Some n |} => n
  | _ => 0
  end.

(** The sum over all nodes. *)
Fixpoint sum (nodes : list UserStats.StarNode) : Z :=
  match nodes with
  | [] => 0
  | repo :: rest => countOrZero repo + sum rest
  end.

End StarTotal.

(* ===================================================================== *)
(** ** Three sentences of the specification, as it words them *)
(* ===================================================================== *)

Module Stated.
Import Client Types.

(** "The number of accumulated repository nodes never exceeds 100." *)
Definition accumulation_capped_at_100 : Prop :=
  forall (Json : Type) (view : Json -> GraphQLResponse Repos.Data)
         network token fuel w repos w',
    ReposRoute.fetchAll view network token fuel ReposRoute.initial w
    = Some (inr repos, w') ->
    (List.length repos <= 100)%nat.

(** "The languages breakdown contains at most 10 entries and its edges
      are ordered by descending size." *)
Definition languages_bounded_and_ordered : Prop :=
  forall (Json : Type) (view : Json -> GraphQLResponse Repos.Data)
         network token featuredParam limitParam fuel w body cache w',
    ReposRoute.GET view network token featuredParam limitParam fuel w
    = Some (JsonBody body cache, w') ->
    Forall (fun r => Queries.as_requested (languages r)) body.

(** "A limit parameter that is present but does not parse as an integer
      gives the empty list, for every non-empty upstream repository set." *)
Definition unparsable_limit_gives_empty_list : Prop :=
  forall (Json : Type) (view : Json -> GraphQLResponse Repos.Data)
         network token featuredParam s fuel w repos w',
    JS.parseInt s = JS.NaN ->
    JS.falsy token = false ->
    ReposRoute.fetchAll view network token fuel ReposRoute.initial w
    = Some (inr repos, w') ->
    repos <> [] ->
    ReposRoute.GET view network token featuredParam (Some s) fuel w
    = Some (JsonBody [] CACHE_CONTROL, w').

End Stated.

(* ===================================================================== *)
(** ** Vocabulary for statements about attempts and timers *)
(* ===================================================================== *)

Module Attempts.
Import Client.

(** An attempt that does not end the retry loop with a response: the
    request function rejects, or resolves with a response that is not
    [ok]. *)
Definition failed {Json : Type} (a : Attempt Json) : Prop :=
  match a with
  | Rejects _ => True
  | Resolves response => ok response = false
  end.

(** The timers after the attempts 1 to [n]: [delay], [2 * delay], ... *)
Definition backoff (delay : Z) (n : nat) : list Z :=
  map (fun j => delay * Z.of_nat (j + 1)) (seq 0 n).

(** The sum of a list of timers. *)
Definition total (timers : list Z) : Z := fold_right Z.add 0 timers.

End Attempts.

(* ===================================================================== *)
(** ** Vocabulary for statements about the user counters *)
(* ===================================================================== *)

Module UserCounts.
Import Client Types.

(** A counter that is not negative when it is there. *)
Definition counted (c : option Z) : Prop :=
  match c with
  | Some n => 0 <= n
  | None => True
  end.

(** An answer to the stats query without a negative counter. *)
Definition nonnegative (user : UserStats.t) : Prop :=
  0 <= UserStats.totalCount (UserStats.repositories user)
  /\ Forall (fun repo => counted (UserStats.stargazers repo ?. totalCount))
       (UserStats.nodes (UserStats.repositories user))
  /\ counted (UserStats.commits user ?. UserStats.totalCommitContributions)
  /\ counted (UserStats.pullRequests user ?. totalCount)
  /\ counted (UserStats.mergedPullRequests user ?. totalCount)
  /\ counted
       (UserStats.reviews user ?. UserStats.totalPullRequestReviewContributions)
  /\ counted (UserStats.openIssues user ?. totalCount)
  /\ counted (UserStats.closedIssues user ?. totalCount)
  /\ counted (UserStats.repositoriesContributedTo user ?. totalCount)
  /\ counted (UserStats.followers user ?. totalCount)
  /\ counted (UserStats.following user ?. totalCount).

(** The same [user] object of an answer to the stats query, read at the
    type of the activity route. *)
Definition asActivity (user : UserStats.t) : ActivityRoute.UserActivity :=
  {| ActivityRoute.commits := UserStats.commits user;
     ActivityRoute.pullRequests := UserStats.pullRequests user;
     ActivityRoute.repositoriesContributedTo :=
       UserStats.repositoriesContributedTo user;
     ActivityRoute.openIssues := UserStats.openIssues user;
     ActivityRoute.closedIssues := UserStats.closedIssues user;
     ActivityRoute.reviews := UserStats.reviews user |}.

(** The same payload, read at the type of the activity route. *)
Definition asActivityPayload (payload : GraphQLResponse UserStats.Data)
  : GraphQLResponse ActivityRoute.Data :=
  {| data :=
       match data payload with
       | Some d =>
           Some {| ActivityRoute.user :=
                     match UserStats.user d with
                     | Some u => Some (asActivity u)
                     | None => None
                     end |}
       | None => None
       end;
     errors := errors payload |}.

(** The counters that the two routes both report. *)
Definition agree (stats : GitHubStats) (activity : ActivityRoute.GitHubActivity)
  : Prop :=
  ActivityRoute.activity_commits activity = totalCommits stats
  /\ ActivityRoute.activity_pullRequests activity = totalPRs stats
  /\ ActivityRoute.activity_repositoriesContributedTo activity
     = contributedTo stats
  /\ ActivityRoute.activity_issues activity = totalIssues stats
  /\ ActivityRoute.activity_reviews activity = totalReviews stats.

End UserCounts.

(* ===================================================================== *)
(** ** Vocabulary for statements about repository names *)
(* ===================================================================== *)

Module Names.

(** A character of a GitHub repository name: a letter, a digit, a hyphen,
    an underscore or a dot.  A query string carries these characters as
    they are. *)
Definition nameChar (c : ascii) : bool :=
  let n := nat_of_ascii c in
  ((48 <=? n)%nat && (n <=? 57)%nat)
  || ((65 <=? n)%nat && (n <=? 90)%nat)
  || ((97 <=? n)%nat && (n <=? 122)%nat)
  || (n =? 45)%nat || (n =? 95)%nat || (n =? 46)%nat.

Fixpoint nameChars (s : string) : bool :=
  match s with
  | EmptyString => true
  | String c s' => nameChar c && nameChars s'
  end.

(** A repository name: at least one character, name characters only. *)
Definition repoName (s : string) : bool := JS.nonempty s && nameChars s.

(** No repository of the list has the star count of another one. *)
Definition distinctStars (repos : list Types.Repos.Node) : Prop :=
  NoDup (map ReposRoute.stars repos).

(** The sorted list that [select] truncates. *)
Definition ranked (featured : list string) (repos : list Types.Repos.Node)
  : list Types.Repos.Node :=
  JS.sort ReposRoute.byStars
    (ReposRoute.prioritize featured (filter ReposRoute.isPublic repos)).

End Names.

(* ===================================================================== *)
(** ** More concrete inputs for the examples *)
(* ===================================================================== *)

Module Samples.
Import Client Types.

(** Three repositories with five stars each, two of them named after a
    featured fragment, as the upstream orders them. *)
Definition tiedB : Repos.Node := Fixtures.repo "bar" 5.
Definition tiedA : Repos.Node := Fixtures.repo "foo-a" 5.
Definition tiedC : Repos.Node := Fixtures.repo "foo-c" 5.

Definition tiedPage : Repos.Data :=
  Fixtures.page [tiedB; tiedA; tiedC] false None.

(** The featured repositories of a configuration. *)
Definition featuredConfig : list Page.FeaturedRepo :=
  [ {| Page.featured_id := "GoChatMirror";
       Page.featured_description := None;
       Page.featured_image := None;
       Page.featured_icon := Some "pixel:robot" |};
    {| Page.featured_id := "portfolio-website";
       Page.featured_description := Some "This site";
       Page.featured_image := None;
       Page.featured_icon := None |} ].

(** A repository of the upstream whose name is a featured id in another
    letter case. *)
Definition mirror : Repos.Node := Fixtures.repo "gochatmirror" 12.

(** Log entries without context and error. *)
Definition entry (lvl : Logger.LogLevel) (msg : string)
  : Logger.LogEntry unit unit :=
  {| Logger.timestamp := "2025-01-01T00:00:00.000Z";
     Logger.level := lvl;
     Logger.message := msg;
     Logger.context := None;
     Logger.error := None;
     Logger.sessionId := "1735689600000-k3j9x2a" |}.

(** A logger in production: level [WARN], nothing logged yet. *)
Definition production : Logger.State unit unit :=
  {| Logger.logs := [];
     Logger.currentLevel := Logger.WARN;
     Logger.session := "1735689600000-k3j9x2a" |}.

(** A logger whose buffer is full. *)
Definition full : Logger.State unit unit :=
  {| Logger.logs := repeat (entry Logger.WARN "slow") 1000;
     Logger.currentLevel := Logger.WARN;
     Logger.session := "1735689600000-k3j9x2a" |}.

Definition keep (ctx : option unit) : option unit := ctx.

End Samples.

(* ===================================================================== *)
(** ** Facts about the host-language operations *)
(* ===================================================================== *)

Module JSFacts.

Lemma or_default_None d : JS.or_default None d = d.
Proof. reflexivity. Qed.

(** With default 0, [x || 0] is the value when there is one. *)
Lemma or_default_zero x :
  JS.or_default x 0 = match x with Some n => n | None => 0 end.
Proof.
  destruct x as [n|]; simpl; [|reflexivity].
  destruct (Z.eqb_spec n 0); congruence.
Qed.

Lemma falsy_or_string token :
  JS.falsy token = false -> token = Some (JS.or_string token "").
Proof. destruct token as [[|c s]|]; simpl; congruence. Qed.

(** *** White space before a number *)

Ltac nat_tests :=
  repeat match goal with
         | H : context [(?a =? ?b)%nat] |- _ => destruct (Nat.eqb_spec a b)
         | |- context [(?a =? ?b)%nat] => destruct (Nat.eqb_spec a b)
         | H : context [(?a <=? ?b)%nat] |- _ => destruct (Nat.leb_spec a b)
         | |- context [(?a <=? ?b)%nat] => destruct (Nat.leb_spec a b)
         end.

(** Every white space character of two or three bytes starts with one of
    the bytes of [space_lead], so [trimStart] misses none of them. *)
Lemma space2_lead c1 c2 : JS.space2 c1 c2 = true -> JS.space_lead c1 = true.
Proof.
  unfold JS.space2, JS.space_lead.
  destruct (Nat.eqb_spec (nat_of_ascii c1) 194); [reflexivity|discriminate].
Qed.

Lemma space3_lead c1 c2 c3 :
  JS.space3 c1 c2 c3 = true -> JS.space_lead c1 = true.
Proof.
  unfold JS.space3, JS.space_lead. cbv zeta.
  generalize (nat_of_ascii c1) (nat_of_ascii c2) (nat_of_ascii c3).
  intros n1 n2 n3 H.
  destruct (Nat.eqb_spec n1 194); [reflexivity|].
  destruct (Nat.eqb_spec n1 225); [reflexivity|].
  destruct (Nat.eqb_spec n1 226); [reflexivity|].
  destruct (Nat.eqb_spec n1 227); [reflexivity|].
  destruct (Nat.eqb_spec n1 239); [reflexivity|].
  simpl in H. discriminate H.
Qed.

Lemma lead_not_space1 c : JS.space_lead c = true -> JS.space1 c = false.
Proof.
  unfold JS.space_lead, JS.space1. cbv zeta.
  generalize (nat_of_ascii c). intros n H.
  nat_tests; simpl in *; try reflexivity; try discriminate; lia.
Qed.

Lemma space3_not_space2 c1 c2 c3 :
  JS.space3 c1 c2 c3 = true -> JS.space2 c1 c2 = false.
Proof.
  unfold JS.space3, JS.space2. cbv zeta.
  generalize (nat_of_ascii c1) (nat_of_ascii c2) (nat_of_ascii c3).
  intros n1 n2 n3 H.
  destruct (Nat.eqb_spec n1 194) as [->|]; [|reflexivity].
  simpl in H. discriminate H.
Qed.

(** [trimStart] removes a leading white space character, whatever its
    width. *)
Lemma trimStart_space1 c s :
  JS.space1 c = true -> JS.trimStart (String c s) = JS.trimStart s.
Proof. intros H. cbn [JS.trimStart]. now rewrite H. Qed.

Lemma trimStart_space2 c1 c2 s :
  JS.space2 c1 c2 = true ->
  JS.trimStart (String c1 (String c2 s)) = JS.trimStart s.
Proof.
  intros H. pose proof (space2_lead _ _ H) as Hlead.
  cbn [JS.trimStart].
  now rewrite (lead_not_space1 _ Hlead), Hlead, H.
Qed.

Lemma trimStart_space3 c1 c2 c3 s :
  JS.space3 c1 c2 c3 = true ->
  JS.trimStart (String c1 (String c2 (String c3 s))) = JS.trimStart s.
Proof.
  intros H. pose proof (space3_lead _ _ _ H) as Hlead.
  cbn [JS.trimStart].
  now rewrite (lead_not_space1 _ Hlead), Hlead,
    (space3_not_space2 _ _ _ H), H.
Qed.

(** What [trimStart] leaves starts with no white space character. *)
Lemma trimStart_fixed s :
  JS.starts_with_space s = false -> JS.trimStart s = s.
Proof.
  destruct s as [|c1 s1]; [reflexivity|].
  cbn [JS.starts_with_space JS.trimStart]. intros H.
  apply orb_false_elim in H. destruct H as [-> H].
  destruct (JS.space_lead c1); [|reflexivity]. cbn [negb].
  destruct s1 as [|c2 s2]; [reflexivity|].
  apply orb_false_elim in H. destruct H as [-> H].
  destruct s2 as [|c3 s3]; [reflexivity|]. now rewrite H.
Qed.

Lemma trimStart_trimmed s : JS.starts_with_space (JS.trimStart s) = false.
Proof.
  remember (String.length s) as n eqn:Hn. revert s Hn.
  induction n as [n IHn] using lt_wf_ind. intros s ->.
  assert (forall s', (String.length s' < String.length s)%nat ->
                     JS.starts_with_space (JS.trimStart s') = false) as IH
    by (intros s' Hlt; exact (IHn _ Hlt s' eq_refl)).
  clear IHn.
  destruct s as [|c1 s1]; [reflexivity|].
  cbn [JS.trimStart].
  destruct (JS.space1 c1) eqn:H1.
  { apply IH. simpl. lia. }
  destruct (JS.space_lead c1) eqn:Hlead; cbn [negb].
  - destruct s1 as [|c2 s2].
    { cbn [JS.starts_with_space]. now rewrite H1. }
    destruct (JS.space2 c1 c2) eqn:H2.
    { apply IH. simpl. lia. }
    destruct s2 as [|c3 s3].
    { cbn [JS.starts_with_space]. now rewrite H1, H2. }
    destruct (JS.space3 c1 c2 c3) eqn:H3.
    { apply IH. simpl. lia. }
    cbn [JS.starts_with_space]. now rewrite H1, H2, H3.
  - cbn [JS.starts_with_space]. rewrite H1. cbn [orb].
    destruct s1 as [|c2 s2]; [reflexivity|].
    destruct (JS.space2 c1 c2) eqn:H2.
    { apply space2_lead in H2. congruence. }
    cbn [orb]. destruct s2 as [|c3 s3]; [reflexivity|].
    destruct (JS.space3 c1 c2 c3) eqn:H3; [|reflexivity].
    apply space3_lead in H3. congruence.
Qed.

(** A no-break space before the digits is skipped like a space. *)
Example parseInt_after_no_break_space :
  JS.parseInt (String (ascii_of_nat 194) (String (ascii_of_nat 160) "2"))
  = JS.Int 2.
Proof. reflexivity. Qed.

Example parseInt_after_byte_order_mark :
  JS.parseInt
    (String (ascii_of_nat 239)
       (String (ascii_of_nat 187) (String (ascii_of_nat 191) " -7px")))
  = JS.Int (-7).
Proof. reflexivity. Qed.

(** *** [slice] *)

Lemma slice0_NaN {A : Type} (arr : list A) : JS.slice0 arr JS.NaN = [].
Proof.
  unfold JS.slice0. simpl.
  replace (Z.min 0 (Z.of_nat (List.length arr))) with 0 by lia.
  reflexivity.
Qed.

Lemma In_firstn {A : Type} (x : A) n l : In x (firstn n l) -> In x l.
Proof.
  revert l; induction n as [|n IH]; intros [|y l]; simpl; try tauto.
  intros [->|H]; auto.
Qed.

Lemma slice0_In {A : Type} (x : A) arr end_ :
  In x (JS.slice0 arr end_) -> In x arr.
Proof. unfold JS.slice0. apply In_firstn. Qed.

Lemma slice0_prefix {A : Type} (arr : list A) end_ :
  exists dropped, arr = JS.slice0 arr end_ ++ dropped.
Proof.
  unfold JS.slice0.
  match goal with |- context [firstn ?n arr] => exists (skipn n arr) end.
  symmetry. apply firstn_skipn.
Qed.

(** *** [sort] *)

Section Sort.
Context {A : Type}.
Variable compare : A -> A -> Z.

Lemma insert_perm x l : Permutation (x :: l) (JS.insert compare x l).
Proof.
  induction l as [|y l IH]; simpl; [reflexivity|].
  destruct (compare x y <=? 0); [reflexivity|].
  rewrite perm_swap. now apply perm_skip.
Qed.

Lemma sort_perm l : Permutation l (JS.sort compare l).
Proof.
  induction l as [|x l IH]; simpl; [constructor|].
  rewrite <- insert_perm. now apply perm_skip.
Qed.

Lemma sort_In x l : In x (JS.sort compare l) <-> In x l.
Proof.
  split; apply Permutation_in;
    [symmetry|]; apply sort_perm.
Qed.
End Sort.

(** For a comparator that subtracts keys, [b] minus [a], the result is
    in descending key order and elements of equal key keep their order:
    it is the stable sort. *)
Section SortByKey.
Context {A : Type}.
Variable key : A -> Z.

Lemma insert_descending x l :
  StronglySorted (fun a b => key b <= key a) l ->
  StronglySorted (fun a b => key b <= key a)
    (JS.insert (fun a b => key b - key a) x l).
Proof.
  induction 1 as [|y l Hs IH Hall]; simpl.
  - repeat constructor.
  - destruct (Z.leb_spec (key y - key x) 0) as [Hle|Hgt].
    + constructor; [now constructor|].
      constructor; [lia|].
      eapply Forall_impl; [|exact Hall].
      cbv beta. intros z Hz. lia.
    + constructor; [exact IH|].
      rewrite Forall_forall. intros z Hz.
      apply (Permutation_in _ (Permutation_sym (insert_perm _ x l))) in Hz.
      destruct Hz as [<-|Hz].
      * lia.
      * rewrite Forall_forall in Hall. now apply Hall.
Qed.

Lemma sort_descending l :
  StronglySorted (fun a b => key b <= key a)
    (JS.sort (fun a b => key b - key a) l).
Proof.
  induction l as [|x l IH]; simpl; [constructor|].
  now apply insert_descending.
Qed.

Lemma insert_stable k x l :
  filter (fun a => key a =? k) (JS.insert (fun a b => key b - key a) x l)
  = filter (fun a => key a =? k) (x :: l).
Proof.
  induction l as [|y l IH]; [reflexivity|].
  cbn [JS.insert].
  destruct (Z.leb_spec (key y - key x) 0) as [Hle|Hgt]; [reflexivity|].
  cbn [filter] in *. rewrite IH.
  destruct (Z.eqb_spec (key x) k), (Z.eqb_spec (key y) k);
    try reflexivity; lia.
Qed.

Lemma sort_stable k l :
  filter (fun a => key a =? k) (JS.sort (fun a b => key b - key a) l)
  = filter (fun a => key a =? k) l.
Proof.
  induction l as [|x l IH]; [reflexivity|].
  cbn [JS.sort]. rewrite insert_stable. cbn [filter].
  now rewrite IH.
Qed.
End SortByKey.

Lemma StronglySorted_firstn {A : Type} (R : A -> A -> Prop) n l :
  StronglySorted R l -> StronglySorted R (firstn n l).
Proof.
  intros H. revert n. induction H as [|x l Hs IH Hall]; intros [|n]; simpl;
    try constructor.
  - apply IH.
  - rewrite Forall_forall in *. intros y Hy. apply Hall.
    now apply In_firstn in Hy.
Qed.

(** *** [includes] *)

Lemma prefix_app m rest : String.prefix m (m ++ rest)%string = true.
Proof.
  induction m as [|c m IH]; simpl; [now destruct rest|].
  destruct (ascii_dec c c); [exact IH|congruence].
Qed.

Lemma includes_here m rest : JS.includes (m ++ rest)%string m = true.
Proof.
  destruct m as [|c m]; simpl.
  - destruct rest; reflexivity.
  - destruct (ascii_dec c c); [|congruence].
    now rewrite prefix_app.
Qed.

Lemma includes_later before s m :
  JS.includes s m = true -> JS.includes (before ++ s)%string m = true.
Proof.
  intros H. induction before as [|c before IH]; [exact H|].
  cbn [append JS.includes]. rewrite IH. apply orb_true_r.
Qed.

Lemma append_assoc (a b c : string) :
  ((a ++ b) ++ c)%string = (a ++ (b ++ c))%string.
Proof. induction a as [|x a IH]; simpl; congruence. Qed.

Lemma append_empty_r (a : string) : (a ++ "")%string = a.
Proof. induction a as [|x a IH]; simpl; congruence. Qed.

(** Every piece of a joined string occurs in it. *)
Lemma includes_concat sep m ms :
  In m ms -> JS.includes (String.concat sep ms) m = true.
Proof.
  induction ms as [|x ms IH]; [contradiction|].
  intros [->|Hin].
  - destruct ms as [|y ms]; cbn [String.concat].
    + pose proof (includes_here m "") as H.
      now rewrite append_empty_r in H.
    + apply includes_here.
  - destruct ms as [|y ms]; [contradiction|].
    cbn [String.concat]. rewrite <- append_assoc.
    apply includes_later. now apply IH.
Qed.

End JSFacts.

(* ===================================================================== *)
(** ** The transport *)
(* ===================================================================== *)

Module ClientFacts.
Import Client.

Section Retry.
Context {Json : Type}.
Variable requestFn : nat -> Attempt Json.
Variable maxRetries : nat.
Variable delay : Z.

(** The [try] block issues exactly one request. *)
Lemma try_block_requests i w :
  requests (snd (try_block requestFn maxRetries delay i w))
  = S (requests w).
Proof.
  unfold try_block, invoke.
  destruct (requestFn (requests w)) as [reason|response]; [reflexivity|].
  destruct (ok response); [reflexivity|].
  destruct (status response =? 403); [reflexivity|].
  destruct ((500 <=? status response) && (i <? maxRetries - 1)%nat);
    reflexivity.
Qed.

(** It sleeps only when it leaves through [continue], and then for
    [delay * (i + 1)]. *)
Lemma try_block_slept i w :
  slept (snd (try_block requestFn maxRetries delay i w))
  = match fst (try_block requestFn maxRetries delay i w) with
    | Continue => slept w ++ [delay * Z.of_nat (i + 1)]
    | _ => slept w
    end.
Proof.
  unfold try_block, invoke.
  destruct (requestFn (requests w)) as [reason|response]; [reflexivity|].
  destruct (ok response); [reflexivity|].
  destruct (status response =? 403); [reflexivity|].
  destruct ((500 <=? status response) && (i <? maxRetries - 1)%nat);
    reflexivity.
Qed.

Lemma try_block_continue i w :
  fst (try_block requestFn maxRetries delay i w) = Continue ->
  (i < maxRetries - 1)%nat.
Proof.
  unfold try_block, invoke.
  destruct (requestFn (requests w)) as [reason|response]; [discriminate|].
  destruct (ok response); [discriminate|].
  destruct (status response =? 403); [discriminate|].
  destruct (500 <=? status response); simpl; [|discriminate].
  destruct (Nat.ltb_spec i (maxRetries - 1)); [auto|discriminate].
Qed.

(** A response that the block returns is the one the request function
    resolved with, and it is [ok]. *)
Lemma try_block_return i w response :
  fst (try_block requestFn maxRetries delay i w) = Return response ->
  requestFn (requests w) = Resolves response /\ ok response = true.
Proof.
  unfold try_block, invoke.
  destruct (requestFn (requests w)) as [reason|r]; [discriminate|].
  destruct (ok r) eqn:Hok.
  - simpl. intros [= ->]. auto.
  - destruct (status r =? 403); [discriminate|].
    destruct ((500 <=? status r) && (i <? maxRetries - 1)%nat);
      discriminate.
Qed.

(** The two ways through the block that the retry scenario takes. *)
Lemma try_block_ok i w response :
  requestFn (requests w) = Resolves response -> ok response = true ->
  try_block requestFn maxRetries delay i w
  = (Return response, {| requests := S (requests w); slept := slept w |}).
Proof.
  intros Hr Hok. unfold try_block, invoke. now rewrite Hr, Hok.
Qed.

Lemma try_block_5xx i w response :
  requestFn (requests w) = Resolves response ->
  500 <= status response -> (i < maxRetries - 1)%nat ->
  try_block requestFn maxRetries delay i w
  = (Continue,
     sleep (delay * Z.of_nat (i + 1))
       {| requests := S (requests w); slept := slept w |}).
Proof.
  intros Hr Hs Hi. unfold try_block, invoke. rewrite Hr.
  unfold ok.
  destruct (Z.leb_spec (status response) 299); [lia|].
  rewrite andb_false_r.
  destruct (Z.eqb_spec (status response) 403); [lia|].
  destruct (Z.leb_spec 500 (status response)); [|lia].
  destruct (Nat.ltb_spec i (maxRetries - 1)); [reflexivity|lia].
Qed.

(** The trace of the loop: between 1 and [remaining] requests, and
    before each request but the first a timer of [delay] times the
    number of the attempt that just failed. *)
Lemma retry_loop_trace remaining i w :
  (i + remaining = maxRetries)%nat -> (1 <= remaining)%nat ->
  exists n,
    (1 <= n <= remaining)%nat
    /\ requests (snd (retry_loop requestFn maxRetries delay remaining i w))
       = (requests w + n)%nat
    /\ slept (snd (retry_loop requestFn maxRetries delay remaining i w))
       = slept w
         ++ map (fun j => delay * Z.of_nat (j + 1)) (seq i (n - 1)).
Proof.
  revert i w. induction remaining as [|remaining IH]; intros i w Hi Hr; [lia|].
  cbn [retry_loop].
  pose proof (try_block_requests i w) as Hreq.
  pose proof (try_block_slept i w) as Hsl.
  pose proof (try_block_continue i w) as Hcont.
  destruct (try_block requestFn maxRetries delay i w) as [[response| |e] w1];
    cbn [fst snd] in *.
  - exists 1%nat. cbn [snd]. rewrite Hreq, Hsl. simpl.
    rewrite app_nil_r. repeat split; lia.
  - specialize (Hcont eq_refl).
    destruct (IH (S i) w1) as (n & Hn & Hrq & Hs); [lia|lia|].
    exists (S n). rewrite Hrq, Hs, Hreq, Hsl.
    repeat split; try lia.
    replace (S n - 1)%nat with (S (n - 1)) by lia.
    cbn [seq map]. now rewrite <- app_assoc.
  - destruct (Nat.eqb_spec i (maxRetries - 1)) as [Hlast|Hmore].
    + exists 1%nat. cbn [snd]. rewrite Hreq, Hsl. simpl.
      rewrite app_nil_r. repeat split; lia.
    + destruct (IH (S i) (sleep (delay * Z.of_nat (i + 1)) w1))
        as (n & Hn & Hrq & Hs); [lia|lia|].
      exists (S n). rewrite Hrq, Hs. cbn [sleep requests slept].
      rewrite Hreq, Hsl.
      repeat split; try lia.
      replace (S n - 1)%nat with (S (n - 1)) by lia.
      cbn [seq map]. now rewrite <- app_assoc.
Qed.

(** A response that the loop returns is one the request function
    resolved with during the loop, and it is [ok]. *)
Lemma retry_loop_inr remaining i w response w' :
  retry_loop requestFn maxRetries delay remaining i w = (inr response, w') ->
  exists k, requestFn k = Resolves response /\ ok response = true.
Proof.
  revert i w. induction remaining as [|remaining IH]; intros i w; [discriminate|].
  cbn [retry_loop].
  pose proof (try_block_return i w) as Hret.
  destruct (try_block requestFn maxRetries delay i w) as [[r| |e] w1];
    cbn [fst] in Hret.
  - intros [= -> ->]. exists (requests w). now apply Hret.
  - apply IH.
  - destruct (i =? maxRetries - 1)%nat; [discriminate|apply IH].
Qed.

(** When the loop fails, the error is the one the last iteration
    threw. *)
Lemma retry_loop_inl remaining i w e w' :
  (i + remaining = maxRetries)%nat -> (1 <= remaining)%nat ->
  retry_loop requestFn maxRetries delay remaining i w = (inl e, w') ->
  exists wl,
    try_block requestFn maxRetries delay (maxRetries - 1) wl = (Throw e, w').
Proof.
  revert i w. induction remaining as [|remaining IH]; intros i w Hi Hr; [lia|].
  cbn [retry_loop].
  pose proof (try_block_continue i w) as Hcont.
  destruct (try_block requestFn maxRetries delay i w) as [[r| |e1] w1] eqn:Htry;
    cbn [fst] in Hcont.
  - discriminate.
  - specialize (Hcont eq_refl). apply IH; lia.
  - destruct (Nat.eqb_spec i (maxRetries - 1)) as [Hlast|Hmore].
    + intros [= <- <-]. exists w. now rewrite <- Hlast.
    + apply IH; lia.
Qed.
End Retry.

(** The transport never makes more than [maxRetries] attempts, and the
    timers are [delay], [2 * delay], ... in this order. *)
Lemma retryRequest_trace {Json : Type} (requestFn : nat -> Attempt Json)
    maxRetries delay w :
  (1 <= maxRetries)%nat ->
  exists n,
    (1 <= n <= maxRetries)%nat
    /\ requests (snd (retryRequest requestFn maxRetries delay w))
       = (requests w + n)%nat
    /\ slept (snd (retryRequest requestFn maxRetries delay w))
       = slept w ++ map (fun j => delay * Z.of_nat (j + 1)) (seq 0 (n - 1)).
Proof. intros H. now apply retry_loop_trace. Qed.

(** Two HTTP 500 then a success: the success is returned, after timers
    of 1 and 2 seconds. *)
Lemma retryRequest_500_500_ok {Json : Type} (requestFn : nat -> Attempt Json)
    r0 r1 r2 :
  requestFn 0%nat = Resolves r0 -> status r0 = 500 ->
  requestFn 1%nat = Resolves r1 -> status r1 = 500 ->
  requestFn 2%nat = Resolves r2 -> ok r2 = true ->
  retryRequest requestFn 3 1000 start
  = (inr r2, {| requests := 3; slept := [1000; 2000] |}).
Proof.
  intros H0 S0 H1 S1 H2 O2.
  unfold retryRequest. cbn [retry_loop].
  rewrite (try_block_5xx _ _ _ _ _ r0) by (cbn; (assumption || lia)).
  rewrite (try_block_5xx _ _ _ _ _ r1) by (cbn; (assumption || lia)).
  rewrite (try_block_ok _ _ _ _ _ r2) by (cbn; assumption).
  reflexivity.
Qed.

(** When every attempt is used up, the error of the last one is the
    result. *)
Lemma retryRequest_last_error {Json : Type} (requestFn : nat -> Attempt Json)
    maxRetries delay w e w' :
  (1 <= maxRetries)%nat ->
  retryRequest requestFn maxRetries delay w = (inl e, w') ->
  exists wl,
    try_block requestFn maxRetries delay (maxRetries - 1) wl = (Throw e, w').
Proof. intros H. now apply retry_loop_inl. Qed.

Section Fetch.
Context {Json T : Type}.
Variable view : Json -> GraphQLResponse T.
Variable network : nat -> Request -> Attempt Json.

(** Data that the transport returns was sent by the network in an [ok]
    response whose payload carries it. *)
Lemma fetchGitHubGraphQL_inr query variables token w d w' :
  fetchGitHubGraphQL view network query variables token w = (inr d, w') ->
  exists k request response payload,
    network k request = Resolves response
    /\ ok response = true
    /\ json response = Some payload
    /\ data (view payload) = Some d.
Proof.
  unfold fetchGitHubGraphQL.
  destruct (JS.falsy token); [discriminate|].
  destruct (retryRequest _ 3 1000 w) as [[e|response] w1] eqn:Hretry;
    [discriminate|].
  apply retry_loop_inr in Hretry. destruct Hretry as (k & Hk & Hok).
  destruct (json response) as [payload|] eqn:Hjson; [|discriminate].
  unfold check_payload.
  destruct (match errors (view payload) with
            | Some es => (0 <? List.length es)%nat
            | None => false
            end); [discriminate|].
  destruct (data (view payload)) as [d'|] eqn:Hdata; [|discriminate].
  intros [= -> ->]. eauto 10.
Qed.
End Fetch.

End ClientFacts.

(** *** What the transport does with a failed attempt *)

(** Every error thrown in the [try] block lands in the [catch] block of the
    same iteration, so after a first response that is not [ok], whatever
    its status, the default transport waits one second and goes on with the
    second iteration. *)
Lemma retryRequest_failure_goes_on {Json : Type}
    (requestFn : nat -> Client.Attempt Json) response :
  requestFn 0%nat = Client.Resolves response ->
  Client.ok response = false ->
  Client.retryRequest requestFn 3 1000 Client.start
  = Client.retry_loop requestFn 3 1000 2 1
      {| Client.requests := 1; Client.slept := [1000] |}.
Proof.
  intros Hr Hok. unfold Client.retryRequest. cbn [Client.retry_loop].
  unfold Client.try_block at 1, Client.invoke. cbn [Client.start Client.requests].
  rewrite Hr, Hok.
  destruct (Client.status response =? 403); [reflexivity|].
  destruct (500 <=? Client.status response); reflexivity.
Qed.

(** The second iteration issues the second request. *)
Lemma second_request_is_issued {Json : Type}
    (requestFn : nat -> Client.Attempt Json) response :
  requestFn 0%nat = Client.Resolves response ->
  Client.ok response = false ->
  (2 <= Client.requests
          (snd (Client.retryRequest requestFn 3 1000 Client.start)))%nat
  /\ exists later,
      Client.slept (snd (Client.retryRequest requestFn 3 1000 Client.start))
      = 1000 :: later.
Proof.
  intros Hr Hok. rewrite (retryRequest_failure_goes_on _ _ Hr Hok).
  destruct (ClientFacts.retry_loop_trace requestFn 3 1000 2 1
              {| Client.requests := 1; Client.slept := [1000] |})
    as (n & Hn & Hreq & Hslept); [reflexivity|lia|].
  rewrite Hreq, Hslept. cbn [Client.requests Client.slept app].
  split; [lia|eauto].
Qed.

(** C2 fails on the code, for every first response with status 403: the
    transport does not stop at the rate-limit error; it waits one second
    and issues a second request. *)
Theorem rate_limit_response_is_retried {Json : Type}
    (requestFn : nat -> Client.Attempt Json) response :
  requestFn 0%nat = Client.Resolves response ->
  Client.status response = 403 ->
  (2 <= Client.requests
          (snd (Client.retryRequest requestFn 3 1000 Client.start)))%nat
  /\ exists later,
      Client.slept (snd (Client.retryRequest requestFn 3 1000 Client.start))
      = 1000 :: later.
Proof.
  intros Hr Hs. apply (second_request_is_issued requestFn response Hr).
  unfold Client.ok. rewrite Hs. reflexivity.
Qed.

Lemma rate_limit_response_is_retried_witness :
  Fixtures.script [Fixtures.forbidden; Fixtures.success Fixtures.onePage] 0
  = Fixtures.forbidden
  /\ (2 <= Client.requests
             (snd (Client.retryRequest
                     (Fixtures.script
                        [Fixtures.forbidden; Fixtures.success Fixtures.onePage])
                     3 1000 Client.start)))%nat.
Proof.
  split; [reflexivity|].
  exact (proj1 (rate_limit_response_is_retried
                  (Fixtures.script
                     [Fixtures.forbidden; Fixtures.success Fixtures.onePage])
                  _ eq_refl eq_refl)).
Defined.

(** The same at the level of a whole call: HTTP 403, then a success. *)
Example rate_limited_call_succeeds_on_second_request :
  Client.retryRequest
    (Fixtures.script [Fixtures.forbidden; Fixtures.success Fixtures.onePage])
    3 1000 Client.start
  = (inr {| Client.status := 200;
            Client.statusText := "OK";
            Client.json := Some Fixtures.withData |},
     {| Client.requests := 2; Client.slept := [1000] |})
  /\ Client.fetchGitHubGraphQL Fixtures.same
       (fun k _ =>
          Fixtures.script [Fixtures.forbidden; Fixtures.success Fixtures.onePage] k)
       Queries.GRAPHQL_REPOS_QUERY (ReposRoute.variables ReposRoute.initial)
       Fixtures.token Client.start
     = (inr Fixtures.onePage,
        {| Client.requests := 2; Client.slept := [1000] |}).
Proof. split; reflexivity. Qed.

(** C5 fails on the code in one part, for every first response whose
    status is neither in the 2xx nor in the 5xx range: the transport
    retries although the failure is neither a 5xx status nor a network
    failure. *)
Theorem client_error_response_is_retried {Json : Type}
    (requestFn : nat -> Client.Attempt Json) response :
  requestFn 0%nat = Client.Resolves response ->
  Client.ok response = false ->
  Client.status response < 500 ->
  (2 <= Client.requests
          (snd (Client.retryRequest requestFn 3 1000 Client.start)))%nat
  /\ exists later,
      Client.slept (snd (Client.retryRequest requestFn 3 1000 Client.start))
      = 1000 :: later.
Proof.
  intros Hr Hok _. exact (second_request_is_issued requestFn response Hr Hok).
Qed.

Lemma client_error_response_is_retried_witness :
  Fixtures.script [Fixtures.notFound; Fixtures.success Fixtures.onePage] 0
  = Fixtures.notFound
  /\ (2 <= Client.requests
             (snd (Client.retryRequest
                     (Fixtures.script
                        [Fixtures.notFound; Fixtures.success Fixtures.onePage])
                     3 1000 Client.start)))%nat.
Proof.
  split; [reflexivity|].
  exact (proj1 (client_error_response_is_retried
                  (Fixtures.script
                     [Fixtures.notFound; Fixtures.success Fixtures.onePage])
                  _ eq_refl eq_refl eq_refl)).
Defined.

(** HTTP 404, then a success: the success is returned. *)
Example not_found_call_succeeds_on_second_request :
  Client.retryRequest
    (Fixtures.script [Fixtures.notFound; Fixtures.success Fixtures.onePage])
    3 1000 Client.start
  = (inr {| Client.status := 200;
            Client.statusText := "OK";
            Client.json := Some Fixtures.withData |},
     {| Client.requests := 2; Client.slept := [1000] |}).
Proof. reflexivity. Qed.

(** The scenario of the retry policy that the code does follow: HTTP 500
    twice, then a success. *)
Example two_server_errors_then_success :
  Client.retryRequest
    (Fixtures.script
       [Fixtures.serverError; Fixtures.serverError;
        Fixtures.success Fixtures.onePage])
    3 1000 Client.start
  = (inr {| Client.status := 200;
            Client.statusText := "OK";
            Client.json := Some Fixtures.withData |},
     {| Client.requests := 3; Client.slept := [1000; 2000] |}).
Proof. reflexivity. Qed.

(** *** What the transport does with a successful response *)

(** C7: once the HTTP layer has returned a response and its body has
    parsed, a non-empty [errors] array fails the call with the messages of
    all errors joined by a comma and a space (each message occurs in the
    text), whether or not [data] is there too; without errors, a missing
    [data] fails the call with the no-data error, and a present [data] is
    the result. *)
Theorem graphql_payload_checks {Json T : Type}
    (view : Json -> Client.GraphQLResponse T)
    (network : nat -> Client.Request -> Client.Attempt Json)
    query variables token w response w1 payload :
  JS.falsy token = false ->
  Client.retryRequest
    (fun k => network k (Client.post query variables (JS.or_string token "")))
    3 1000 w = (inr response, w1) ->
  Client.json response = Some payload ->
  (forall es,
      Client.errors (view payload) = Some es -> es <> [] ->
      let text :=
        ("GraphQL errors: "
         ++ String.concat ", " (map Client.message es))%string in
      Client.fetchGitHubGraphQL view network query variables token w
      = (inl (Client.GraphQLErrors text), w1)
      /\ forall e, In e es -> JS.includes text (Client.message e) = true)
  /\ (Client.errors (view payload) = None
      \/ Client.errors (view payload) = Some [] ->
      (Client.data (view payload) = None ->
       Client.fetchGitHubGraphQL view network query variables token w
       = (inl Client.NoData, w1))
      /\ (forall d,
             Client.data (view payload) = Some d ->
             Client.fetchGitHubGraphQL view network query variables token w
             = (inr d, w1))).
Proof.
  intros Htoken Hretry Hjson.
  unfold Client.fetchGitHubGraphQL.
  rewrite Htoken, Hretry, Hjson. unfold Client.check_payload.
  split.
  - intros es Hes Hne. cbv zeta. rewrite Hes.
    destruct es as [|e0 es']; [congruence|]. cbn [List.length Nat.ltb Nat.leb].
    split; [reflexivity|].
    intros e He.
    apply JSFacts.includes_later, JSFacts.includes_concat.
    now apply in_map.
  - intros Hnone.
    assert (match Client.errors (view payload) with
            | Some es => (0 <? List.length es)%nat
            | None => false
            end = false) as -> by (destruct Hnone as [-> | ->]; reflexivity).
    split.
    + now intros ->.
    + now intros d ->.
Qed.

Lemma graphql_payload_checks_witness :
  (Client.fetchGitHubGraphQL Fixtures.same (Fixtures.always Fixtures.withErrors)
     Queries.GRAPHQL_REPOS_QUERY [] Fixtures.token Client.start
   = (inl (Client.GraphQLErrors
             "GraphQL errors: Could not resolve to a User, Something went wrong"),
      {| Client.requests := 1; Client.slept := [] |}))
  /\ (Client.fetchGitHubGraphQL Fixtures.same
        (Fixtures.always Fixtures.withoutData)
        Queries.GRAPHQL_REPOS_QUERY [] Fixtures.token Client.start
      = (inl Client.NoData, {| Client.requests := 1; Client.slept := [] |}))
  /\ (Client.fetchGitHubGraphQL Fixtures.same (Fixtures.always Fixtures.withData)
        Queries.GRAPHQL_REPOS_QUERY [] Fixtures.token Client.start
      = (inr Fixtures.onePage, {| Client.requests := 1; Client.slept := [] |})).
Proof.
  split; [|split].
  - refine (proj1 (proj1 (graphql_payload_checks Fixtures.same
                    (Fixtures.always Fixtures.withErrors)
                    Queries.GRAPHQL_REPOS_QUERY [] Fixtures.token Client.start
                    _ _ Fixtures.withErrors eq_refl eq_refl eq_refl)
                  _ eq_refl _)).
    discriminate.
  - refine (proj1 (proj2 (graphql_payload_checks Fixtures.same
                    (Fixtures.always Fixtures.withoutData)
                    Queries.GRAPHQL_REPOS_QUERY [] Fixtures.token Client.start
                    _ _ Fixtures.withoutData eq_refl eq_refl eq_refl)
                  (or_intror eq_refl)) eq_refl).
  - refine (proj2 (proj2 (graphql_payload_checks Fixtures.same
                    (Fixtures.always Fixtures.withData)
                    Queries.GRAPHQL_REPOS_QUERY [] Fixtures.token Client.start
                    _ _ Fixtures.withData eq_refl eq_refl eq_refl)
                  (or_introl eq_refl)) _ eq_refl).
Defined.

(* ===================================================================== *)
(** ** The statistics route *)
(* ===================================================================== *)

Module StatsFacts.
Import Client Types.

(** The accumulator of [reduce] adds up. *)
Lemma reduce_from nodes acc :
  fold_left
    (fun sum repo =>
       sum + JS.or_default (UserStats.stargazers repo ?. totalCount) 0)
    nodes acc
  = acc + StarTotal.sum nodes.
Proof.
  revert acc. induction nodes as [|repo nodes IH]; intros acc; simpl.
  - lia.
  - rewrite IH, JSFacts.or_default_zero.
    unfold StarTotal.countOrZero.
    destruct (UserStats.stargazers repo) as [[[n|]]|]; simpl; lia.
Qed.

Lemma totalStarsOf_sum nodes :
  StatsRoute.totalStarsOf nodes = StarTotal.sum nodes.
Proof. unfold StatsRoute.totalStarsOf. now rewrite reduce_from. Qed.

(** A successful answer of the route is the normalized user that the
    upstream sent. *)
Lemma stats_GET_body {Json : Type} (view : Json -> GraphQLResponse UserStats.Data)
    token startTime network w stats cache w' :
  StatsRoute.GET view token startTime network w = (JsonBody stats cache, w') ->
  exists data user,
    fetchGitHubGraphQL view network Queries.GRAPHQL_STATS_QUERY
      [("login", VString githubUsername); ("after", VNull);
       ("includeMergedPullRequests", VBool true);
       ("startTime", VString startTime)] token w = (inr data, w')
    /\ UserStats.user data = Some user
    /\ stats = StatsRoute.toStats user.
Proof.
  unfold StatsRoute.GET.
  destruct (JS.falsy token); [discriminate|].
  destruct (fetchGitHubGraphQL _ _ _ _ _ _) as [[e|data] w1]; [discriminate|].
  destruct (UserStats.user data) as [user|] eqn:Huser; [|discriminate].
  intros [= <- _ <-]. eauto.
Qed.

End StatsFacts.

(** C8: the [totalStars] of the statistics is the sum, over all repository
    nodes of the upstream user, of the stargazer count of the node, a
    missing count being zero; with stargazer counts 3, 0 and 7 it is 10. *)
Theorem totalStars_is_the_sum_of_stargazers (user : Types.UserStats.t) :
  Types.totalStars (StatsRoute.toStats user)
  = StarTotal.sum (Types.UserStats.nodes (Types.UserStats.repositories user))
  /\ (map Types.UserStats.stargazers
        (Types.UserStats.nodes (Types.UserStats.repositories user))
      = [Fixtures.counted 3; Fixtures.counted 0; Fixtures.counted 7] ->
      Types.totalStars (StatsRoute.toStats user) = 10).
Proof.
  cbn [StatsRoute.toStats Types.totalStars].
  rewrite StatsFacts.totalStarsOf_sum. split; [reflexivity|].
  destruct (Types.UserStats.nodes (Types.UserStats.repositories user))
    as [|[s1] [|[s2] [|[s3] [|? ?]]]]; try discriminate.
  cbn [map Types.UserStats.stargazers]. intros [= -> -> ->]. reflexivity.
Qed.

Lemma totalStars_is_the_sum_of_stargazers_witness :
  Types.totalStars
    (StatsRoute.toStats
       (Fixtures.userWith
          [Fixtures.counted 3; Fixtures.counted 0; Fixtures.counted 7]))
  = 10.
Proof.
  apply (proj2 (totalStars_is_the_sum_of_stargazers
                  (Fixtures.userWith
                     [Fixtures.counted 3; Fixtures.counted 0;
                      Fixtures.counted 7]))).
  reflexivity.
Defined.

(* ===================================================================== *)
(** ** The repository listing route *)
(* ===================================================================== *)

Module ReposFacts.
Import Client Types ReposRoute.

(** *** The selection pipeline *)

Lemma prioritize_perm featured l : Permutation l (prioritize featured l).
Proof.
  unfold prioritize. destruct (0 <? List.length featured)%nat; [|reflexivity].
  induction l as [|r l IH]; [reflexivity|].
  cbn [filter]. destruct (isFeatured featured r); cbn [negb app].
  - now apply perm_skip.
  - rewrite IH at 1. apply Permutation_middle.
Qed.

Lemma select_In featured limit repos r :
  In r (select featured limit repos) -> In r repos /\ isPublic r = true.
Proof.
  unfold select. intros H.
  apply JSFacts.slice0_In, JSFacts.sort_In in H.
  apply (Permutation_in _ (Permutation_sym (prioritize_perm featured _))) in H.
  now apply filter_In in H.
Qed.

(** What the pipeline returns is in descending order of stars, whatever
    the featured list. *)
Lemma select_descending featured limit repos :
  StronglySorted (fun a b => stars b <= stars a)
    (select featured limit repos).
Proof.
  unfold select, JS.slice0. apply JSFacts.StronglySorted_firstn.
  apply (JSFacts.sort_descending stars).
Qed.

(** Among repositories with the same number of stars, the featured ones
    come first: this is all that the featured list decides. *)
Lemma sort_keeps_featured_first_among_equals featured k repos :
  filter (fun r => stars r =? k)
    (JS.sort byStars (prioritize featured (filter isPublic repos)))
  = filter (fun r => stars r =? k)
      (prioritize featured (filter isPublic repos)).
Proof. apply (JSFacts.sort_stable stars). Qed.

Lemma limitOf_absent : limitOf None = JS.Int 10.
Proof. reflexivity. Qed.

Lemma limitOf_empty : limitOf (Some "") = JS.Int 10.
Proof. reflexivity. Qed.

Lemma limitOf_present s : s <> "" -> limitOf (Some s) = JS.parseInt s.
Proof. unfold limitOf. destruct s; simpl; congruence. Qed.

(** *** The pagination loop *)

Lemma more_true p :
  more p = true ->
  hasNextPage p = true /\ (List.length (allRepos p) < 100)%nat.
Proof.
  unfold more. intros H. apply andb_prop in H. destruct H as [H1 H2].
  split; [exact H1|]. now apply Nat.ltb_lt.
Qed.

Section Loop.
Context {Json : Type}.
Variable view : Json -> GraphQLResponse Repos.Data.
Variable network : nat -> Request -> Attempt Json.
Variable token : option string.

(** A page that the loop absorbs is one that the network sent. *)
Lemma fetched_page_sent query vars w d w' :
  fetchGitHubGraphQL view network query vars token w = (inr d, w') ->
  Upstream.sends view network d.
Proof.
  intros H. apply ClientFacts.fetchGitHubGraphQL_inr in H.
  destruct H as (k & request & response & payload & Hk & _ & Hj & Hd).
  exists k, request, response, payload. auto.
Qed.

(** The invariant rule of the loop: a property of the loop variables
    that every absorbed page preserves holds when the loop ends, and
    the loop ends with its condition false. *)
Lemma fetchAll_invariant (I : Pagination -> Prop) :
  (forall p d,
      I p -> more p = true -> Upstream.sends view network d ->
      I (absorb d p)) ->
  forall fuel p w repos w',
    I p ->
    fetchAll view network token fuel p w = Some (inr repos, w') ->
    exists p', I p' /\ more p' = false /\ allRepos p' = repos.
Proof.
  intros Hstep fuel.
  induction fuel as [|fuel IH]; intros p w repos w' Hp; cbn [fetchAll];
    destruct (more p) eqn:Hmore.
  - discriminate.
  - intros [= <- <-]. eauto.
  - destruct (fetchGitHubGraphQL _ _ _ _ _ _) as [[e|d] w1] eqn:Hfetch;
      [discriminate|].
    apply IH. apply Hstep; auto.
    eapply fetched_page_sent; eauto.
  - intros [= <- <-]. eauto.
Qed.

(** The list that the loop returns is fewer than 100 nodes followed by
    the nodes of one more page. *)
Lemma fetchAll_last_page fuel w repos w' :
  fetchAll view network token fuel initial w = Some (inr repos, w') ->
  exists before last,
    Upstream.sends view network last
    /\ repos = before ++ nodesOf last
    /\ (List.length before < 100)%nat.
Proof.
  intros H.
  apply (fetchAll_invariant
           (fun p =>
              p = initial
              \/ exists before last,
                  Upstream.sends view network last
                  /\ allRepos p = before ++ nodesOf last
                  /\ (List.length before < 100)%nat)) in H.
  - destruct H as (p' & [-> | Hp'] & Hmore & <-); [discriminate|].
    exact Hp'.
  - intros p d _ Hmore Hd. right.
    exists (allRepos p), d. apply more_true in Hmore.
    repeat split; [exact Hd|tauto].
  - now left.
Qed.

(** With full pages the loop ends after the first page. *)
Lemma fetchAll_full_pages fuel w repos w' :
  Upstream.every_page view network Upstream.full_when_more ->
  fetchAll view network token fuel initial w = Some (inr repos, w') ->
  (List.length repos <= 100)%nat.
Proof.
  intros Hfull H.
  apply (fetchAll_invariant
           (fun p =>
              allRepos p = []
              \/ ((List.length (allRepos p) <= 100)%nat
                  /\ (hasNextPage p = true ->
                      (100 <= List.length (allRepos p))%nat)))) in H.
  - destruct H as (p' & [Hnil | [Hle _]] & _ & <-); [|exact Hle].
    rewrite Hnil. simpl. lia.
  - intros p d Hp Hmore Hd. apply more_true in Hmore.
    destruct Hmore as [Hnext Hlt].
    destruct Hp as [Hnil | [_ Hge]]; [|specialize (Hge Hnext); lia].
    right. cbn [absorb allRepos hasNextPage]. rewrite Hnil. cbn [app].
    destruct (Hfull d Hd) as [Hb Hf].
    unfold Upstream.bounded, Queries.repositories_first in *.
    split; [exact Hb|]. intros Hn. rewrite (Hf Hn). lia.
  - now left.
Qed.

(** A property of every node that the network sends holds of every
    node that the loop returns. *)
Lemma fetchAll_nodes (P : Repos.Node -> Prop) fuel w repos w' :
  Upstream.every_node view network P ->
  fetchAll view network token fuel initial w = Some (inr repos, w') ->
  Forall P repos.
Proof.
  intros HP H.
  apply (fetchAll_invariant (fun p => Forall P (allRepos p))) in H.
  - now destruct H as (p' & Hp' & _ & <-).
  - intros p d Hp _ Hd. cbn [absorb allRepos].
    apply Forall_app. split; [exact Hp|]. now apply HP.
  - constructor.
Qed.

(** The loop ends: when every page that announces a next page carries
    at least one node, 100 pages are enough. *)
Lemma fetchAll_ends_from fuel p w :
  Upstream.every_page view network Upstream.progresses ->
  (hasNextPage p = true -> (100 - List.length (allRepos p) <= fuel)%nat) ->
  fetchAll view network token fuel p w <> None.
Proof.
  intros Hprog. revert p w.
  induction fuel as [|fuel IH]; intros p w Hfuel; cbn [fetchAll];
    destruct (more p) eqn:Hmore; try discriminate.
  - apply more_true in Hmore. destruct Hmore as [Hn Hlt].
    specialize (Hfuel Hn). lia.
  - destruct (fetchGitHubGraphQL _ _ _ _ _ _) as [[e|d] w1] eqn:Hfetch;
      [discriminate|].
    apply IH. cbn [absorb allRepos hasNextPage]. intros Hnext.
    apply fetched_page_sent in Hfetch.
    specialize (Hprog d Hfetch Hnext).
    apply more_true in Hmore. destruct Hmore as [Hn Hlt].
    specialize (Hfuel Hn). rewrite length_app. lia.
Qed.

Lemma fetchAll_ends fuel w :
  Upstream.every_page view network Upstream.progresses ->
  (100 <= fuel)%nat ->
  fetchAll view network token fuel initial w <> None.
Proof.
  intros Hprog Hfuel. apply fetchAll_ends_from; [exact Hprog|].
  simpl. lia.
Qed.

(** *** The handler *)

(** A successful answer is the normalized selection of what the loop
    returned. *)
Lemma GET_body featuredParam limitParam fuel w body cache w' :
  GET view network token featuredParam limitParam fuel w
  = Some (JsonBody body cache, w') ->
  exists repos,
    fetchAll view network token fuel initial w = Some (inr repos, w')
    /\ body = map toRepository
                (select (featuredOf featuredParam) (limitOf limitParam)
                   repos).
Proof.
  unfold GET. destruct (JS.falsy token); [discriminate|].
  destruct (fetchAll view network token fuel initial w)
    as [[[e|repos] w1]|]; try discriminate.
  intros [= <- _ <-]. eauto.
Qed.

(** And the loop returning is all that a successful answer needs. *)
Lemma GET_of_fetchAll featuredParam limitParam fuel w repos w' :
  JS.falsy token = false ->
  fetchAll view network token fuel initial w = Some (inr repos, w') ->
  GET view network token featuredParam limitParam fuel w
  = Some (JsonBody
            (map toRepository
               (select (featuredOf featuredParam) (limitOf limitParam)
                  repos))
            CACHE_CONTROL, w').
Proof. intros Ht Hf. unfold GET. now rewrite Ht, Hf. Qed.
End Loop.

End ReposFacts.

(** What the fixture upstream can send. *)
Lemma serve_sends pages d :
  Upstream.sends Fixtures.same (Fixtures.serve pages) d ->
  In d pages \/ d = Fixtures.page [] false None.
Proof.
  intros (k & request & response & payload & Hk & Hj & Hd).
  unfold Fixtures.serve, Fixtures.success, Fixtures.respond in Hk.
  injection Hk as <-. cbn [Client.json] in Hj. injection Hj as <-.
  unfold Fixtures.same in Hd. cbn [Client.data] in Hd. injection Hd as <-.
  destruct (nth_in_or_default k pages (Fixtures.page [] false None)); auto.
Qed.

(** *** Featured repositories *)

(** C1, at the repositories A ("foo-a", 1 star), B ("bar", 10 stars) and
    C ("foo-c", 2 stars) with [featured=foo] and [limit=3]: the partition
    puts A and C before B, and the sort by stars that follows puts B back
    in front, so the answer is B, C, A and not C, A, B. *)
Theorem featured_order_is_undone_by_the_sort :
  ReposRoute.prioritize (ReposRoute.featuredOf (Some "foo"))
    [Fixtures.repoA; Fixtures.repoB; Fixtures.repoC]
  = [Fixtures.repoA; Fixtures.repoC; Fixtures.repoB]
  /\ ReposRoute.GET Fixtures.same (Fixtures.serve [Fixtures.onePage])
       Fixtures.token (Some "foo") (Some "3") 1 Client.start
     = Some (JsonBody
               (map ReposRoute.toRepository
                  [Fixtures.repoB; Fixtures.repoC; Fixtures.repoA])
               CACHE_CONTROL,
             {| Client.requests := 1; Client.slept := [] |}).
Proof. split; reflexivity. Qed.

(** The scenario of the specification without a featured list: stars 5, 20
    and 1 with [limit=2] give the repository with 20 stars, then the one
    with 5. *)
Example top_two_by_stars :
  Fixtures.names
    (Fixtures.run_repos
       [Fixtures.page
          [Fixtures.repo "five" 5; Fixtures.repo "twenty" 20;
           Fixtures.repo "one" 1] false None]
       None (Some "2"))
  = Some ["twenty"; "five"].
Proof. reflexivity. Qed.

(** *** The pagination cap *)

(** C3 as stated fails: a first page of 99 nodes that announces a next page
    is followed by a second request, and the two nodes of the second page
    bring the accumulated list to 101 nodes. *)
Lemma accumulation_exceeds_100 : ~ Stated.accumulation_capped_at_100.
Proof.
  intros H.
  assert (ReposRoute.fetchAll Fixtures.same
            (Fixtures.serve Fixtures.shortThenMore) Fixtures.token 2
            ReposRoute.initial Client.start
          = Some (inr (repeat Fixtures.repoA 99
                         ++ [Fixtures.repoB; Fixtures.repoC]),
                  {| Client.requests := 2; Client.slept := [] |})) as Hrun
      by (vm_compute; reflexivity).
  apply H in Hrun. rewrite length_app, repeat_length in Hrun.
  simpl in Hrun. lia.
Qed.

(** C3, amended: the loop asks for a page only while fewer than 100 nodes
    are accumulated and appends every page whole, so what it returns is
    fewer than 100 nodes followed by the nodes of the last page.  With
    pages of at most 100 nodes that is at most 199 nodes, and at most 100
    when every page that announces a next page carries exactly 100. *)
Theorem pagination_stops_once_100_are_accumulated {Json : Type}
    (view : Json -> Client.GraphQLResponse Types.Repos.Data)
    (network : nat -> Client.Request -> Client.Attempt Json)
    token fuel w repos w' :
  ReposRoute.fetchAll view network token fuel ReposRoute.initial w
  = Some (inr repos, w') ->
  (exists before last,
      Upstream.sends view network last
      /\ repos = before ++ ReposRoute.nodesOf last
      /\ (List.length before < 100)%nat)
  /\ (Upstream.every_page view network Upstream.bounded ->
      (List.length repos <= 199)%nat)
  /\ (Upstream.every_page view network Upstream.full_when_more ->
      (List.length repos <= 100)%nat).
Proof.
  intros H. split; [|split].
  - eapply ReposFacts.fetchAll_last_page; eauto.
  - intros Hb.
    destruct (ReposFacts.fetchAll_last_page _ _ _ _ _ _ _ H)
      as (before & last & Hsent & -> & Hlt).
    specialize (Hb last Hsent).
    unfold Upstream.bounded, Queries.repositories_first in Hb.
    rewrite length_app. lia.
  - intros Hf. eapply ReposFacts.fetchAll_full_pages; eauto.
Qed.

Lemma pagination_stops_once_100_are_accumulated_witness :
  ReposRoute.fetchAll Fixtures.same
    (Fixtures.serve [Fixtures.fullPage; Fixtures.onePage]) Fixtures.token 1
    ReposRoute.initial Client.start
  = Some (inr (repeat Fixtures.repoA 100),
          {| Client.requests := 1; Client.slept := [] |})
  /\ (List.length (repeat Fixtures.repoA 100) <= 100)%nat.
Proof.
  assert (ReposRoute.fetchAll Fixtures.same
            (Fixtures.serve [Fixtures.fullPage; Fixtures.onePage])
            Fixtures.token 1 ReposRoute.initial Client.start
          = Some (inr (repeat Fixtures.repoA 100),
                  {| Client.requests := 1; Client.slept := [] |})) as Hrun
      by (vm_compute; reflexivity).
  split; [exact Hrun|].
  apply (proj2 (proj2 (pagination_stops_once_100_are_accumulated
                         _ _ _ _ _ _ _ Hrun))).
  intros d Hd. apply serve_sends in Hd.
  destruct Hd as [[<- | [<- | []]] | ->];
    (split;
     [unfold Upstream.bounded; apply Nat.leb_le; vm_compute; reflexivity
     |vm_compute; intros; (discriminate || reflexivity)]).
Defined.

(** *** The privacy filter *)

(** C4: whatever the upstream sends and whatever the [featured] and
    [limit] parameters are, no repository in a successful answer of the
    route is private, archived or a template. *)
Theorem unlisted_repositories_never_reach_the_client {Json : Type}
    (view : Json -> Client.GraphQLResponse Types.Repos.Data)
    (network : nat -> Client.Request -> Client.Attempt Json)
    token featuredParam limitParam fuel w body cache w' :
  ReposRoute.GET view network token featuredParam limitParam fuel w
  = Some (JsonBody body cache, w') ->
  Forall
    (fun r =>
       Types.isPrivate r = false
       /\ Types.isArchived r = false
       /\ Types.isTemplate r = false)
    body.
Proof.
  intros H. apply ReposFacts.GET_body in H. destruct H as (repos & _ & ->).
  rewrite Forall_forall. intros r Hr.
  apply in_map_iff in Hr. destruct Hr as (node & <- & Hnode).
  apply ReposFacts.select_In in Hnode. destruct Hnode as [_ Hpub].
  unfold ReposRoute.isPublic in Hpub.
  cbn [ReposRoute.toRepository Types.isPrivate Types.isArchived
         Types.isTemplate].
  destruct (Types.Repos.isPrivate node), (Types.Repos.isArchived node),
    (Types.Repos.isTemplate node); simpl in Hpub; auto; discriminate.
Qed.

Lemma unlisted_repositories_never_reach_the_client_witness :
  ReposRoute.GET Fixtures.same (Fixtures.serve [Fixtures.mixedPage])
    Fixtures.token (Some "foo") None 1 Client.start
  = Some (JsonBody
            (map ReposRoute.toRepository
               [Fixtures.repoB; Fixtures.repoC; Fixtures.repoA])
            CACHE_CONTROL,
          {| Client.requests := 1; Client.slept := [] |})
  /\ Forall
       (fun r =>
          Types.isPrivate r = false
          /\ Types.isArchived r = false
          /\ Types.isTemplate r = false)
       (map ReposRoute.toRepository
          [Fixtures.repoB; Fixtures.repoC; Fixtures.repoA]).
Proof.
  assert (ReposRoute.GET Fixtures.same (Fixtures.serve [Fixtures.mixedPage])
            Fixtures.token (Some "foo") None 1 Client.start
          = Some (JsonBody
                    (map ReposRoute.toRepository
                       [Fixtures.repoB; Fixtures.repoC; Fixtures.repoA])
                    CACHE_CONTROL,
                  {| Client.requests := 1; Client.slept := [] |})) as Hrun
      by reflexivity.
  split; [exact Hrun|].
  exact (unlisted_repositories_never_reach_the_client _ _ _ _ _ _ _ _ _ _ Hrun).
Defined.

(** *** Normalization *)

(** C6: a node without a stargazer count, a fork count or a language
    connection is normalized to 0 stars, 0 forks and the empty breakdown;
    the [defaultBranchRef] of the result wraps the commit count exactly
    when the node has one at the end of
    [defaultBranchRef.target.history.totalCount], and is [null] exactly
    when a link of that chain is absent. *)
Theorem normalization_defaults (repo : Types.Repos.Node) :
  (Types.Repos.stargazers repo ?. Types.totalCount = None ->
   Types.stargazerCount (ReposRoute.toRepository repo) = 0)
  /\ (Types.Repos.forkCount repo = None ->
      Types.forkCount (ReposRoute.toRepository repo) = 0)
  /\ (Types.Repos.languages repo = None ->
      Types.languages (ReposRoute.toRepository repo)
      = {| Types.totalSize := 0; Types.edges := [] |})
  /\ (forall n,
         (exists ref target history,
             Types.Repos.defaultBranchRef repo = Some ref
             /\ Types.Repos.target ref = Some target
             /\ Types.Repos.history target = Some history
             /\ Types.totalCount history = Some n)
         <-> Types.defaultBranchRef (ReposRoute.toRepository repo)
             = Some {| Types.ref_target :=
                         {| Types.target_history :=
                              {| Types.history_totalCount := n |} |} |})
  /\ (Types.Repos.defaultBranchRef repo = None
      \/ (exists ref,
             Types.Repos.defaultBranchRef repo = Some ref
             /\ Types.Repos.target ref = None)
      \/ (exists ref target,
             Types.Repos.defaultBranchRef repo = Some ref
             /\ Types.Repos.target ref = Some target
             /\ Types.Repos.history target = None)
      \/ (exists ref target history,
             Types.Repos.defaultBranchRef repo = Some ref
             /\ Types.Repos.target ref = Some target
             /\ Types.Repos.history target = Some history
             /\ Types.totalCount history = None)
      <-> Types.defaultBranchRef (ReposRoute.toRepository repo) = None).
Proof.
  cbn [ReposRoute.toRepository Types.stargazerCount Types.forkCount
         Types.languages Types.defaultBranchRef].
  unfold ReposRoute.stars, ReposRoute.commitCount, chain.
  repeat split.
  - now intros ->.
  - now intros ->.
  - now intros ->.
  - intros (ref & target & history & Hr & Ht & Hh & Hn).
    now rewrite Hr, Ht, Hh, Hn.
  - destruct (Types.Repos.defaultBranchRef repo) as [ref|]; [|discriminate].
    destruct (Types.Repos.target ref) as [target|] eqn:Ht; [|discriminate].
    destruct (Types.Repos.history target) as [history|] eqn:Hh; [|discriminate].
    destruct (Types.totalCount history) as [m|] eqn:Hn; [|discriminate].
    intros [= ->]. eauto 10.
  - intros [Hr | [(ref & Hr & Ht) | [(ref & target & Hr & Ht & Hh)
                                    | (ref & target & history & Hr & Ht & Hh & Hn)]]];
      rewrite Hr; try rewrite Ht; try rewrite Hh; try rewrite Hn; reflexivity.
  - destruct (Types.Repos.defaultBranchRef repo) as [ref|]; [|auto].
    destruct (Types.Repos.target ref) as [target|] eqn:Ht; [|eauto 10].
    destruct (Types.Repos.history target) as [history|] eqn:Hh; [|eauto 10].
    destruct (Types.totalCount history) as [m|] eqn:Hn; [discriminate|].
    eauto 15.
Qed.

Lemma normalization_defaults_witness :
  (Types.stargazerCount (ReposRoute.toRepository Fixtures.bare) = 0
   /\ Types.forkCount (ReposRoute.toRepository Fixtures.bare) = 0
   /\ Types.languages (ReposRoute.toRepository Fixtures.bare)
      = {| Types.totalSize := 0; Types.edges := [] |}
   /\ Types.defaultBranchRef (ReposRoute.toRepository Fixtures.bare) = None)
  /\ Types.defaultBranchRef (ReposRoute.toRepository Fixtures.committed)
     = Some {| Types.ref_target :=
                 {| Types.target_history :=
                      {| Types.history_totalCount := 42 |} |} |}
  /\ Types.defaultBranchRef (ReposRoute.toRepository Fixtures.uncommitted)
     = None.
Proof.
  destruct (normalization_defaults Fixtures.bare)
    as (Hstars & Hforks & Hlangs & _ & Hnull).
  destruct (normalization_defaults Fixtures.committed) as (_ & _ & _ & Hsome & _).
  destruct (normalization_defaults Fixtures.uncommitted)
    as (_ & _ & _ & _ & Hnull').
  split; [split; [|split; [|split]]|split].
  - now apply Hstars.
  - now apply Hforks.
  - now apply Hlangs.
  - apply Hnull. now left.
  - apply Hsome. eexists _, _, _. repeat split.
  - apply Hnull'. right. right. left. eexists _, _. repeat split.
Defined.

(** *** The language breakdown *)

(** C9 as stated fails: a node that the upstream sends with eleven
    languages, smallest first, reaches the client with the same eleven. *)
Lemma languages_beyond_ten : ~ Stated.languages_bounded_and_ordered.
Proof.
  intros H.
  assert (ReposRoute.GET Fixtures.same
            (Fixtures.serve [Fixtures.page [Fixtures.polyglot] false None])
            Fixtures.token None None 1 Client.start
          = Some (JsonBody [ReposRoute.toRepository Fixtures.polyglot]
                    CACHE_CONTROL,
                  {| Client.requests := 1; Client.slept := [] |})) as Hrun
      by reflexivity.
  apply H in Hrun. inversion Hrun as [|r rs [Hlen _] _]; subst.
  vm_compute in Hlen. lia.
Qed.

(** C9, amended: the route hands on the language connection of the
    upstream node as it is, or the empty breakdown when the node has none;
    it neither truncates nor sorts.  So the breakdown has at most 10
    entries in descending order of size whenever the upstream sends the
    connection as the query asks for it. *)
Theorem languages_are_forwarded_unchanged {Json : Type}
    (view : Json -> Client.GraphQLResponse Types.Repos.Data)
    (network : nat -> Client.Request -> Client.Attempt Json)
    token featuredParam limitParam fuel w body cache w' :
  ReposRoute.GET view network token featuredParam limitParam fuel w
  = Some (JsonBody body cache, w') ->
  (forall r,
      In r body ->
      exists page node,
        Upstream.sends view network page
        /\ In node (ReposRoute.nodesOf page)
        /\ Types.languages r
           = match Types.Repos.languages node with
             | Some l => l
             | None => {| Types.totalSize := 0; Types.edges := [] |}
             end)
  /\ (Upstream.every_node view network Upstream.languages_as_requested ->
      Forall (fun r => Queries.as_requested (Types.languages r)) body).
Proof.
  intros H. apply ReposFacts.GET_body in H. destruct H as (repos & Hloop & ->).
  split.
  - intros r Hr. apply in_map_iff in Hr. destruct Hr as (node & <- & Hnode).
    apply ReposFacts.select_In in Hnode. destruct Hnode as [Hnode _].
    assert (Forall
              (fun node =>
                 exists page,
                   Upstream.sends view network page
                   /\ In node (ReposRoute.nodesOf page)) repos) as Hall.
    { eapply ReposFacts.fetchAll_nodes; [|exact Hloop].
      intros page Hpage. rewrite Forall_forall. eauto. }
    rewrite Forall_forall in Hall. destruct (Hall node Hnode) as (page & Hp & Hin).
    exists page, node. auto.
  - intros Hup. rewrite Forall_forall. intros r Hr.
    apply in_map_iff in Hr. destruct Hr as (node & <- & Hnode).
    apply ReposFacts.select_In in Hnode. destruct Hnode as [Hnode _].
    pose proof (ReposFacts.fetchAll_nodes _ _ _ _ _ _ _ _ Hup Hloop) as Hall.
    rewrite Forall_forall in Hall. specialize (Hall node Hnode).
    unfold Upstream.languages_as_requested in Hall.
    cbn [ReposRoute.toRepository Types.languages].
    destruct (Types.Repos.languages node); [exact Hall|].
    split; [simpl; lia|constructor].
Qed.

Lemma languages_are_forwarded_unchanged_witness :
  ReposRoute.GET Fixtures.same
    (Fixtures.serve
       [Fixtures.page [Fixtures.descending; Fixtures.repoA] false None])
    Fixtures.token None None 1 Client.start
  = Some (JsonBody
            (map ReposRoute.toRepository [Fixtures.descending; Fixtures.repoA])
            CACHE_CONTROL,
          {| Client.requests := 1; Client.slept := [] |})
  /\ Forall (fun r => Queries.as_requested (Types.languages r))
       (map ReposRoute.toRepository [Fixtures.descending; Fixtures.repoA]).
Proof.
  assert (ReposRoute.GET Fixtures.same
            (Fixtures.serve
               [Fixtures.page [Fixtures.descending; Fixtures.repoA] false None])
            Fixtures.token None None 1 Client.start
          = Some (JsonBody
                    (map ReposRoute.toRepository
                       [Fixtures.descending; Fixtures.repoA])
                    CACHE_CONTROL,
                  {| Client.requests := 1; Client.slept := [] |})) as Hrun
      by reflexivity.
  split; [exact Hrun|].
  apply (proj2 (languages_are_forwarded_unchanged _ _ _ _ _ _ _ _ _ _ Hrun)).
  intros d Hd. apply serve_sends in Hd.
  destruct Hd as [[<- | []] | ->]; [|constructor].
  repeat constructor; cbn; lia.
Defined.

(** *** The limit parameter *)

(** C10 as stated fails: [limit=] is present and [parseInt] yields [NaN]
    on the empty string, yet the route parses the default "10" in its
    place and answers with the repositories. *)
Lemma empty_limit_gets_the_default :
  ~ Stated.unparsable_limit_gives_empty_list.
Proof.
  intros H.
  assert (ReposRoute.fetchAll Fixtures.same (Fixtures.serve [Fixtures.onePage])
            Fixtures.token 1 ReposRoute.initial Client.start
          = Some (inr [Fixtures.repoA; Fixtures.repoB; Fixtures.repoC],
                  {| Client.requests := 1; Client.slept := [] |})) as Hrun
      by reflexivity.
  specialize (H _ Fixtures.same (Fixtures.serve [Fixtures.onePage])
                Fixtures.token None "" 1%nat Client.start _ _
                eq_refl eq_refl Hrun).
  assert (ReposRoute.GET Fixtures.same (Fixtures.serve [Fixtures.onePage])
            Fixtures.token None (Some "") 1 Client.start
          = Some (JsonBody
                    (map ReposRoute.toRepository
                       [Fixtures.repoB; Fixtures.repoC; Fixtures.repoA])
                    CACHE_CONTROL,
                  {| Client.requests := 1; Client.slept := [] |})) as Hget
      by reflexivity.
  rewrite Hget in H. discriminate H. discriminate.
Qed.

(** C10, amended: when the [limit] parameter is present, not empty, and
    [parseInt] yields [NaN] on it, the route answers with the empty list
    whatever the upstream repositories are.  (A [limit] that is present but
    empty is replaced by the default 10 before it is parsed.)  [parseInt]
    yields [NaN] when what follows the leading white space, of one byte
    or more, and an optional sign does not start with a decimal digit. *)
Theorem unparsable_limit_gives_the_empty_list {Json : Type}
    (view : Json -> Client.GraphQLResponse Types.Repos.Data)
    (network : nat -> Client.Request -> Client.Attempt Json)
    token featuredParam s fuel w repos w' :
  s <> "" ->
  JS.parseInt s = JS.NaN ->
  JS.falsy token = false ->
  ReposRoute.fetchAll view network token fuel ReposRoute.initial w
  = Some (inr repos, w') ->
  ReposRoute.GET view network token featuredParam (Some s) fuel w
  = Some (JsonBody [] CACHE_CONTROL, w').
Proof.
  intros Hs Hnan Htoken Hloop.
  rewrite (ReposFacts.GET_of_fetchAll _ _ _ _ _ _ _ _ _ Htoken Hloop).
  rewrite (ReposFacts.limitOf_present _ Hs), Hnan.
  unfold ReposRoute.select. now rewrite JSFacts.slice0_NaN.
Qed.

Lemma unparsable_limit_gives_the_empty_list_witness :
  ("abc" <> ""
   /\ JS.parseInt "abc" = JS.NaN
   /\ JS.falsy Fixtures.token = false
   /\ ReposRoute.fetchAll Fixtures.same (Fixtures.serve [Fixtures.onePage])
        Fixtures.token 1 ReposRoute.initial Client.start
      = Some (inr [Fixtures.repoA; Fixtures.repoB; Fixtures.repoC],
              {| Client.requests := 1; Client.slept := [] |}))
  /\ ReposRoute.GET Fixtures.same (Fixtures.serve [Fixtures.onePage])
       Fixtures.token (Some "foo") (Some "abc") 1 Client.start
     = Some (JsonBody [] CACHE_CONTROL,
             {| Client.requests := 1; Client.slept := [] |}).
Proof.
  split.
  - repeat split; (discriminate || reflexivity).
  - apply (unparsable_limit_gives_the_empty_list Fixtures.same
             (Fixtures.serve [Fixtures.onePage]) Fixtures.token (Some "foo")
             "abc" 1%nat Client.start
             [Fixtures.repoA; Fixtures.repoB; Fixtures.repoC]);
      (discriminate || reflexivity).
Defined.

(* ===================================================================== *)
(** ** More on the transport *)
(* ===================================================================== *)

Module RetryFacts.
Import Client.

Section Retry.
Context {Json : Type}.
Variable requestFn : nat -> Attempt Json.
Variable maxRetries : nat.
Variable delay : Z.

(** After a failed attempt that is not the last one, the loop sets the
    timer of the attempt and goes on, whatever the failure. *)
Lemma retry_loop_failed_step remaining i w :
  Attempts.failed (requestFn (requests w)) ->
  (i < maxRetries - 1)%nat ->
  retry_loop requestFn maxRetries delay (S remaining) i w
  = retry_loop requestFn maxRetries delay remaining (S i)
      (sleep (delay * Z.of_nat (i + 1))
         {| requests := S (requests w); slept := slept w |}).
Proof.
  intros Hfail Hi. cbn [retry_loop]. unfold try_block, invoke.
  destruct (Nat.eqb_spec i (maxRetries - 1)) as [Heq|_]; [lia|].
  destruct (requestFn (requests w)) as [reason|response]; [reflexivity|].
  cbn [Attempts.failed] in Hfail. rewrite Hfail.
  destruct (status response =? 403); [reflexivity|].
  destruct (Nat.ltb_spec i (maxRetries - 1)) as [_|Hge]; [|lia].
  destruct (500 <=? status response); reflexivity.
Qed.

(** The first [ok] response ends the loop. *)
Lemma retry_loop_first_success n :
  forall remaining i w response,
    (i + remaining = maxRetries)%nat ->
    (n < remaining)%nat ->
    (forall j, (j < n)%nat -> Attempts.failed (requestFn (requests w + j))) ->
    requestFn (requests w + n) = Resolves response ->
    ok response = true ->
    retry_loop requestFn maxRetries delay remaining i w
    = (inr response,
       {| requests := requests w + n + 1;
          slept :=
            slept w ++ map (fun j => delay * Z.of_nat (j + 1)) (seq i n) |}).
Proof.
  induction n as [|n IH]; intros remaining i w response Hi Hn Hfail Hr Hok.
  - destruct remaining as [|remaining]; [lia|].
    cbn [retry_loop]. rewrite Nat.add_0_r in Hr.
    rewrite (ClientFacts.try_block_ok _ _ _ _ _ response Hr Hok).
    cbn [seq map]. rewrite app_nil_r. do 2 f_equal. lia.
  - destruct remaining as [|remaining]; [lia|].
    rewrite retry_loop_failed_step.
    + rewrite (IH remaining (S i) _ response); cbn [sleep requests slept].
      * do 2 f_equal; [lia|]. cbn [seq map]. now rewrite <- app_assoc.
      * lia.
      * lia.
      * intros j Hj. replace (S (requests w) + j)%nat
          with (requests w + S j)%nat by lia. apply Hfail. lia.
      * now replace (S (requests w) + n)%nat with (requests w + S n)%nat by lia.
      * exact Hok.
    + specialize (Hfail 0%nat). rewrite Nat.add_0_r in Hfail. apply Hfail. lia.
    + lia.
Qed.

(** A response that the loop returns answers the last request that was
    issued. *)
Lemma retry_loop_inr_last remaining i w response w' :
  retry_loop requestFn maxRetries delay remaining i w = (inr response, w') ->
  ok response = true
  /\ (requests w < requests w')%nat
  /\ requestFn (requests w' - 1) = Resolves response.
Proof.
  revert i w. induction remaining as [|remaining IH]; intros i w; [discriminate|].
  cbn [retry_loop].
  pose proof (ClientFacts.try_block_return requestFn maxRetries delay i w) as Hret.
  pose proof (ClientFacts.try_block_requests requestFn maxRetries delay i w) as Hreq.
  destruct (try_block requestFn maxRetries delay i w) as [[r| |e] w1];
    cbn [fst snd] in Hret, Hreq.
  - intros [= -> ->]. destruct (Hret _ eq_refl) as [Hr Hok].
    rewrite Hreq. repeat split; [exact Hok|lia|].
    now replace (S (requests w) - 1)%nat with (requests w) by lia.
  - intros H. apply IH in H. destruct H as (Hok & Hlt & Hr).
    repeat split; [exact Hok|lia|exact Hr].
  - destruct (i =? maxRetries - 1)%nat; [discriminate|].
    intros H. apply IH in H. cbn [sleep requests] in H.
    destruct H as (Hok & Hlt & Hr).
    repeat split; [exact Hok|lia|exact Hr].
Qed.

(** What the [try] block throws for a failed attempt in the last
    iteration. *)
Lemma try_block_last_throw w e w' :
  try_block requestFn maxRetries delay (maxRetries - 1) w = (Throw e, w') ->
  match requestFn (requests w) with
  | Rejects reason => e = Rejected reason
  | Resolves response =>
      ok response = false
      /\ e = if status response =? 403
             then RateLimit match json response with
                            | Some payload => Parsed payload
                            | None => EmptyObject
                            end
             else ApiError (status response) (statusText response)
  end.
Proof.
  unfold try_block, invoke.
  destruct (requestFn (requests w)) as [reason|response].
  - now intros [= <- _].
  - destruct (ok response); [discriminate|].
    destruct (status response =? 403); [now intros [= <- _]|].
    rewrite Nat.ltb_irrefl, andb_false_r. now intros [= <- _].
Qed.

(** Anything but [ok] from the [try] block is a failed attempt. *)
Lemma try_block_not_return i w :
  (forall response,
      fst (try_block requestFn maxRetries delay i w) <> Return response) ->
  Attempts.failed (requestFn (requests w)).
Proof.
  unfold try_block, invoke.
  destruct (requestFn (requests w)) as [reason|response]; [easy|].
  cbn [Attempts.failed]. destruct (ok response); [|easy].
  intros H. now destruct (H response).
Qed.

(** The loop fails only in its last iteration: every attempt was made and
    every attempt failed. *)
Lemma retry_loop_inl_all remaining i w e w' :
  (i + remaining = maxRetries)%nat -> (1 <= remaining)%nat ->
  retry_loop requestFn maxRetries delay remaining i w = (inl e, w') ->
  requests w' = (requests w + remaining)%nat
  /\ (forall j, (j < remaining)%nat ->
                Attempts.failed (requestFn (requests w + j)))
  /\ exists wl,
      requests wl = (requests w + remaining - 1)%nat
      /\ try_block requestFn maxRetries delay (maxRetries - 1) wl
         = (Throw e, w').
Proof.
  revert i w. induction remaining as [|remaining IH]; intros i w Hi Hr; [lia|].
  cbn [retry_loop].
  pose proof (ClientFacts.try_block_continue requestFn maxRetries delay i w)
    as Hcont.
  pose proof (ClientFacts.try_block_requests requestFn maxRetries delay i w)
    as Hreq.
  pose proof (try_block_not_return i w) as Hfailed.
  destruct (try_block requestFn maxRetries delay i w) as [[r| |e1] w1] eqn:Htry;
    cbn [fst snd] in Hcont, Hreq, Hfailed.
  - discriminate.
  - specialize (Hcont eq_refl). intros H.
    apply IH in H; [|lia|lia]. destruct H as (Hn & Hall & wl & Hwl & Hlast).
    split; [lia|]. split.
    + intros [|j] Hj.
      * rewrite Nat.add_0_r. apply Hfailed. discriminate.
      * replace (requests w + S j)%nat with (requests w1 + j)%nat by lia.
        apply Hall. lia.
    + exists wl. split; [lia|exact Hlast].
  - destruct (Nat.eqb_spec i (maxRetries - 1)) as [Hlast|Hmore].
    + intros [= <- <-]. assert (remaining = 0%nat) as -> by lia.
      split; [lia|]. split.
      * intros j Hj. assert (j = 0%nat) as -> by lia.
        rewrite Nat.add_0_r. apply Hfailed. discriminate.
      * exists w. split; [lia|]. now rewrite <- Hlast.
    + intros H. apply IH in H; [|lia|lia]. cbn [sleep requests] in H.
      destruct H as (Hn & Hall & wl & Hwl & Hlast).
      split; [lia|]. split.
      * intros [|j] Hj.
        -- rewrite Nat.add_0_r. apply Hfailed. discriminate.
        -- replace (requests w + S j)%nat with (requests w1 + j)%nat by lia.
           apply Hall. lia.
      * exists wl. split; [lia|exact Hlast].
Qed.
End Retry.

Lemma total_backoff delay n :
  Attempts.total (Attempts.backoff delay n)
  = delay * Z.of_nat (n * (n + 1) / 2).
Proof.
  unfold Attempts.backoff.
  assert (forall i,
             Attempts.total
               (map (fun j => delay * Z.of_nat (j + 1)) (seq i n))
             = delay * Z.of_nat (n * i + n * (n + 1) / 2)) as H.
  { induction n as [|n IH]; intros i; [simpl; lia|].
    cbn [seq map Attempts.total fold_right].
    fold (Attempts.total
            (map (fun j => delay * Z.of_nat (j + 1)) (seq (S i) n))).
    rewrite IH. rewrite <- Z.mul_add_distr_l. f_equal.
    rewrite <- Nat2Z.inj_add. f_equal.
    replace (S n * (S n + 1))%nat with (n * (n + 1) + (n + 1) * 2)%nat by lia.
    rewrite Nat.div_add by lia. lia. }
  rewrite H. do 2 f_equal. lia.
Qed.

End RetryFacts.

(** Where the data of a successful call comes from. *)
Lemma fetch_inr_clean {Json T : Type}
    (view : Json -> Client.GraphQLResponse T)
    (network : nat -> Client.Request -> Client.Attempt Json)
    query variables token w d w' :
  Client.fetchGitHubGraphQL view network query variables token w
  = (inr d, w') ->
  JS.falsy token = false
  /\ exists response payload,
      network (Client.requests w' - 1)%nat
        (Client.post query variables (JS.or_string token ""))
      = Client.Resolves response
      /\ Client.ok response = true
      /\ Client.json response = Some payload
      /\ (Client.errors (view payload) = None
          \/ Client.errors (view payload) = Some [])
      /\ Client.data (view payload) = Some d.
Proof.
  unfold Client.fetchGitHubGraphQL.
  destruct (JS.falsy token); [discriminate|].
  destruct (Client.retryRequest _ 3 1000 w) as [[e|response] w1] eqn:Hretry;
    [discriminate|].
  apply RetryFacts.retry_loop_inr_last in Hretry.
  destruct Hretry as (Hok & _ & Hlast).
  destruct (Client.json response) as [payload|] eqn:Hjson; [|discriminate].
  unfold Client.check_payload.
  destruct (Client.errors (view payload)) as [[|e0 es]|] eqn:Herr;
    cbn [List.length Nat.ltb Nat.leb]; try discriminate;
    (destruct (Client.data (view payload)) as [d'|] eqn:Hdata; [|discriminate];
     intros [= -> ->]; split; [reflexivity|];
     exists response, payload; repeat split; auto).
Qed.

(** X1: a call of [retryRequest] with at least one attempt allowed issues
    between 1 and [maxRetries] requests, and it awaits exactly one timer
    before every request but the first: [delay], then [2 * delay], and so
    on, in this order. *)
Theorem transport_attempts_and_timers {Json : Type}
    (requestFn : nat -> Client.Attempt Json) maxRetries delay w :
  (1 <= maxRetries)%nat ->
  exists n,
    (1 <= n <= maxRetries)%nat
    /\ Client.requests (snd (Client.retryRequest requestFn maxRetries delay w))
       = (Client.requests w + n)%nat
    /\ Client.slept (snd (Client.retryRequest requestFn maxRetries delay w))
       = Client.slept w ++ Attempts.backoff delay (n - 1).
Proof.
  intros H.
  destruct (ClientFacts.retry_loop_trace requestFn maxRetries delay
              maxRetries 0 w) as (n & Hn & Hreq & Hslept); [reflexivity|exact H|].
  exists n. unfold Client.retryRequest, Attempts.backoff. auto.
Qed.

Lemma transport_attempts_and_timers_witness :
  (1 <= 3)%nat
  /\ exists n,
      (1 <= n <= 3)%nat
      /\ Client.requests
           (snd (Client.retryRequest
                   (Fixtures.script
                      [Fixtures.serverError; Fixtures.notFound;
                       Fixtures.success Fixtures.onePage])
                   3 1000 Client.start))
         = (0 + n)%nat
      /\ Client.slept
           (snd (Client.retryRequest
                   (Fixtures.script
                      [Fixtures.serverError; Fixtures.notFound;
                       Fixtures.success Fixtures.onePage])
                   3 1000 Client.start))
         = [] ++ Attempts.backoff 1000 (n - 1).
Proof.
  split; [lia|].
  apply (transport_attempts_and_timers
           (Fixtures.script
              [Fixtures.serverError; Fixtures.notFound;
               Fixtures.success Fixtures.onePage])
           3 1000 Client.start).
  lia.
Defined.

(** X2: the first [ok] response wins.  When the first [n] attempts fail in
    any way (rejection or a response that is not [ok]) and attempt [n + 1]
    is still allowed and resolves with an [ok] response, that response is
    the result, after [n + 1] requests and the timers [delay] to
    [n * delay]. *)
Theorem first_ok_response_wins {Json : Type}
    (requestFn : nat -> Client.Attempt Json) maxRetries delay w n response :
  (n < maxRetries)%nat ->
  (forall j, (j < n)%nat ->
             Attempts.failed (requestFn (Client.requests w + j)%nat)) ->
  requestFn (Client.requests w + n)%nat = Client.Resolves response ->
  Client.ok response = true ->
  Client.retryRequest requestFn maxRetries delay w
  = (inr response,
     {| Client.requests := (Client.requests w + n + 1)%nat;
        Client.slept := Client.slept w ++ Attempts.backoff delay n |}).
Proof.
  intros Hn Hfail Hr Hok. unfold Client.retryRequest, Attempts.backoff.
  now apply RetryFacts.retry_loop_first_success.
Qed.

Lemma first_ok_response_wins_witness :
  Client.retryRequest
    (Fixtures.script
       [Client.Rejects "ECONNRESET"; Fixtures.forbidden;
        Fixtures.success Fixtures.onePage])
    3 1000 Client.start
  = (inr {| Client.status := 200;
            Client.statusText := "OK";
            Client.json := Some Fixtures.withData |},
     {| Client.requests := 3; Client.slept := [1000; 2000] |}).
Proof.
  apply (first_ok_response_wins
           (Fixtures.script
              [Client.Rejects "ECONNRESET"; Fixtures.forbidden;
               Fixtures.success Fixtures.onePage])
           3 1000 Client.start 2).
  - lia.
  - intros [|[|j]] Hj; [exact I|reflexivity|lia].
  - reflexivity.
  - reflexivity.
Defined.

(** X3: [retryRequest] gives up only after its last attempt.  When it
    fails, it has issued exactly [maxRetries] requests, every one of them
    failed, and the error is the one of the last attempt: the rejection of
    the request function, the rate-limit error for status 403, the API
    error with status and status text otherwise. *)
Theorem failure_takes_every_attempt {Json : Type}
    (requestFn : nat -> Client.Attempt Json) maxRetries delay w e w' :
  (1 <= maxRetries)%nat ->
  Client.retryRequest requestFn maxRetries delay w = (inl e, w') ->
  Client.requests w' = (Client.requests w + maxRetries)%nat
  /\ (forall j, (j < maxRetries)%nat ->
                Attempts.failed (requestFn (Client.requests w + j)%nat))
  /\ match requestFn (Client.requests w + maxRetries - 1)%nat with
     | Client.Rejects reason => e = Client.Rejected reason
     | Client.Resolves response =>
         Client.ok response = false
         /\ e = if Client.status response =? 403
                then Client.RateLimit
                       match Client.json response with
                       | Some payload => Client.Parsed payload
                       | None => Client.EmptyObject
                       end
                else Client.ApiError (Client.status response)
                       (Client.statusText response)
     end.
Proof.
  intros Hmax H. unfold Client.retryRequest in H.
  apply RetryFacts.retry_loop_inl_all in H; [|reflexivity|exact Hmax].
  destruct H as (Hreq & Hall & wl & Hwl & Hlast).
  split; [exact Hreq|]. split; [exact Hall|].
  apply RetryFacts.try_block_last_throw in Hlast. now rewrite Hwl in Hlast.
Qed.

Lemma failure_takes_every_attempt_witness :
  Client.retryRequest
    (Fixtures.script
       [Fixtures.serverError; Fixtures.notFound; Fixtures.forbidden])
    3 1000 Client.start
  = (inl (Client.RateLimit Client.EmptyObject),
     {| Client.requests := 3; Client.slept := [1000; 2000] |})
  /\ Client.requests {| Client.requests := 3; Client.slept := [1000; 2000] |}
     = (0 + 3)%nat.
Proof.
  split; [reflexivity|].
  apply (failure_takes_every_attempt
           (Fixtures.script
              [Fixtures.serverError; Fixtures.notFound; Fixtures.forbidden])
           3 1000 Client.start (Client.RateLimit Client.EmptyObject));
    [lia|reflexivity].
Defined.

(** X4: a response that [retryRequest] returns is [ok], and it is the
    answer to the last request that was issued. *)
Theorem returned_response_is_the_last_and_ok {Json : Type}
    (requestFn : nat -> Client.Attempt Json) maxRetries delay w response w' :
  Client.retryRequest requestFn maxRetries delay w = (inr response, w') ->
  Client.ok response = true
  /\ (Client.requests w < Client.requests w')%nat
  /\ requestFn (Client.requests w' - 1)%nat = Client.Resolves response.
Proof. apply RetryFacts.retry_loop_inr_last. Qed.

Lemma returned_response_is_the_last_and_ok_witness :
  Client.retryRequest
    (Fixtures.script [Fixtures.serverError; Fixtures.success Fixtures.onePage])
    3 1000 Client.start
  = (inr {| Client.status := 200;
            Client.statusText := "OK";
            Client.json := Some Fixtures.withData |},
     {| Client.requests := 2; Client.slept := [1000] |})
  /\ Fixtures.script
       [Fixtures.serverError; Fixtures.success Fixtures.onePage] (2 - 1)%nat
     = Client.Resolves
         {| Client.status := 200;
            Client.statusText := "OK";
            Client.json := Some Fixtures.withData |}.
Proof.
  assert (Client.retryRequest
            (Fixtures.script
               [Fixtures.serverError; Fixtures.success Fixtures.onePage])
            3 1000 Client.start
          = (inr {| Client.status := 200;
                    Client.statusText := "OK";
                    Client.json := Some Fixtures.withData |},
             {| Client.requests := 2; Client.slept := [1000] |})) as Hrun
      by reflexivity.
  split; [exact Hrun|].
  exact (proj2 (proj2 (returned_response_is_the_last_and_ok _ _ _ _ _ _ Hrun))).
Defined.

(** X5: data that [fetchGitHubGraphQL] returns always comes from the
    answer to the last request, and that answer was [ok], had a body that
    parsed, and carried no GraphQL error; without a token nothing is ever
    returned. *)
Theorem data_only_from_a_clean_ok_response {Json T : Type}
    (view : Json -> Client.GraphQLResponse T)
    (network : nat -> Client.Request -> Client.Attempt Json)
    query variables token w d w' :
  Client.fetchGitHubGraphQL view network query variables token w
  = (inr d, w') ->
  JS.falsy token = false
  /\ exists response payload,
      network (Client.requests w' - 1)%nat
        (Client.post query variables (JS.or_string token ""))
      = Client.Resolves response
      /\ Client.ok response = true
      /\ Client.json response = Some payload
      /\ (Client.errors (view payload) = None
          \/ Client.errors (view payload) = Some [])
      /\ Client.data (view payload) = Some d.
Proof. apply fetch_inr_clean. Qed.

Lemma data_only_from_a_clean_ok_response_witness :
  Client.fetchGitHubGraphQL Fixtures.same
    (fun k _ =>
       Fixtures.script
         [Fixtures.serverError; Fixtures.success Fixtures.onePage] k)
    Queries.GRAPHQL_REPOS_QUERY [] Fixtures.token Client.start
  = (inr Fixtures.onePage, {| Client.requests := 2; Client.slept := [1000] |})
  /\ JS.falsy Fixtures.token = false.
Proof.
  assert (Client.fetchGitHubGraphQL Fixtures.same
            (fun k _ =>
               Fixtures.script
                 [Fixtures.serverError; Fixtures.success Fixtures.onePage] k)
            Queries.GRAPHQL_REPOS_QUERY [] Fixtures.token Client.start
          = (inr Fixtures.onePage,
             {| Client.requests := 2; Client.slept := [1000] |})) as Hrun
      by reflexivity.
  split; [exact Hrun|].
  exact (proj1 (data_only_from_a_clean_ok_response _ _ _ _ _ _ _ _ Hrun)).
Defined.

(** X6: what a call of [fetchGitHubGraphQL] costs at most: three requests
    and three seconds of timers ([1000] and [2000] milliseconds), whatever
    the network does; and without a token, no request at all. *)
Theorem call_cost_is_bounded {Json T : Type}
    (view : Json -> Client.GraphQLResponse T)
    (network : nat -> Client.Request -> Client.Attempt Json)
    query variables token w :
  (Client.requests
     (snd (Client.fetchGitHubGraphQL view network query variables token w))
   <= Client.requests w + 3)%nat
  /\ (exists timers,
         Client.slept
           (snd (Client.fetchGitHubGraphQL view network query variables
                   token w))
         = Client.slept w ++ timers
         /\ Attempts.total timers <= 3000)
  /\ (JS.falsy token = true ->
      snd (Client.fetchGitHubGraphQL view network query variables token w)
      = w).
Proof.
  unfold Client.fetchGitHubGraphQL.
  destruct (JS.falsy token) eqn:Htoken; cbn [snd].
  - split; [lia|]. split; [|reflexivity].
    exists []. rewrite app_nil_r. split; [reflexivity|simpl; lia].
  - destruct (ClientFacts.retry_loop_trace
                (fun k =>
                   network k
                     (Client.post query variables (JS.or_string token "")))
                3 1000 3 0 w) as (n & Hn & Hreq & Hslept);
      [reflexivity|lia|].
    fold (Client.retryRequest
            (fun k =>
               network k
                 (Client.post query variables (JS.or_string token "")))
            3 1000 w) in Hreq, Hslept.
    destruct (Client.retryRequest _ 3 1000 w) as [[e|response] w1];
      cbn [snd] in *;
      [|destruct (Client.json response)]; cbn [snd];
      (split; [lia|]; split; [|discriminate];
       eexists; split; [exact Hslept|];
       destruct n as [|[|[|[|n]]]]; simpl; lia).
Qed.

Lemma call_cost_is_bounded_witness :
  JS.falsy (Some "") = true
  /\ snd (Client.fetchGitHubGraphQL Fixtures.same
            (Fixtures.always Fixtures.withData) Queries.GRAPHQL_REPOS_QUERY []
            (Some "") Client.start)
     = Client.start.
Proof.
  split; [reflexivity|].
  apply (proj2 (proj2 (call_cost_is_bounded Fixtures.same
                         (Fixtures.always Fixtures.withData)
                         Queries.GRAPHQL_REPOS_QUERY [] (Some "")
                         Client.start))).
  reflexivity.
Defined.

(* ===================================================================== *)
(** ** The routes with one upstream call *)
(* ===================================================================== *)

Module RouteFacts.
Import Client Types.

Section Fetch.
Context {Json T : Type}.
Variable view : Json -> GraphQLResponse T.
Variable network : nat -> Request -> Attempt Json.

Lemma fetch_requests_bound query variables token w :
  (requests (snd (fetchGitHubGraphQL view network query variables token w))
   <= requests w + 3)%nat.
Proof.
  unfold fetchGitHubGraphQL. destruct (JS.falsy token); cbn [snd]; [lia|].
  destruct (ClientFacts.retry_loop_trace
              (fun k => network k (post query variables (JS.or_string token "")))
              3 1000 3 0 w) as (n & Hn & Hreq & _); [reflexivity|lia|].
  fold (retryRequest
          (fun k => network k (post query variables (JS.or_string token "")))
          3 1000 w) in Hreq.
  destruct (retryRequest _ 3 1000 w) as [[e|response] w1]; cbn [snd] in *;
    [|destruct (json response)]; cbn [snd]; lia.
Qed.

Lemma fetch_without_token query variables token w :
  JS.falsy token = true ->
  fetchGitHubGraphQL view network query variables token w
  = (inl TokenRequired, w).
Proof. intros H. unfold fetchGitHubGraphQL. now rewrite H. Qed.
End Fetch.

(** Reading the payloads at another type changes the data of a call and
    nothing else. *)
Lemma fetch_at_another_type {Json S T : Type}
    (view : Json -> GraphQLResponse S) (f : S -> T)
    (network : nat -> Request -> Attempt Json) query variables token w :
  fetchGitHubGraphQL
    (fun payload =>
       {| data := option_map f (data (view payload));
          errors := errors (view payload) |})
    network query variables token w
  = match fetchGitHubGraphQL view network query variables token w with
    | (inl e, w1) => (inl e, w1)
    | (inr d, w1) => (inr (f d), w1)
    end.
Proof.
  unfold fetchGitHubGraphQL. destruct (JS.falsy token); [reflexivity|].
  destruct (retryRequest _ 3 1000 w) as [[e|response] w1]; [reflexivity|].
  destruct (json response) as [payload|]; [|reflexivity].
  unfold check_payload. cbn [errors data].
  destruct (match errors (view payload) with
            | Some es => (0 <? List.length es)%nat
            | None => false
            end); [reflexivity|].
  destruct (data (view payload)); reflexivity.
Qed.

Lemma counted_or_default c : UserCounts.counted c -> 0 <= JS.or_default c 0.
Proof.
  rewrite JSFacts.or_default_zero. destruct c; simpl; lia.
Qed.

Lemma sum_nonnegative nodes :
  Forall
    (fun repo => UserCounts.counted (UserStats.stargazers repo ?. totalCount))
    nodes ->
  0 <= StarTotal.sum nodes.
Proof.
  induction 1 as [|repo nodes Hrepo _ IH]; simpl; [lia|].
  unfold StarTotal.countOrZero.
  destruct (UserStats.stargazers repo) as [[[n|]]|]; simpl in *; lia.
Qed.

End RouteFacts.

(** X7: the statistics route issues at most three requests.  An answer
    with a body is the normalization of a user that the upstream sent in
    the answer to the last request, an [ok] response free of GraphQL
    errors; an error answer is one of three fixed pairs of message and
    status, 404 only when such a clean answer has no user, and without a
    token no request is issued. *)
Theorem stats_route_answers {Json : Type}
    (view : Json -> Client.GraphQLResponse Types.UserStats.Data)
    token startTime
    (network : nat -> Client.Request -> Client.Attempt Json) w :
  (Client.requests (snd (StatsRoute.GET view token startTime network w))
   <= Client.requests w + 3)%nat
  /\ match fst (StatsRoute.GET view token startTime network w) with
     | JsonBody stats cache =>
         cache = CACHE_CONTROL
         /\ exists request response payload d user,
             network
               (Client.requests
                  (snd (StatsRoute.GET view token startTime network w)) - 1)%nat
               request
             = Client.Resolves response
             /\ Client.ok response = true
             /\ Client.json response = Some payload
             /\ (Client.errors (view payload) = None
                 \/ Client.errors (view payload) = Some [])
             /\ Client.data (view payload) = Some d
             /\ Types.UserStats.user d = Some user
             /\ stats = StatsRoute.toStats user
     | JsonError message code =>
         (message = "GitHub token not configured" /\ code = 500
          /\ JS.falsy token = true
          /\ snd (StatsRoute.GET view token startTime network w) = w)
         \/ (message = "User not found" /\ code = 404
             /\ exists request response payload d,
                 network
                   (Client.requests
                      (snd (StatsRoute.GET view token startTime network w))
                    - 1)%nat
                   request
                 = Client.Resolves response
                 /\ Client.ok response = true
                 /\ Client.json response = Some payload
                 /\ Client.data (view payload) = Some d
                 /\ Types.UserStats.user d = None)
         \/ (message = "Failed to fetch GitHub stats" /\ code = 500)
     end.
Proof.
  unfold StatsRoute.GET.
  destruct (JS.falsy token) eqn:Htoken; cbn [fst snd].
  - split; [lia|]. left. auto.
  - match goal with
    | |- context [Client.fetchGitHubGraphQL view network ?q ?v token w] =>
        pose proof (RouteFacts.fetch_requests_bound view network q v token w)
          as Hbound;
        pose proof (fetch_inr_clean view network q v token w) as Hclean;
        destruct (Client.fetchGitHubGraphQL view network q v token w)
          as [[e|d] w1]
    end; cbn [fst snd] in *.
    + split; [exact Hbound|]. right. right. auto.
    + destruct (Hclean d w1 eq_refl)
        as (_ & response & payload & Hnet & Hok & Hjson & Herr & Hdata).
      destruct (Types.UserStats.user d) as [user|] eqn:Huser; cbn [fst snd].
      * split; [exact Hbound|]. split; [reflexivity|].
        eexists _, response, payload, d, user. repeat split; eauto.
      * split; [exact Hbound|]. right. left. repeat split.
        eexists _, response, payload, d. repeat split; eauto.
Qed.

(** X8: when no counter of the upstream user is negative, no counter of
    the statistics is. *)
Theorem statistics_are_not_negative (user : Types.UserStats.t) :
  UserCounts.nonnegative user ->
  0 <= Types.totalRepos (StatsRoute.toStats user)
  /\ 0 <= Types.totalStars (StatsRoute.toStats user)
  /\ 0 <= Types.totalCommits (StatsRoute.toStats user)
  /\ 0 <= Types.totalPRs (StatsRoute.toStats user)
  /\ 0 <= Types.totalPRsMerged (StatsRoute.toStats user)
  /\ 0 <= Types.totalReviews (StatsRoute.toStats user)
  /\ 0 <= Types.totalIssues (StatsRoute.toStats user)
  /\ 0 <= Types.contributedTo (StatsRoute.toStats user)
  /\ 0 <= Types.followers (StatsRoute.toStats user)
  /\ 0 <= Types.following (StatsRoute.toStats user).
Proof.
  intros (Hrepos & Hstars & Hc & Hp & Hm & Hr & Ho & Hcl & Hct & Hf & Hg).
  cbn [StatsRoute.toStats Types.totalRepos Types.totalStars Types.totalCommits
         Types.totalPRs Types.totalPRsMerged Types.totalReviews
         Types.totalIssues Types.contributedTo Types.followers
         Types.following].
  rewrite StatsFacts.totalStarsOf_sum.
  pose proof (RouteFacts.sum_nonnegative _ Hstars).
  pose proof (RouteFacts.counted_or_default _ Hc).
  pose proof (RouteFacts.counted_or_default _ Hp).
  pose proof (RouteFacts.counted_or_default _ Hm).
  pose proof (RouteFacts.counted_or_default _ Hr).
  pose proof (RouteFacts.counted_or_default _ Ho).
  pose proof (RouteFacts.counted_or_default _ Hcl).
  pose proof (RouteFacts.counted_or_default _ Hct).
  pose proof (RouteFacts.counted_or_default _ Hf).
  pose proof (RouteFacts.counted_or_default _ Hg).
  repeat split; lia.
Qed.

Lemma statistics_are_not_negative_witness :
  0 <= Types.totalStars
         (StatsRoute.toStats
            (Fixtures.userWith
               [Fixtures.counted 3; None; Fixtures.counted 7]))
  /\ 0 <= Types.totalIssues
            (StatsRoute.toStats
               (Fixtures.userWith
                  [Fixtures.counted 3; None; Fixtures.counted 7])).
Proof.
  assert (UserCounts.nonnegative
            (Fixtures.userWith [Fixtures.counted 3; None; Fixtures.counted 7]))
    as Hnn.
  { unfold UserCounts.nonnegative. cbn.
    split; [lia|]. split; [|tauto].
    repeat constructor; cbn; lia. }
  pose proof (statistics_are_not_negative _ Hnn) as H.
  split; [apply H|apply H].
Defined.

(** X9: the activity route and the statistics route agree on every
    upstream answer of the shape [GitHubGraphQLUserStats] declares, in
    which a user that is present carries its [repositories] connection
    and the [nodes] of it.  Given the same token and the same such
    answers, the two either both answer with a body, and then the five
    counters of the activity equal the corresponding counters of the
    statistics, or both answer with an error of the same status; and both
    issue the same requests.  The restriction is the one of
    [Types.UserStats.t]: the statistics route reads
    [user.repositories.nodes] without a guard (line 43) and the activity
    route never reads it, so an answer without it has no reading at that
    type and is not covered here. *)
Theorem activity_agrees_with_statistics {Json : Type}
    (view : Json -> Client.GraphQLResponse Types.UserStats.Data)
    token startTime
    (network : nat -> Client.Request -> Client.Attempt Json) w :
  match StatsRoute.GET view token startTime network w,
        ActivityRoute.GET
          (fun payload => UserCounts.asActivityPayload (view payload))
          token startTime network w with
  | (JsonBody stats _, w1), (JsonBody activity _, w2) =>
      UserCounts.agree stats activity /\ w1 = w2
  | (JsonError _ code1, w1), (JsonError _ code2, w2) =>
      code1 = code2 /\ w1 = w2
  | _, _ => False
  end.
Proof.
  unfold StatsRoute.GET, ActivityRoute.GET.
  destruct (JS.falsy token); [auto|].
  match goal with
  | |- context [Client.fetchGitHubGraphQL
                  (fun payload => UserCounts.asActivityPayload (view payload))
                  network ?q ?v token w] =>
      pose proof (RouteFacts.fetch_at_another_type view
                    (fun d =>
                       {| ActivityRoute.user :=
                            match Types.UserStats.user d with
                            | Some u => Some (UserCounts.asActivity u)
                            | None => None
                            end |})
                    network q v token w) as Hsame
  end.
  unfold UserCounts.asActivityPayload.
  unfold option_map in Hsame. rewrite Hsame.
  destruct (Client.fetchGitHubGraphQL view network _ _ token w) as [[e|d] w1];
    [auto|].
  cbn [ActivityRoute.user].
  destruct (Types.UserStats.user d) as [user|]; [|auto].
  split; [|reflexivity]. repeat split.
Qed.

(** X10: the contributions route hands on the calendar as the upstream
    sent it.  An answer with a body comes from a contributions collection
    in the answer to the last request (an [ok] response free of GraphQL
    errors): its weeks are the weeks of the upstream calendar, unchanged
    and in the same order, or none when the calendar or its weeks are
    absent.  The route answers 404 only when such a clean answer has no
    user or no collection, and it issues at most three requests. *)
Theorem contributions_route_answers {Json : Type}
    (view : Json -> Client.GraphQLResponse ContributionsRoute.Data)
    token from to
    (network : nat -> Client.Request -> Client.Attempt Json) w :
  (Client.requests (snd (ContributionsRoute.GET view token from to network w))
   <= Client.requests w + 3)%nat
  /\ match fst (ContributionsRoute.GET view token from to network w) with
     | JsonBody body cache =>
         cache = CACHE_CONTROL
         /\ exists request response payload d collection,
             network
               (Client.requests
                  (snd (ContributionsRoute.GET view token from to network w))
                - 1)%nat
               request
             = Client.Resolves response
             /\ Client.ok response = true
             /\ Client.json response = Some payload
             /\ (Client.errors (view payload) = None
                 \/ Client.errors (view payload) = Some [])
             /\ Client.data (view payload) = Some d
             /\ ContributionsRoute.user d
                  ?. ContributionsRoute.contributionsCollection
                = Some collection
             /\ match ContributionsRoute.contributionCalendar collection
                      ?. ContributionsRoute.calendar_weeks with
                | Some upstreamWeeks =>
                    ContributionsRoute.weeks body = upstreamWeeks
                | None => ContributionsRoute.weeks body = []
                end
     | JsonError message code =>
         (message = "GitHub token not configured" /\ code = 500
          /\ JS.falsy token = true
          /\ snd (ContributionsRoute.GET view token from to network w) = w)
         \/ (message = "Contributions data not found" /\ code = 404
             /\ exists request response payload d,
                 network
                   (Client.requests
                      (snd (ContributionsRoute.GET view token from to
                              network w))
                    - 1)%nat
                   request
                 = Client.Resolves response
                 /\ Client.ok response = true
                 /\ Client.json response = Some payload
                 /\ Client.data (view payload) = Some d
                 /\ ContributionsRoute.user d
                      ?. ContributionsRoute.contributionsCollection
                    = None)
         \/ (message = "Failed to fetch GitHub contributions" /\ code = 500)
     end.
Proof.
  unfold ContributionsRoute.GET.
  destruct (JS.falsy token) eqn:Htoken; cbn [fst snd].
  - split; [lia|]. left. auto.
  - match goal with
    | |- context [Client.fetchGitHubGraphQL view network ?q ?v token w] =>
        pose proof (RouteFacts.fetch_requests_bound view network q v token w)
          as Hbound;
        pose proof (fetch_inr_clean view network q v token w) as Hclean;
        destruct (Client.fetchGitHubGraphQL view network q v token w)
          as [[e|d] w1]
    end; cbn [fst snd] in *.
    + split; [exact Hbound|]. right. right. auto.
    + destruct (Hclean d w1 eq_refl)
        as (_ & response & payload & Hnet & Hok & Hjson & Herr & Hdata).
      destruct (ContributionsRoute.user d
                  ?. ContributionsRoute.contributionsCollection)
        as [collection|] eqn:Hcoll; cbn [fst snd].
      * split; [exact Hbound|]. split; [reflexivity|].
        eexists _, response, payload, d, collection.
        repeat split; eauto.
        cbn [ContributionsRoute.toContributions ContributionsRoute.weeks].
        now destruct (ContributionsRoute.contributionCalendar collection
                        ?. ContributionsRoute.calendar_weeks).
      * split; [exact Hbound|]. right. left. repeat split.
        eexists _, response, payload, d. repeat split; eauto.
Qed.

(* ===================================================================== *)
(** ** More on the repository listing route *)
(* ===================================================================== *)

Module SelectFacts.
Import Client Types ReposRoute Names.

(** *** Lists *)

Lemma slice0_length {A : Type} (l : list A) n :
  Z.of_nat (List.length (JS.slice0 l (JS.Int n)))
  = if n <? 0 then Z.max (Z.of_nat (List.length l) + n) 0
    else Z.min n (Z.of_nat (List.length l)).
Proof.
  unfold JS.slice0. rewrite length_firstn.
  destruct (Z.ltb_spec n 0); lia.
Qed.

Lemma StronglySorted_map {A B : Type} (f : A -> B) (R : B -> B -> Prop) l :
  StronglySorted (fun a b => R (f a) (f b)) l -> StronglySorted R (map f l).
Proof.
  induction 1 as [|x l Hs IH Hall]; simpl; constructor; [exact IH|].
  rewrite Forall_forall in *. intros y Hy.
  apply in_map_iff in Hy. destruct Hy as (a & <- & Ha). now apply Hall.
Qed.

Lemma StronglySorted_app_inv {A : Type} (R : A -> A -> Prop) l1 l2 :
  StronglySorted R (l1 ++ l2) ->
  forall a b, In a l1 -> In b l2 -> R a b.
Proof.
  induction l1 as [|x l1 IH]; intros Hs a b Ha Hb; [contradiction|].
  inversion Hs as [|? ? Hs' Hall]; subst.
  destruct Ha as [<-|Ha].
  - rewrite Forall_forall in Hall. apply Hall, in_or_app. now right.
  - now apply IH.
Qed.

(** A list in descending order of a key without repetition has one
    arrangement only. *)
Lemma descending_unique {A : Type} (key : A -> Z) l1 :
  forall l2,
    Permutation l1 l2 ->
    StronglySorted (fun a b => key b <= key a) l1 ->
    StronglySorted (fun a b => key b <= key a) l2 ->
    NoDup (map key l1) ->
    l1 = l2.
Proof.
  induction l1 as [|x l1 IH]; intros l2 Hperm Hs1 Hs2 Hnd.
  - now apply Permutation_nil in Hperm.
  - destruct l2 as [|y l2];
      [apply Permutation_sym, Permutation_nil in Hperm; discriminate|].
    inversion Hs1 as [|? ? Hs1' Hall1]; subst.
    inversion Hs2 as [|? ? Hs2' Hall2]; subst.
    inversion Hnd as [|? ? Hnotin Hnd']; subst.
    rewrite Forall_forall in Hall1, Hall2.
    assert (x = y) as <-.
    { assert (In x (y :: l2)) as Hx
          by (eapply Permutation_in; [exact Hperm|now left]).
      assert (In y (x :: l1)) as Hy
          by (eapply Permutation_in; [symmetry; exact Hperm|now left]).
      destruct Hx as [Hx|Hx]; [now symmetry|].
      destruct Hy as [Hy|Hy]; [exact Hy|].
      specialize (Hall1 y Hy). specialize (Hall2 x Hx).
      exfalso. apply Hnotin. apply in_map_iff. exists y. split; [lia|exact Hy]. }
    f_equal. apply IH; auto.
    now apply Permutation_cons_inv in Hperm.
Qed.

(** *** The selection *)

Lemma select_length featured n repos :
  Z.of_nat (List.length (select featured (JS.Int n) repos))
  = if n <? 0
    then Z.max (Z.of_nat (List.length (filter isPublic repos)) + n) 0
    else Z.min n (Z.of_nat (List.length (filter isPublic repos))).
Proof.
  unfold select. rewrite slice0_length.
  rewrite <- (Permutation_length (JSFacts.sort_perm byStars _)).
  now rewrite <- (Permutation_length (ReposFacts.prioritize_perm featured _)).
Qed.

Lemma ranked_perm featured repos :
  Permutation (filter isPublic repos) (ranked featured repos).
Proof.
  unfold ranked. rewrite <- JSFacts.sort_perm. apply ReposFacts.prioritize_perm.
Qed.

Lemma ranked_descending featured repos :
  StronglySorted (fun a b => stars b <= stars a) (ranked featured repos).
Proof. apply (JSFacts.sort_descending stars). Qed.

Lemma ranked_without_featured featured repos :
  Names.distinctStars (filter isPublic repos) ->
  ranked featured repos = ranked [] repos.
Proof.
  intros Hnd. apply (descending_unique stars).
  - rewrite <- (ranked_perm featured repos). apply ranked_perm.
  - apply ranked_descending.
  - apply ranked_descending.
  - unfold Names.distinctStars in Hnd.
    eapply Permutation_NoDup; [|exact Hnd].
    apply Permutation_map, ranked_perm.
Qed.

(** What [select] leaves out has no more stars than what it keeps. *)
Lemma select_top featured limit repos kept dropped :
  In kept (select featured limit repos) ->
  In dropped repos -> isPublic dropped = true ->
  ~ In dropped (select featured limit repos) ->
  stars dropped <= stars kept.
Proof.
  intros Hkept Hin Hpub Hout.
  fold (ranked featured repos) in *.
  change (select featured limit repos)
    with (JS.slice0 (ranked featured repos) limit) in *.
  destruct (JSFacts.slice0_prefix (ranked featured repos) limit)
    as (rest & Hsplit).
  assert (In dropped (ranked featured repos)) as Hr.
  { eapply Permutation_in; [apply ranked_perm|]. apply filter_In. auto. }
  rewrite Hsplit in Hr. apply in_app_or in Hr. destruct Hr as [Hr|Hr];
    [contradiction|].
  pose proof (ranked_descending featured repos) as Hs. rewrite Hsplit in Hs.
  exact (StronglySorted_app_inv _ _ _ Hs kept dropped Hkept Hr).
Qed.

(** *** The value of [featured] *)

Lemma nameChars_no_comma s :
  Names.nameChars s = true ->
  JS.split_comma s = [s].
Proof.
  induction s as [|c s IH]; [reflexivity|].
  cbn [Names.nameChars JS.split_comma]. intros H.
  apply andb_prop in H. destruct H as [Hc Hs].
  destruct (Ascii.eqb_spec c ","%char) as [->|_]; [discriminate|].
  now rewrite (IH Hs).
Qed.

Lemma split_comma_cons s rest :
  Names.nameChars s = true ->
  JS.split_comma (s ++ "," ++ rest)%string = s :: JS.split_comma rest.
Proof.
  induction s as [|c s IH]; [reflexivity|].
  cbn [Names.nameChars]. intros H.
  apply andb_prop in H. destruct H as [Hc Hs].
  change (JS.split_comma (String c s ++ "," ++ rest)%string)
    with (if Ascii.eqb c ","%char
          then EmptyString :: JS.split_comma (s ++ "," ++ rest)%string
          else match JS.split_comma (s ++ "," ++ rest)%string with
               | [] => [String c EmptyString]
               | piece :: pieces => String c piece :: pieces
               end).
  destruct (Ascii.eqb_spec c ","%char) as [->|_]; [discriminate|].
  now rewrite (IH Hs).
Qed.

Lemma split_join ids :
  Forall (fun id => Names.repoName id = true) ids ->
  filter JS.nonempty (JS.split_comma (JS.join_comma ids)) = ids.
Proof.
  unfold JS.join_comma.
  induction 1 as [|id ids Hid Hids IH]; [reflexivity|].
  unfold Names.repoName in Hid. apply andb_prop in Hid.
  destruct Hid as [Hne Hchars].
  destruct ids as [|id' ids].
  - cbn [String.concat]. rewrite (nameChars_no_comma _ Hchars).
    cbn [filter]. now rewrite Hne.
  - cbn [String.concat] in *. rewrite (split_comma_cons _ _ Hchars).
    cbn [filter]. rewrite Hne. f_equal. exact IH.
Qed.

(** *** The value of [limit] *)

Lemma digits_step c k s acc :
  JS.digit_val c = Some k ->
  JS.digits (String c s) acc
  = JS.digits s (Some (10 * match acc with Some a => a | None => 0 end + k)).
Proof. intros H. cbn [JS.digits]. now rewrite H. Qed.

Lemma digits_of_uint d :
  forall a,
    JS.digits (NilEmpty.string_of_uint d) (Some (Z.of_nat a))
    = Some (Z.of_nat (Nat.of_uint_acc d a)).
Proof.
  induction d; intros a; cbn [NilEmpty.string_of_uint Nat.of_uint_acc];
    [reflexivity| ..];
    rewrite <- IHd.
  - rewrite (digits_step _ 0) by reflexivity.
    do 2 f_equal. rewrite Nat.tail_mul_spec. lia.
  - rewrite (digits_step _ 1) by reflexivity.
    do 2 f_equal. rewrite Nat.tail_mul_spec. lia.
  - rewrite (digits_step _ 2) by reflexivity.
    do 2 f_equal. rewrite Nat.tail_mul_spec. lia.
  - rewrite (digits_step _ 3) by reflexivity.
    do 2 f_equal. rewrite Nat.tail_mul_spec. lia.
  - rewrite (digits_step _ 4) by reflexivity.
    do 2 f_equal. rewrite Nat.tail_mul_spec. lia.
  - rewrite (digits_step _ 5) by reflexivity.
    do 2 f_equal. rewrite Nat.tail_mul_spec. lia.
  - rewrite (digits_step _ 6) by reflexivity.
    do 2 f_equal. rewrite Nat.tail_mul_spec. lia.
  - rewrite (digits_step _ 7) by reflexivity.
    do 2 f_equal. rewrite Nat.tail_mul_spec. lia.
  - rewrite (digits_step _ 8) by reflexivity.
    do 2 f_equal. rewrite Nat.tail_mul_spec. lia.
  - rewrite (digits_step _ 9) by reflexivity.
    do 2 f_equal. rewrite Nat.tail_mul_spec. lia.
Qed.

Lemma to_uint_not_Nil n : Nat.to_uint n <> Decimal.Nil.
Proof.
  intros H. pose proof (DecimalNat.Unsigned.of_to n) as Hn.
  rewrite H in Hn. simpl in Hn. subst n. discriminate H.
Qed.

(** [parseInt] on a string that starts with a digit. *)
Lemma parseInt_digit c k s :
  JS.digit_val c = Some k ->
  JS.parseInt (String c s)
  = match JS.digits s (Some k) with
    | Some n => JS.Int n
    | None => JS.NaN
    end.
Proof.
  intros Hk. unfold JS.parseInt.
  assert (JS.trimStart (String c s) = String c s) as ->.
  { unfold JS.digit_val in Hk.
    destruct ((48 <=? nat_of_ascii c)%nat && (nat_of_ascii c <=? 57)%nat)
      eqn:Hd; [|discriminate].
    apply andb_prop in Hd. destruct Hd as [H1 H2].
    apply Nat.leb_le in H1. apply Nat.leb_le in H2.
    assert (JS.space1 c = false) as Hspace.
    { unfold JS.space1.
      destruct (Nat.leb_spec 9 (nat_of_ascii c)); [|lia].
      destruct (Nat.leb_spec (nat_of_ascii c) 13); [lia|].
      destruct (Nat.eqb_spec (nat_of_ascii c) 32); [lia|reflexivity]. }
    assert (JS.space_lead c = false) as Hlead.
    { unfold JS.space_lead.
      destruct (Nat.eqb_spec (nat_of_ascii c) 194); [lia|].
      destruct (Nat.eqb_spec (nat_of_ascii c) 225); [lia|].
      destruct (Nat.eqb_spec (nat_of_ascii c) 226); [lia|].
      destruct (Nat.eqb_spec (nat_of_ascii c) 227); [lia|].
      destruct (Nat.eqb_spec (nat_of_ascii c) 239); [lia|reflexivity]. }
    cbn [JS.trimStart]. now rewrite Hspace, Hlead. }
  assert (c <> "-"%char /\ c <> "+"%char) as [Hminus Hplus]
      by (split; intros ->; discriminate).
  assert (match String c s with
          | String "-"%char s' => (-1, s')
          | String "+"%char s' => (1, s')
          | _ => (1, String c s)
          end = (1, String c s)) as ->.
  { destruct c as [[] [] [] [] [] [] [] []]; try reflexivity; congruence. }
  rewrite (digits_step _ k) by exact Hk.
  replace (10 * 0 + k) with k by lia.
  destruct (JS.digits s (Some k)); [f_equal; lia|reflexivity].
Qed.

Lemma digits_of_uint_from d k :
  0 <= k ->
  JS.digits (NilEmpty.string_of_uint d) (Some k)
  = Some (Z.of_nat (Nat.of_uint_acc d (Z.to_nat k))).
Proof.
  intros Hk. rewrite <- digits_of_uint. now rewrite Z2Nat.id.
Qed.

Lemma parseInt_natToString n :
  JS.parseInt (JS.natToString n) = JS.Int (Z.of_nat n).
Proof.
  unfold JS.natToString.
  pose proof (DecimalNat.Unsigned.of_to n) as Hn.
  pose proof (to_uint_not_Nil n) as Hnil.
  unfold Nat.of_uint in Hn.
  destruct (Nat.to_uint n) as [|d|d|d|d|d|d|d|d|d|d]; [congruence| ..];
    cbn [NilEmpty.string_of_uint]; cbn [Nat.of_uint_acc] in Hn;
    rewrite <- Hn.
  - rewrite (parseInt_digit _ 0), digits_of_uint_from by (reflexivity || lia).
    reflexivity.
  - rewrite (parseInt_digit _ 1), digits_of_uint_from by (reflexivity || lia).
    reflexivity.
  - rewrite (parseInt_digit _ 2), digits_of_uint_from by (reflexivity || lia).
    reflexivity.
  - rewrite (parseInt_digit _ 3), digits_of_uint_from by (reflexivity || lia).
    reflexivity.
  - rewrite (parseInt_digit _ 4), digits_of_uint_from by (reflexivity || lia).
    reflexivity.
  - rewrite (parseInt_digit _ 5), digits_of_uint_from by (reflexivity || lia).
    reflexivity.
  - rewrite (parseInt_digit _ 6), digits_of_uint_from by (reflexivity || lia).
    reflexivity.
  - rewrite (parseInt_digit _ 7), digits_of_uint_from by (reflexivity || lia).
    reflexivity.
  - rewrite (parseInt_digit _ 8), digits_of_uint_from by (reflexivity || lia).
    reflexivity.
  - rewrite (parseInt_digit _ 9), digits_of_uint_from by (reflexivity || lia).
    reflexivity.
Qed.

End SelectFacts.

(** More fuel does not change what the loop returns. *)
Lemma fetchAll_more_fuel {Json : Type}
    (view : Json -> Client.GraphQLResponse Types.Repos.Data)
    (network : nat -> Client.Request -> Client.Attempt Json) token fuel :
  forall p w r extra,
    ReposRoute.fetchAll view network token fuel p w = Some r ->
    ReposRoute.fetchAll view network token (fuel + extra) p w = Some r.
Proof.
  induction fuel as [|fuel IH]; intros p w r extra; cbn [ReposRoute.fetchAll].
  - destruct (ReposRoute.more p) eqn:Hmore; [discriminate|].
    intros [= <-]. destruct extra; cbn [Nat.add ReposRoute.fetchAll];
      now rewrite Hmore.
  - cbn [Nat.add ReposRoute.fetchAll].
    destruct (ReposRoute.more p); [|auto].
    destruct (Client.fetchGitHubGraphQL _ _ _ _ _ _) as [[e|d] w1]; [auto|].
    apply IH.
Qed.

Lemma filter_filter_and {A : Type} (p q : A -> bool) l :
  filter p (filter q l) = filter (fun x => p x && q x) l.
Proof.
  induction l as [|x l IH]; [reflexivity|].
  cbn [filter]. destruct (q x); cbn [filter]; destruct (p x); cbn [andb];
    now rewrite IH.
Qed.

Lemma includes_self s : JS.includes s s = true.
Proof.
  pose proof (JSFacts.includes_here s "") as H.
  now rewrite JSFacts.append_empty_r in H.
Qed.

Lemma mapGet_in {V : Type} (entries : list (string * V)) key v :
  Page.mapGet entries key = Some v -> In (key, v) entries.
Proof.
  induction entries as [|[k v'] entries IH]; [discriminate|].
  cbn [Page.mapGet].
  destruct (Page.mapGet entries key) as [later|].
  - intros [= <-]. right. now apply IH.
  - destruct (String.eqb_spec k key) as [->|]; [|discriminate].
    intros [= <-]. now left.
Qed.

Lemma mapGet_found {V : Type} (entries : list (string * V)) key v :
  In (key, v) entries ->
  exists found, Page.mapGet entries key = Some found /\ In (key, found) entries.
Proof.
  induction entries as [|[k v'] entries IH]; [contradiction|].
  intros Hin. cbn [Page.mapGet].
  destruct (Page.mapGet entries key) as [later|] eqn:Hlater.
  - exists later. split; [reflexivity|]. right. now apply mapGet_in.
  - destruct Hin as [Heq|Hin].
    + injection Heq as -> ->. rewrite String.eqb_refl.
      exists v. split; [reflexivity|]. now left.
    + destruct (IH Hin) as (found & Hf & _). discriminate.
Qed.

(** X11: the repositories of an answer come in descending order of their
    star count, whatever the [featured] and [limit] parameters are. *)
Theorem answer_is_in_descending_order_of_stars {Json : Type}
    (view : Json -> Client.GraphQLResponse Types.Repos.Data)
    (network : nat -> Client.Request -> Client.Attempt Json)
    token featuredParam limitParam fuel w body cache w' :
  ReposRoute.GET view network token featuredParam limitParam fuel w
  = Some (JsonBody body cache, w') ->
  StronglySorted
    (fun a b => Types.stargazerCount b <= Types.stargazerCount a) body.
Proof.
  intros H. apply ReposFacts.GET_body in H. destruct H as (repos & _ & ->).
  apply SelectFacts.StronglySorted_map.
  cbn [ReposRoute.toRepository Types.stargazerCount].
  apply ReposFacts.select_descending.
Qed.

Lemma answer_is_in_descending_order_of_stars_witness :
  ReposRoute.GET Fixtures.same (Fixtures.serve [Fixtures.mixedPage])
    Fixtures.token (Some "foo") None 1 Client.start
  = Some (JsonBody
            (map ReposRoute.toRepository
               [Fixtures.repoB; Fixtures.repoC; Fixtures.repoA])
            CACHE_CONTROL,
          {| Client.requests := 1; Client.slept := [] |})
  /\ StronglySorted
       (fun a b => Types.stargazerCount b <= Types.stargazerCount a)
       (map ReposRoute.toRepository
          [Fixtures.repoB; Fixtures.repoC; Fixtures.repoA]).
Proof.
  assert (ReposRoute.GET Fixtures.same (Fixtures.serve [Fixtures.mixedPage])
            Fixtures.token (Some "foo") None 1 Client.start
          = Some (JsonBody
                    (map ReposRoute.toRepository
                       [Fixtures.repoB; Fixtures.repoC; Fixtures.repoA])
                    CACHE_CONTROL,
                  {| Client.requests := 1; Client.slept := [] |})) as Hrun
      by reflexivity.
  split; [exact Hrun|].
  exact (answer_is_in_descending_order_of_stars _ _ _ _ _ _ _ _ _ _ Hrun).
Defined.

(** X12: how many repositories an answer holds.  When the loop has
    returned, the route answers with a body; for a limit that parses to
    [n >= 0] the body holds [n] repositories, or all the listed ones when
    there are fewer; for a negative [n] it holds all but the last [-n] of
    them, and none when there are not that many. *)
Theorem answer_length {Json : Type}
    (view : Json -> Client.GraphQLResponse Types.Repos.Data)
    (network : nat -> Client.Request -> Client.Attempt Json)
    token featuredParam limitParam fuel w repos w' n :
  JS.falsy token = false ->
  ReposRoute.fetchAll view network token fuel ReposRoute.initial w
  = Some (inr repos, w') ->
  ReposRoute.limitOf limitParam = JS.Int n ->
  exists body,
    ReposRoute.GET view network token featuredParam limitParam fuel w
    = Some (JsonBody body CACHE_CONTROL, w')
    /\ Z.of_nat (List.length body)
       = if n <? 0
         then Z.max
                (Z.of_nat (List.length (filter ReposRoute.isPublic repos)) + n)
                0
         else Z.min n
                (Z.of_nat (List.length (filter ReposRoute.isPublic repos))).
Proof.
  intros Htoken Hloop Hlimit. eexists. split.
  - apply ReposFacts.GET_of_fetchAll; [exact Htoken|exact Hloop].
  - rewrite length_map, Hlimit. apply SelectFacts.select_length.
Qed.

Lemma answer_length_witness :
  exists body,
    ReposRoute.GET Fixtures.same (Fixtures.serve [Fixtures.onePage])
      Fixtures.token None (Some "-1") 1 Client.start
    = Some (JsonBody body CACHE_CONTROL,
            {| Client.requests := 1; Client.slept := [] |})
    /\ Z.of_nat (List.length body) = 2.
Proof.
  exact (answer_length Fixtures.same (Fixtures.serve [Fixtures.onePage])
           Fixtures.token None (Some "-1") 1%nat Client.start
           [Fixtures.repoA; Fixtures.repoB; Fixtures.repoC]
           {| Client.requests := 1; Client.slept := [] |} (-1)
           eq_refl eq_refl eq_refl).
Defined.

(** X13: an answer holds the most starred repositories.  A listed
    repository of the upstream that is missing from the answer has no more
    stars than any repository in the answer. *)
Theorem answer_holds_the_most_starred {Json : Type}
    (view : Json -> Client.GraphQLResponse Types.Repos.Data)
    (network : nat -> Client.Request -> Client.Attempt Json)
    token featuredParam limitParam fuel w repos w' body cache :
  ReposRoute.fetchAll view network token fuel ReposRoute.initial w
  = Some (inr repos, w') ->
  ReposRoute.GET view network token featuredParam limitParam fuel w
  = Some (JsonBody body cache, w') ->
  forall r node,
    In r body ->
    In node repos -> ReposRoute.isPublic node = true ->
    ~ In (ReposRoute.toRepository node) body ->
    ReposRoute.stars node <= Types.stargazerCount r.
Proof.
  intros Hloop Hget r node Hr Hnode Hpub Hout.
  apply ReposFacts.GET_body in Hget. destruct Hget as (repos' & Hloop' & ->).
  rewrite Hloop in Hloop'. injection Hloop' as <-.
  apply in_map_iff in Hr. destruct Hr as (kept & <- & Hkept).
  cbn [ReposRoute.toRepository Types.stargazerCount].
  eapply SelectFacts.select_top; eauto.
  intros Hin. apply Hout. now apply in_map.
Qed.

Lemma answer_holds_the_most_starred_witness :
  ReposRoute.stars Fixtures.repoA
  <= Types.stargazerCount (ReposRoute.toRepository Fixtures.repoC).
Proof.
  apply (answer_holds_the_most_starred Fixtures.same
           (Fixtures.serve [Fixtures.onePage]) Fixtures.token (Some "foo")
           (Some "2") 1%nat Client.start
           [Fixtures.repoA; Fixtures.repoB; Fixtures.repoC]
           {| Client.requests := 1; Client.slept := [] |}
           (map ReposRoute.toRepository [Fixtures.repoB; Fixtures.repoC])
           CACHE_CONTROL eq_refl eq_refl).
  - right. now left.
  - now left.
  - reflexivity.
  - intros [H|[H|[]]]; discriminate H.
Defined.

(** X14: the [featured] parameter changes nothing when the listed
    repositories of the upstream all have different star counts: the
    answer is the one that the same request without [featured] gets. *)
Theorem featured_changes_nothing_when_stars_differ {Json : Type}
    (view : Json -> Client.GraphQLResponse Types.Repos.Data)
    (network : nat -> Client.Request -> Client.Attempt Json)
    token featuredParam limitParam fuel w repos w' :
  ReposRoute.fetchAll view network token fuel ReposRoute.initial w
  = Some (inr repos, w') ->
  Names.distinctStars (filter ReposRoute.isPublic repos) ->
  ReposRoute.GET view network token featuredParam limitParam fuel w
  = ReposRoute.GET view network token None limitParam fuel w.
Proof.
  intros Hloop Hdistinct. unfold ReposRoute.GET.
  destruct (JS.falsy token); [reflexivity|]. rewrite Hloop.
  unfold ReposRoute.select.
  fold (Names.ranked (ReposRoute.featuredOf featuredParam) repos).
  fold (Names.ranked (ReposRoute.featuredOf None) repos).
  rewrite (SelectFacts.ranked_without_featured _ _ Hdistinct).
  now rewrite (SelectFacts.ranked_without_featured
                 (ReposRoute.featuredOf None) _ Hdistinct).
Qed.

Lemma featured_changes_nothing_when_stars_differ_witness :
  Names.distinctStars
    (filter ReposRoute.isPublic
       [Fixtures.repoA; Fixtures.repoB; Fixtures.repoC])
  /\ ReposRoute.GET Fixtures.same (Fixtures.serve [Fixtures.onePage])
       Fixtures.token (Some "foo") (Some "2") 1 Client.start
     = ReposRoute.GET Fixtures.same (Fixtures.serve [Fixtures.onePage])
         Fixtures.token None (Some "2") 1 Client.start.
Proof.
  assert (Names.distinctStars
            (filter ReposRoute.isPublic
               [Fixtures.repoA; Fixtures.repoB; Fixtures.repoC])) as Hd.
  { unfold Names.distinctStars. cbn.
    repeat constructor; cbn; intuition discriminate. }
  split; [exact Hd|].
  exact (featured_changes_nothing_when_stars_differ Fixtures.same
           (Fixtures.serve [Fixtures.onePage]) Fixtures.token (Some "foo")
           (Some "2") 1%nat Client.start
           [Fixtures.repoA; Fixtures.repoB; Fixtures.repoC]
           {| Client.requests := 1; Client.slept := [] |} eq_refl Hd).
Defined.

(** X15: what the [featured] parameter does decide.  With a limit that
    covers all listed repositories, the repositories of the answer with a
    given star count are first the featured ones, then the others, each
    group in the order of the upstream. *)
Theorem featured_first_among_equal_stars featured n repos k :
  featured <> [] ->
  Z.of_nat (List.length (filter ReposRoute.isPublic repos)) <= n ->
  filter (fun r => ReposRoute.stars r =? k)
    (ReposRoute.select featured (JS.Int n) repos)
  = filter
      (fun r => (ReposRoute.stars r =? k) && ReposRoute.isFeatured featured r)
      (filter ReposRoute.isPublic repos)
    ++ filter
         (fun r =>
            (ReposRoute.stars r =? k)
            && negb (ReposRoute.isFeatured featured r))
         (filter ReposRoute.isPublic repos).
Proof.
  intros Hfeatured Hn. unfold ReposRoute.select, JS.slice0.
  rewrite firstn_all2.
  - rewrite ReposFacts.sort_keeps_featured_first_among_equals.
    unfold ReposRoute.prioritize.
    destruct featured as [|f featured]; [congruence|]. cbn [List.length Nat.ltb Nat.leb].
    rewrite filter_app. now rewrite !filter_filter_and.
  - rewrite <- (Permutation_length (JSFacts.sort_perm ReposRoute.byStars _)).
    rewrite <- (Permutation_length (ReposFacts.prioritize_perm featured _)).
    destruct (Z.ltb_spec n 0); lia.
Qed.

Lemma featured_first_among_equal_stars_witness :
  filter (fun r => ReposRoute.stars r =? 5)
    (ReposRoute.select ["foo"] (JS.Int 10)
       [Samples.tiedB; Samples.tiedA; Samples.tiedC])
  = [Samples.tiedA; Samples.tiedC] ++ [Samples.tiedB].
Proof.
  exact (featured_first_among_equal_stars ["foo"] 10
           [Samples.tiedB; Samples.tiedA; Samples.tiedC] 5
           ltac:(discriminate) ltac:(cbn; lia)).
Defined.

(** X16: the route ends on an upstream that makes progress.  When every
    page that announces a next page carries at least one node, the
    pagination loop needs at most 100 pages: the route answers, and the
    answer is the same for every bound of at least 100 pages. *)
Theorem listing_ends_on_a_progressing_upstream {Json : Type}
    (view : Json -> Client.GraphQLResponse Types.Repos.Data)
    (network : nat -> Client.Request -> Client.Attempt Json)
    token featuredParam limitParam fuel w :
  Upstream.every_page view network Upstream.progresses ->
  (100 <= fuel)%nat ->
  ReposRoute.GET view network token featuredParam limitParam fuel w <> None
  /\ ReposRoute.GET view network token featuredParam limitParam fuel w
     = ReposRoute.GET view network token featuredParam limitParam 100 w.
Proof.
  intros Hprog Hfuel.
  assert (ReposRoute.GET view network token featuredParam limitParam fuel w
          = ReposRoute.GET view network token featuredParam limitParam 100 w)
    as Hsame.
  { unfold ReposRoute.GET. destruct (JS.falsy token); [reflexivity|].
    pose proof (ReposFacts.fetchAll_ends view network token 100 w Hprog
                  (Nat.le_refl _)) as Hends.
    destruct (ReposRoute.fetchAll view network token 100 ReposRoute.initial w)
      as [r|] eqn:H100; [|congruence].
    replace fuel with (100 + (fuel - 100))%nat by lia.
    now rewrite (fetchAll_more_fuel _ _ _ _ _ _ _ (fuel - 100)%nat H100). }
  split; [|exact Hsame]. rewrite Hsame.
  unfold ReposRoute.GET. destruct (JS.falsy token); [discriminate|].
  pose proof (ReposFacts.fetchAll_ends view network token 100 w Hprog
                (Nat.le_refl _)) as Hends.
  destruct (ReposRoute.fetchAll view network token 100 ReposRoute.initial w)
    as [[[e|repos] w1]|]; [discriminate|discriminate|congruence].
Qed.

Lemma listing_ends_on_a_progressing_upstream_witness :
  ReposRoute.GET Fixtures.same
    (Fixtures.serve [Fixtures.fullPage; Fixtures.onePage]) Fixtures.token
    None None 150 Client.start
  <> None.
Proof.
  apply (listing_ends_on_a_progressing_upstream Fixtures.same
           (Fixtures.serve [Fixtures.fullPage; Fixtures.onePage])
           Fixtures.token None None 150 Client.start).
  - intros d Hd. apply serve_sends in Hd.
    destruct Hd as [[<- | [<- | []]] | ->]; unfold Upstream.progresses;
      intros Hnext; try discriminate Hnext.
    apply Nat.leb_le. vm_compute. reflexivity.
  - lia.
Defined.

(** X17: the requests of the two callers are read back by the route.
    When the featured ids are repository names, the route reads the
    [featured] value that the page or the GitHub section builds as the
    list of these ids, in their order, and the [limit] value as the number
    of ids (the page) or as 6 (the GitHub section). *)
Theorem callers_parameters_are_read_back (configs : list Page.FeaturedRepo) :
  Forall (fun r => Names.repoName (Page.featured_id r) = true) configs ->
  ReposRoute.featuredOf (fst (Page.featuredQuery configs))
  = map Page.featured_id configs
  /\ ReposRoute.limitOf (snd (Page.featuredQuery configs))
     = JS.Int (Z.of_nat (List.length configs))
  /\ ReposRoute.featuredOf
       (fst (GithubSection.reposQuery (map Page.featured_id configs)))
     = map Page.featured_id configs
  /\ ReposRoute.limitOf
       (snd (GithubSection.reposQuery (map Page.featured_id configs)))
     = JS.Int 6.
Proof.
  intros Hnames.
  assert (Forall (fun id => Names.repoName id = true)
            (map Page.featured_id configs)) as Hids
      by (rewrite Forall_map; exact Hnames).
  cbn [Page.featuredQuery GithubSection.reposQuery fst snd].
  split; [|split; [|split]].
  - unfold ReposRoute.featuredOf. now apply SelectFacts.split_join.
  - unfold ReposRoute.limitOf.
    assert (forall m, JS.or_string (Some (JS.natToString m)) "10"
                      = JS.natToString m) as Hor.
    { intros m. unfold JS.natToString.
      pose proof (SelectFacts.to_uint_not_Nil m).
      destruct (Nat.to_uint m); [congruence| ..]; reflexivity. }
    rewrite Hor, SelectFacts.parseInt_natToString. now rewrite length_map.
  - destruct configs as [|c configs]; [reflexivity|].
    cbn [map List.length Nat.ltb Nat.leb]. unfold ReposRoute.featuredOf.
    now apply SelectFacts.split_join.
  - reflexivity.
Qed.

Lemma callers_parameters_are_read_back_witness :
  ReposRoute.featuredOf (fst (Page.featuredQuery Samples.featuredConfig))
  = ["GoChatMirror"; "portfolio-website"]
  /\ ReposRoute.limitOf (snd (Page.featuredQuery Samples.featuredConfig))
     = JS.Int 2.
Proof.
  assert (Forall (fun r => Names.repoName (Page.featured_id r) = true)
            Samples.featuredConfig) as Hnames
      by (repeat constructor).
  destruct (callers_parameters_are_read_back _ Hnames) as (Hf & Hl & _).
  split; [exact Hf|exact Hl].
Defined.

(** X18: a repository that is named exactly like a featured id, letter
    case aside, is featured by the route, and the page finds a
    configuration entry for it whose id is that name, letter case
    aside. *)
Theorem exactly_named_repository_is_featured_and_configured
    (configs : list Page.FeaturedRepo) (config : Page.FeaturedRepo)
    (node : Types.Repos.Node) :
  Forall (fun r => Names.repoName (Page.featured_id r) = true) configs ->
  In config configs ->
  JS.toLowerCase (Types.Repos.name node)
  = JS.toLowerCase (Page.featured_id config) ->
  ReposRoute.isFeatured
    (ReposRoute.featuredOf (fst (Page.featuredQuery configs))) node = true
  /\ exists found,
      Page.configOf configs (ReposRoute.toRepository node) = Some found
      /\ JS.toLowerCase (Page.featured_id found)
         = JS.toLowerCase (Types.Repos.name node).
Proof.
  intros Hnames Hin Hname. split.
  - assert (Forall (fun id => Names.repoName id = true)
              (map Page.featured_id configs)) as Hids
        by (rewrite Forall_map; exact Hnames).
    cbn [Page.featuredQuery fst]. unfold ReposRoute.featuredOf.
    rewrite (SelectFacts.split_join _ Hids).
    unfold ReposRoute.isFeatured. apply existsb_exists.
    exists (Page.featured_id config). split; [now apply in_map|].
    rewrite Hname. apply includes_self.
  - unfold Page.configOf. cbn [ReposRoute.toRepository Types.name].
    destruct (mapGet_found
                (map (fun r => (JS.toLowerCase (Page.featured_id r), r)) configs)
                (JS.toLowerCase (Types.Repos.name node)) config)
      as (found & Hfound & Hentry).
    + rewrite Hname. apply in_map_iff. exists config. auto.
    + exists found. split; [exact Hfound|].
      apply in_map_iff in Hentry. destruct Hentry as (r & Hr & _).
      injection Hr as Hkey Hr. subst found. exact Hkey.
Qed.

Lemma exactly_named_repository_is_featured_and_configured_witness :
  ReposRoute.isFeatured
    (ReposRoute.featuredOf (fst (Page.featuredQuery Samples.featuredConfig)))
    Samples.mirror = true
  /\ exists found,
      Page.configOf Samples.featuredConfig
        (ReposRoute.toRepository Samples.mirror) = Some found
      /\ JS.toLowerCase (Page.featured_id found)
         = JS.toLowerCase (Types.Repos.name Samples.mirror).
Proof.
  apply (exactly_named_repository_is_featured_and_configured
           Samples.featuredConfig
           {| Page.featured_id := "GoChatMirror";
              Page.featured_description := None;
              Page.featured_image := None;
              Page.featured_icon := Some "pixel:robot" |}
           Samples.mirror).
  - repeat constructor.
  - now left.
  - reflexivity.
Defined.

(* ===================================================================== *)
(** ** The GitHub section and the logger *)
(* ===================================================================== *)

(** X19: the wording of [formatDate] for a date that parses.  The text is
    "today", "yesterday", or a count with a unit, and the count is never 0:
    2 to 6 days, 1 to 4 weeks, 1 to 12 months, or at least 1 year; a date
    in the future reads like the date as far in the past. *)
Theorem formatDate_wording (date now : Z) :
  (GithubSection.formatDate (JS.Int date) now = "today"
   \/ GithubSection.formatDate (JS.Int date) now = "yesterday"
   \/ (exists n, (2 <= n <= 6)%nat
                 /\ GithubSection.formatDate (JS.Int date) now
                    = (JS.natToString n ++ " days ago")%string)
   \/ (exists n, (1 <= n <= 4)%nat
                 /\ GithubSection.formatDate (JS.Int date) now
                    = (JS.natToString n ++ " weeks ago")%string)
   \/ (exists n, (1 <= n <= 12)%nat
                 /\ GithubSection.formatDate (JS.Int date) now
                    = (JS.natToString n ++ " months ago")%string)
   \/ (exists n, (1 <= n)%nat
                 /\ GithubSection.formatDate (JS.Int date) now
                    = (JS.natToString n ++ " years ago")%string))
  /\ GithubSection.formatDate (JS.Int date) now
     = GithubSection.formatDate (JS.Int now) date.
Proof.
  split.
  - unfold GithubSection.formatDate.
    change (1000 * 60 * 60 * 24) with 86400000.
    assert (0 <= Z.abs (now - date) / 86400000) as Hpos
        by (apply Z.div_pos; lia).
    set (diffDays := Z.abs (now - date) / 86400000) in *.
    destruct (Z.eqb_spec diffDays 0); [now left|].
    destruct (Z.eqb_spec diffDays 1); [now right; left|].
    destruct (Z.ltb_spec diffDays 7).
    { right. right. left. exists (Z.to_nat diffDays). split; [lia|reflexivity]. }
    destruct (Z.ltb_spec diffDays 30).
    { right. right. right. left. exists (Z.to_nat (diffDays / 7)).
      split; [|reflexivity].
      assert (1 <= diffDays / 7 < 5)
        by (split; [apply Z.div_le_lower_bound|apply Z.div_lt_upper_bound];
            lia).
      lia. }
    destruct (Z.ltb_spec diffDays 365).
    { right. right. right. right. left. exists (Z.to_nat (diffDays / 30)).
      split; [|reflexivity].
      assert (1 <= diffDays / 30 < 13)
        by (split; [apply Z.div_le_lower_bound|apply Z.div_lt_upper_bound];
            lia).
      lia. }
    right. right. right. right. right. exists (Z.to_nat (diffDays / 365)).
    split; [|reflexivity].
    assert (1 <= diffDays / 365) by (apply Z.div_le_lower_bound; lia).
    lia.
  - unfold GithubSection.formatDate.
    now replace (Z.abs (date - now)) with (Z.abs (now - date)) by lia.
Qed.

Module LoggerFacts.
Import Logger.

Section Entries.
Context {Ctx Err : Type}.
Variable sanitizeContext : option Ctx -> option Ctx.

Lemma addLog_length (st : State Ctx Err) entry :
  (List.length (logs st) <= 1000)%nat ->
  (List.length (logs (addLog st entry)) <= 1000)%nat.
Proof.
  intros Hlen. unfold addLog, maxLogs. cbn [logs].
  rewrite length_app. cbn [List.length].
  destruct (Z.ltb_spec 1000 (Z.of_nat (List.length (logs st) + 1))).
  - assert (List.length (logs st) = 1000%nat) as Hfull by lia.
    unfold JS.sliceFrom. rewrite length_skipn, length_app.
    cbn [List.length]. rewrite Hfull. vm_compute. lia.
  - rewrite length_app. cbn [List.length]. lia.
Qed.

Lemma step_length (st : State Ctx Err) call :
  (List.length (logs st) <= 1000)%nat ->
  (List.length (logs (step sanitizeContext st call)) <= 1000)%nat.
Proof.
  intros Hlen. destruct call as [now lvl msg ctx err|lvl|]; cbn [step].
  - unfold log.
    destruct (negb (shouldLog st lvl) || negb (JS.nonempty msg));
      [exact Hlen|now apply addLog_length].
  - exact Hlen.
  - simpl. lia.
Qed.

Lemma addLog_logs (st : State Ctx Err) entry :
  (List.length (logs st) <= 1000)%nat ->
  logs (addLog st entry)
  = if (List.length (logs st) =? 1000)%nat
    then skipn 1 (logs st ++ [entry])
    else logs st ++ [entry].
Proof.
  intros Hlen. unfold addLog, maxLogs. cbn [logs].
  rewrite length_app. cbn [List.length].
  destruct (Nat.eqb_spec (List.length (logs st)) 1000) as [Hfull|Hroom].
  - destruct (Z.ltb_spec 1000 (Z.of_nat (List.length (logs st) + 1))); [|lia].
    unfold JS.sliceFrom. rewrite length_app. cbn [List.length].
    rewrite Hfull. reflexivity.
  - destruct (Z.ltb_spec 1000 (Z.of_nat (List.length (logs st) + 1))); [lia|].
    reflexivity.
Qed.
End Entries.

End LoggerFacts.

(** X20: the log buffer never grows beyond 1000 entries, whatever is
    logged and however the level is changed or the buffer cleared. *)
Theorem log_buffer_is_bounded {Ctx Err : Type}
    (sanitizeContext : option Ctx -> option Ctx)
    (st : Logger.State Ctx Err) (calls : list (Logger.Call Ctx Err)) :
  (List.length (Logger.logs st) <= 1000)%nat ->
  (List.length (Logger.logs (Logger.run sanitizeContext st calls)) <= 1000)%nat.
Proof.
  revert st. unfold Logger.run.
  induction calls as [|call calls IH]; intros st Hlen; [exact Hlen|].
  cbn [fold_left]. apply IH. now apply LoggerFacts.step_length.
Qed.

Lemma log_buffer_is_bounded_witness :
  (List.length (Logger.logs Samples.full) <= 1000)%nat
  /\ (List.length
        (Logger.logs
           (Logger.run Samples.keep Samples.full
              [Logger.CallLog "2025-01-01T00:00:01.000Z" Logger.ERROR
                 "Error fetching featured projects" None None;
               Logger.CallSetLevel Logger.DEBUG;
               Logger.CallLog "2025-01-01T00:00:02.000Z" Logger.DEBUG
                 "retrying" None None]))
      <= 1000)%nat.
Proof.
  assert (List.length (Logger.logs Samples.full) <= 1000)%nat as Hlen
      by (cbn [Samples.full Logger.logs]; rewrite repeat_length; lia).
  split; [exact Hlen|].
  exact (log_buffer_is_bounded Samples.keep Samples.full _ Hlen).
Defined.

(** X21: what one call of [log] stores.  A message below the current
    level, or an empty message, leaves the logger as it is.  Any other
    message is appended as the newest entry, with the time, the level, the
    message and the session id of the logger; and when the buffer already
    holds 1000 entries, the oldest one is dropped and nothing else. *)
Theorem log_appends_and_drops_the_oldest {Ctx Err : Type}
    (sanitizeContext : option Ctx -> option Ctx)
    (st : Logger.State Ctx Err) now lvl msg ctx err :
  (List.length (Logger.logs st) <= 1000)%nat ->
  (Logger.rank lvl < Logger.rank (Logger.currentLevel st) \/ msg = "" ->
   Logger.log sanitizeContext st now lvl msg ctx err = st)
  /\ (Logger.rank (Logger.currentLevel st) <= Logger.rank lvl ->
      msg <> "" ->
      Logger.logs (Logger.log sanitizeContext st now lvl msg ctx err)
      = (if (List.length (Logger.logs st) =? 1000)%nat
         then skipn 1 (Logger.logs st)
         else Logger.logs st)
        ++ [ {| Logger.timestamp := now;
                Logger.level := lvl;
                Logger.message := msg;
                Logger.context := sanitizeContext ctx;
                Logger.error := err;
                Logger.sessionId := Logger.session st |} ]
      /\ Logger.currentLevel
           (Logger.log sanitizeContext st now lvl msg ctx err)
         = Logger.currentLevel st).
Proof.
  intros Hlen. unfold Logger.log, Logger.shouldLog. split.
  - intros [Hlow|Hempty].
    + destruct (Z.leb_spec (Logger.rank (Logger.currentLevel st))
                  (Logger.rank lvl)); [lia|reflexivity].
    + subst msg. cbn [JS.nonempty negb]. now rewrite orb_true_r.
  - intros Hhigh Hmsg.
    destruct (Z.leb_spec (Logger.rank (Logger.currentLevel st))
                (Logger.rank lvl)); [|lia].
    destruct msg as [|c msg]; [congruence|]. cbn [JS.nonempty negb orb].
    split; [|reflexivity].
    rewrite (LoggerFacts.addLog_logs _ _ Hlen).
    destruct (Nat.eqb_spec (List.length (Logger.logs st)) 1000) as [Hfull|_];
      [|reflexivity].
    destruct (Logger.logs st) as [|oldest rest]; [discriminate Hfull|].
    reflexivity.
Qed.

Lemma log_appends_and_drops_the_oldest_witness :
  Logger.log Samples.keep Samples.production "2025-01-01T00:00:01.000Z"
    Logger.INFO "Logger initialized" None None
  = Samples.production
  /\ Logger.logs
       (Logger.log Samples.keep Samples.full "2025-01-01T00:00:01.000Z"
          Logger.ERROR "Error fetching avatar from GitHub" None None)
     = repeat (Samples.entry Logger.WARN "slow") 999
       ++ [ {| Logger.timestamp := "2025-01-01T00:00:01.000Z";
               Logger.level := Logger.ERROR;
               Logger.message := "Error fetching avatar from GitHub";
               Logger.context := None;
               Logger.error := None;
               Logger.sessionId := "1735689600000-k3j9x2a" |} ].
Proof.
  split.
  - apply (proj1 (log_appends_and_drops_the_oldest Samples.keep
                    Samples.production "2025-01-01T00:00:01.000Z" Logger.INFO
                    "Logger initialized" None None ltac:(cbn; lia))).
    left. cbn. lia.
  - assert (List.length (Logger.logs Samples.full) <= 1000)%nat as Hlen
        by (cbn [Samples.full Logger.logs]; rewrite repeat_length; lia).
    destruct (proj2 (log_appends_and_drops_the_oldest Samples.keep
                       Samples.full "2025-01-01T00:00:01.000Z" Logger.ERROR
                       "Error fetching avatar from GitHub" None None Hlen)
                ltac:(cbn; lia) ltac:(discriminate)) as [Hlogs _].
    exact Hlogs.
Defined.
